(** * The structured logger of tools/logging/python/logger.py

    A shallow embedding of the Python logger: level filtering, the event-id
    counter, binding hierarchies, entry assembly, error serialisation and
    the two renderers, the module-level configuration and helpers and the
    entry point of src/main.py, followed by the properties the
    specification states about them and by further properties of the code.

    Python dictionaries are finite maps from strings ([gmap string value]);
    the process-wide state (the event-id counter and what has been written
    to the streams) is threaded explicitly; a raised exception is an
    [outcome] of its own.  What can raise does: [json.dumps], the
    conversion of an integer beyond the interpreter's digit limit, a
    stream that refuses a write or a flush.  Strings are sequences of
    8-bit characters:
    [str.lower], [str.upper], slicing and case-insensitive search are the
    ASCII ones.  The loops over dictionary items are folds over the map:
    each iteration writes at most the key it visits, so the order of the
    visit does not show in the result. *)

From Stdlib Require Import ZArith NArith String Ascii List Bool Lia.
From Stdlib Require Import DecimalString DecimalN DecimalPos Sorted.
From stdpp Require Import gmap strings list fin_maps.

(** ** Python strings *)

Module PyStr.

Definition lower_char (c : ascii) : ascii :=
  let n := nat_of_ascii c in
  if (65 <=? n)%nat && (n <=? 90)%nat then ascii_of_nat (n + 32) else c.

Definition upper_char (c : ascii) : ascii :=
  let n := nat_of_ascii c in
  if (97 <=? n)%nat && (n <=? 122)%nat then ascii_of_nat (n - 32) else c.

Fixpoint map_chars (f : ascii -> ascii) (s : string) : string :=
  match s with
  | EmptyString => EmptyString
  | String c s' => String (f c) (map_chars f s')
  end.

(** [s.lower()] and [s.upper()] *)
Definition lower : string -> string := map_chars lower_char.
Definition upper : string -> string := map_chars upper_char.

(** [s.startswith(p)] *)
Definition startswith (s p : string) : bool := String.prefix p s.

(** [s[:n]] *)
Fixpoint take (n : nat) (s : string) : string :=
  match n, s with
  | S n', String c s' => String c (take n' s')
  | _, _ => EmptyString
  end.

(** [p in s]: some suffix of [s] starts with [p] *)
Fixpoint find (p s : string) : bool :=
  String.prefix p s ||
  match s with
  | EmptyString => false
  | String _ s' => find p s'
  end.

(** [re.search(p, s, re.IGNORECASE)] for a pattern without
    metacharacters *)
Definition search_ignorecase (p s : string) : bool :=
  find (lower p) (lower s).

(** [sep.join(parts)] *)
Fixpoint join (sep : string) (parts : list string) : string :=
  match parts with
  | [] => ""
  | [p] => p
  | p :: rest => p +:+ sep +:+ join sep rest
  end.

(** [str(n)] for an integer *)
Definition of_Z (z : Z) : string := NilZero.string_of_int (Z.to_int z).
Definition of_N (n : N) : string := NilZero.string_of_uint (N.to_uint n).

(** [int(s)] for a string of decimal digits *)
Definition to_N (s : string) : option N :=
  N.of_uint <$> NilZero.uint_of_string s.

(** the text after the last occurrence of [c], when [c] occurs *)
Fixpoint after_last (c : ascii) (s : string) : option string :=
  match s with
  | EmptyString => None
  | String a s' =>
      match after_last c s' with
      | Some r => Some r
      | None => if Ascii.eqb a c then Some s' else None
      end
  end.

(** [t] occurs in [s] *)
Definition contains (s t : string) : Prop :=
  exists a b, s = a +:+ t +:+ b.

(** [c.isspace()], for a code point below 256 *)
Definition is_space (c : ascii) : bool :=
  let n := nat_of_ascii c in
  ((9 <=? n)%nat && (n <=? 13)%nat) || ((28 <=? n)%nat && (n <=? 32)%nat)
  || (n =? 133)%nat || (n =? 160)%nat.

(** a line boundary of [str.splitlines], for a code point below 256 *)
Definition is_linebreak (c : ascii) : bool :=
  let n := nat_of_ascii c in
  ((10 <=? n)%nat && (n <=? 13)%nat) || ((28 <=? n)%nat && (n <=? 30)%nat)
  || (n =? 133)%nat.

Fixpoint lstrip_by (p : ascii -> bool) (s : string) : string :=
  match s with
  | EmptyString => EmptyString
  | String c s' => if p c then lstrip_by p s' else s
  end.

Fixpoint rstrip_by (p : ascii -> bool) (s : string) : string :=
  match s with
  | EmptyString => EmptyString
  | String c s' =>
      match rstrip_by p s' with
      | EmptyString => if p c then EmptyString else String c EmptyString
      | r => String c r
      end
  end.

(** [s.strip()] and [s.strip(chars)] *)
Definition strip (s : string) : string :=
  rstrip_by is_space (lstrip_by is_space s).

Fixpoint mem_char (c : ascii) (chars : string) : bool :=
  match chars with
  | EmptyString => false
  | String a chars' => Ascii.eqb c a || mem_char c chars'
  end.

Definition strip_chars (chars s : string) : string :=
  rstrip_by (fun c => mem_char c chars)
            (lstrip_by (fun c => mem_char c chars) s).

(** [s.split(sep, 1)] for a one-character separator: the two parts, or
    [None] when the separator does not occur and the list has one item *)
Fixpoint split_once (sep : ascii) (s : string) : option (string * string) :=
  match s with
  | EmptyString => None
  | String c s' =>
      if Ascii.eqb c sep then Some (EmptyString, s')
      else match split_once sep s' with
           | Some (a, b) => Some (String c a, b)
           | None => None
           end
  end.

(** [s.splitlines()]: [line] holds the characters of the current line *)
Fixpoint splitlines_from (line s : string) : list string :=
  match s with
  | EmptyString => match line with EmptyString => [] | _ => [line] end
  | String c s' =>
      if is_linebreak c
      then line ::
           match s' with
           | String c' s'' =>
               if Ascii.eqb c "013" && Ascii.eqb c' "010"
               then splitlines_from EmptyString s''
               else splitlines_from EmptyString s'
           | EmptyString => splitlines_from EmptyString s'
           end
      else splitlines_from (line +:+ String c EmptyString) s'
  end.

Definition splitlines (s : string) : list string :=
  splitlines_from EmptyString s.

End PyStr.

(** ** Python values *)

#[warnings="-register-all"]
Inductive value : Type :=
  | VNone
  | VBool (b : bool)
  | VInt (z : Z)
  | VStr (s : string)
  | VList (l : list value)
  | VDict (d : gmap string value).

(** [v is None] *)
Definition is_none (v : value) : bool :=
  match v with VNone => true | _ => false end.

(** [bool(v)] *)
Definition truthy (v : value) : bool :=
  match v with
  | VNone => false
  | VBool b => b
  | VInt z => negb (z =? 0)%Z
  | VStr s => negb (String.eqb s "")
  | VList l => match l with [] => false | _ => true end
  | VDict d => negb (size d =? 0)%nat
  end.

(** [a or b] *)
Definition py_or (a b : value) : value := if truthy a then a else b.

(** [d.get(k)]: an absent key reads as [None] *)
Definition dict_get (d : gmap string value) (k : string) : value :=
  default VNone (d !! k).

(** [a.update(b)] *)
Definition dict_update (a b : gmap string value) : gmap string value := b ∪ a.

(** An item of the sequence [dict] is applied to, as a key and a value: a
    sequence of two values, or a string of two characters.  Any other
    value of the model makes [dict] raise, but for two cases the
    dictionaries of the model, which have strings as keys and no order,
    cannot express: a pair whose key is [None], a truth value or an
    integer, and an item that is itself a dictionary of two keys. *)
Definition pair_item (item : value) : option (string * value) :=
  match item with
  | VList [VStr key; v] => Some (key, v)
  | VStr (String a (String b EmptyString)) =>
      Some (String a EmptyString, VStr (String b EmptyString))
  | _ => None
  end.

Fixpoint dict_of_items (items : list value) (d : gmap string value)
    : option (gmap string value) :=
  match items with
  | [] => Some d
  | item :: items =>
      match pair_item item with
      | Some (key, v) => dict_of_items items (<[key := v]> d)
      | None => None
      end
  end.

(** [dict(v)]: a copy of a dictionary, or the dictionary of a sequence of
    key/value pairs, a later pair overriding an earlier one; [None] when
    it raises. *)
Definition py_dict (v : value) : option (gmap string value) :=
  match v with
  | VDict d => Some d
  | VList items => dict_of_items items ∅
  | _ => None
  end.

(** ** Process state *)

Inductive stream := Stdout | Stream (id : nat).

(** A call of [write] or [flush] on a stream that has returned. *)
Inductive io_event :=
  | Write (s : stream) (text : string)
  | Flush (s : stream).

(** The counter of the event id generator, and the calls on the streams
    that have returned, in order. *)
Record world := {
  _event_id_counter : N;
  written : list io_event;
}.

(** A call either returns or raises; both leave a process state behind. *)
Inductive outcome :=
  | Returned (w : world)
  | Raised (w : world).

(** ** The interpreter *)

(** What the interpreter, its standard library and the streams provide.
    A conversion that raises gives [None]. *)
Class Runtime := {
  (** [json.dumps(v, separators=(",", ":"), ensure_ascii=False)] *)
  json_dumps_compact : value -> option string;
  (** [json.dumps(v, indent=2, ensure_ascii=False)] *)
  json_dumps_indent : value -> option string;
  (** [str(v)] of a list or a dictionary *)
  repr_container : value -> option string;
  (** [sys.get_int_max_str_digits()]: the longest integer, in digits, that
      [str] converts; 0 when there is no limit, and never between 1 and
      639 *)
  int_max_str_digits : nat;
  int_max_str_digits_valid :
    int_max_str_digits = 0%nat \/ (640 <= int_max_str_digits)%nat;
  (** [datetime.fromisoformat(s.replace("Z", "+00:00")).strftime("%H:%M:%S")],
      [None] when it raises *)
  isoformat_to_hms : string -> option string;
  (** [os.linesep] *)
  linesep : string;
  (** whether [stream.write(text)] returns rather than raises, after the
      given calls on the streams *)
  write_returns : list io_event -> stream -> string -> bool;
  (** whether [stream.flush()] returns rather than raises *)
  flush_returns : list io_event -> stream -> bool;
}.

(** The number of decimal digits of an integer. *)
Definition int_digits (z : Z) : nat :=
  String.length (PyStr.of_N (Z.abs_N z)).

(** [str(v)]: converting an integer longer than the limit raises
    [ValueError]. *)
Definition py_str `{Runtime} (v : value) : option string :=
  match v with
  | VNone => Some "None"
  | VBool true => Some "True"
  | VBool false => Some "False"
  | VInt z =>
      if (int_max_str_digits =? 0)%nat
         || (int_digits z <=? int_max_str_digits)%nat
      then Some (PyStr.of_Z z)
      else None
  | VStr s => Some s
  | VList _ | VDict _ => repr_container v
  end.

(** [s or fallback], for strings *)
Definition str_or (s fallback : string) : string :=
  if truthy (VStr s) then s else fallback.

(** ** Configuration *)

Definition LEVEL_WEIGHTS : gmap string Z :=
  list_to_map
    [("debug", 10%Z); ("info", 20%Z); ("warn", 30%Z); ("warning", 30%Z);
     ("error", 40%Z)].

Definition OPTIONAL_ROOT_FIELDS : list string :=
  ["request_id"; "user_hash"; "source"; "duration_ms"; "status_code"; "tags";
   "trace_id"; "span_id"].

Definition ESC : string := String "027"%char "".
Definition NL : string := String "010"%char "".

Definition LEVEL_COLORS : gmap string string :=
  list_to_map
    [("debug", ESC +:+ "[36m"); ("info", ESC +:+ "[32m");
     ("warn", ESC +:+ "[33m"); ("error", ESC +:+ "[31m")].
Definition COLOR_RESET : string := ESC +:+ "[0m".
Definition COLOR_DIM : string := ESC +:+ "[2m".
Definition COLOR_BOLD : string := ESC +:+ "[1m".

(** The module-level [config] dictionary: six fixed keys. *)
Record Config := {
  service : string;
  environment : string;
  log_target : string;
  log_level : string;
  force_pretty : bool;
  version : string;
}.

(** ** Event identifiers *)

Definition format_event_id (epoch_ms : Z) (counter : N) : string :=
  "evt_" +:+ PyStr.of_Z epoch_ms +:+ "_" +:+ PyStr.of_N counter.

(** [generate_event_id()]; [epoch_ms] is what the clock reads.  The
    counter starts at 0 and grows by one with each call, and the clock
    reads milliseconds: both stay far below the digit limit of the
    conversion of integers to text, which is left out here. *)
Definition generate_event_id (epoch_ms : Z) (w : world) : string * world :=
  let counter := (_event_id_counter w + 1)%N in
  (format_event_id epoch_ms counter,
   {| _event_id_counter := counter; written := written w |}).

(** The numeric counter component of an event id. *)
Definition counter_component (event_id : string) : option N :=
  PyStr.after_last "_"%char event_id ≫= PyStr.to_N.

(** ** Error serialisation *)

(** What [serialize_error] reads from an exception object. *)
Record PyException := {
  exc_type_name : string;                  (* type(error).__name__ *)
  exc_str : string;                        (* str(error) *)
  exc_dict : option (gmap string value);   (* error.__dict__, if it has one *)
  exc_traceback : string;  (* "".join(traceback.format_exception(...)) *)
}.

Definition SAFE_ATTRIBUTES : list string :=
  ["args"; "code"; "errno"; "message"; "filename"; "lineno"].

Definition SENSITIVE_PATTERNS : list string :=
  ["password"; "passwd"; "pwd"; "token"; "key"; "secret"; "credential";
   "auth"; "ssn"; "social_security"; "credit_card"; "cc_number";
   "account_number"; "account_num"].

Definition matches_sensitive (s : string) : bool :=
  existsb (fun pattern => PyStr.search_ignorecase pattern s) SENSITIVE_PATTERNS.

Definition _redact_sensitive_data (v : value) : value :=
  match v with
  | VStr s => if matches_sensitive s then VStr "[REDACTED]" else v
  | _ => v
  end.

(** One iteration of the loop over [error.__dict__.items()]. *)
Definition copy_attribute (key : string) (v : value)
    (serialized : gmap string value) : gmap string value :=
  if PyStr.startswith key "_" then serialized
  else if bool_decide (key ∈ SAFE_ATTRIBUTES)
       then <[key := _redact_sensitive_data v]> serialized
       else serialized.

Definition serialize_error (error : option PyException)
    : option (gmap string value) :=
  match error with
  | None => None
  | Some e =>
      let serialized : gmap string value :=
        <["message" := py_or (VStr (exc_str e)) (VStr "Error")]>
          (<["name" := VStr (exc_type_name e)]> ∅) in
      let serialized :=
        match exc_dict e with
        | Some d => map_fold copy_attribute serialized d
        | None => serialized
        end in
      let stack := exc_traceback e in
      Some (if truthy (VStr stack)
            then <["stack" := VStr stack]> serialized
            else serialized)
  end.

(** ** The logger *)

Record StructuredLogger := {
  config : Config;
  bindings : gmap string value;
  pretty : bool;
  colorize : bool;
  _stream : option nat;
  level_threshold : Z;
}.

(** [StructuredLogger(config, bindings, pretty, colorize, stream)] *)
Definition __init__ (config : Config) (bindings : gmap string value)
    (pretty colorize : bool) (stream : option nat) : StructuredLogger :=
  {| config := config;
     bindings := bindings;
     pretty := pretty;
     colorize := colorize;
     _stream := stream;
     level_threshold := default 20%Z (LEVEL_WEIGHTS !! log_level config) |}.

(** One iteration of the loop of [child] over the new bindings. *)
Definition merge_binding (key : string) (v : value)
    (merged : gmap string value) : gmap string value :=
  if is_none v then merged else <[key := v]> merged.

Definition child (self : StructuredLogger) (kwargs : gmap string value)
    : StructuredLogger :=
  let merged := map_fold merge_binding (bindings self) kwargs in
  __init__ (config self) merged (pretty self) (colorize self) (_stream self).

(** An [Optional[str]] argument. *)
Definition opt_str (o : option string) : value :=
  match o with Some s => VStr s | None => VNone end.

Definition create_logger (self : StructuredLogger)
    (service' environment' version' category' : option string)
    : StructuredLogger :=
  child self
    (<["service" := py_or (opt_str service') (VStr (service (config self)))]>
    (<["environment" :=
         py_or (opt_str environment') (VStr (environment (config self)))]>
    (<["version" := py_or (opt_str version') (VStr (version (config self)))]>
    (<["category" := py_or (opt_str category') (VStr "app")]> ∅)))).

Definition bind (self : StructuredLogger) (kwargs : gmap string value)
    : StructuredLogger :=
  child self kwargs.

Definition with_category (self : StructuredLogger) (category : string)
    : StructuredLogger :=
  child self {["category" := VStr category]}.

Definition bind_trace (self : StructuredLogger)
    (trace_id span_id : option string) : StructuredLogger :=
  child self
    (<["trace_id" := opt_str trace_id]> {["span_id" := opt_str span_id]}).

Definition with_request (self : StructuredLogger)
    (request_id user_hash : option string) : StructuredLogger :=
  child self
    (<["request_id" := opt_str request_id]>
       {["user_hash" := opt_str user_hash]}).

(** The module-level [logger]; [isatty] is [sys.stdout.isatty()]. *)
Definition use_pretty (cfg : Config) (isatty : bool) : bool :=
  String.eqb (log_target cfg) "stdout" && (force_pretty cfg || isatty).

Definition logger (cfg : Config) (isatty : bool) : StructuredLogger :=
  __init__ cfg
    (<["service" := VStr (service cfg)]>
    (<["environment" := VStr (environment cfg)]>
    (<["version" := VStr (version cfg)]>
    (<["category" := VStr "app"]> ∅))))
    (use_pretty cfg isatty) (use_pretty cfg isatty && isatty) None.

(** ** Module-level configuration *)

(** The double and the single quote, which [get_version] strips from the
    value. *)
Definition QUOTES : string := String "034"%char (String "039"%char "").

(** The loop of [get_version] over the lines of [pyproject.toml]; an
    [IndexError] of [line.split("=", 1)[1]] ends in the [except] clause. *)
Fixpoint get_version_lines (lines : list string) : string :=
  match lines with
  | [] => "0.0.0"
  | line :: rest =>
      let line := PyStr.strip line in
      if PyStr.startswith line "version"
      then match PyStr.split_once "="%char line with
           | Some (_, after) =>
               PyStr.strip_chars QUOTES (PyStr.strip after)
           | None => "0.0.0"
           end
      else get_version_lines rest
  end.

(** [get_version()]; [pyproject] is the text of [pyproject.toml] in the
    working directory, [None] when the file is not there or reading it
    raises. *)
Definition get_version (pyproject : option string) : string :=
  match pyproject with
  | Some text => get_version_lines (PyStr.splitlines text)
  | None => "0.0.0"
  end.

(** [os.getenv(name, default)] *)
Definition getenv (env : gmap string string) (name fallback : string)
    : string :=
  default fallback (env !! name).

(** The module-level [config], from the process environment. *)
Definition module_config (env : gmap string string)
    (pyproject : option string) : Config :=
  {| service := getenv env "HOMELAB_SERVICE" "unknown-service";
     environment := getenv env "HOMELAB_ENVIRONMENT" "development";
     log_target := PyStr.lower (getenv env "HOMELAB_LOG_TARGET" "stdout");
     log_level := PyStr.lower (getenv env "HOMELAB_LOG_LEVEL" "info");
     force_pretty :=
       String.eqb (PyStr.lower (getenv env "HOMELAB_FORCE_PRETTY" "")) "true";
     version := get_version pyproject |}.

(** ** Entry assembly *)

(** What the clock reads during one log call: [datetime.now(...).isoformat()]
    for the timestamp, then the epoch milliseconds of the event id. *)
Record Clock := {
  now_isoformat : string;
  now_epoch_ms : Z;
}.

(** First loop over [OPTIONAL_ROOT_FIELDS]: bound values. *)
Definition bound_field (self : StructuredLogger)
    (entry : gmap string value) (field : string) : gmap string value :=
  let bound_value := dict_get (bindings self) field in
  if is_none bound_value then entry else <[field := bound_value]> entry.

(** Second loop over [OPTIONAL_ROOT_FIELDS]: call-site values; the state is
    the entry and what is left of [extra]. *)
Definition call_field (st : gmap string value * gmap string value)
    (field : string) : gmap string value * gmap string value :=
  let '(entry, extra) := st in
  match extra !! field with
  | Some v =>
      let extra := delete field extra in
      if is_none v then (delete field entry, extra)
      else (<[field := v]> entry, extra)
  | None => (entry, extra)
  end.

(** Loop over the remaining [extra.items()]. *)
Definition context_field (key : string) (v : value)
    (context : gmap string value) : gmap string value :=
  if is_none v then context else <[key := v]> context.

(** Last loop, over a snapshot of the entry's keys. *)
Definition drop_none (key : string) (_ : value)
    (entry : gmap string value) : gmap string value :=
  match entry !! key with
  | Some VNone => delete key entry
  | _ => entry
  end.

(** The dictionary literal [_prepare_entry] starts the entry from. *)
Definition entry_literal (self : StructuredLogger) (timestamp : string)
    (level message : string) (event_id : value) : gmap string value :=
  <["event_id" := event_id]>
  (<["category" := default (VStr "app") (bindings self !! "category")]>
  (<["version" :=
      default (VStr (version (config self))) (bindings self !! "version")]>
  (<["environment" :=
      default (VStr (environment (config self)))
        (bindings self !! "environment")]>
  (<["service" :=
      default (VStr (service (config self))) (bindings self !! "service")]>
  (<["message" := py_or (VStr message) (VStr "")]>
  (<["level" := VStr level]>
  (<["timestamp" := VStr timestamp]> ∅))))))).

(** [context] after [context.update(context_arg)]: the items of an explicit
    [context] dictionary, nothing for any other value. *)
Definition nested_context (extra : gmap string value) : gmap string value :=
  match dict_get extra "context" with
  | VDict d => dict_update ∅ d
  | _ => ∅
  end.

Definition _prepare_entry (self : StructuredLogger) (clock : Clock)
    (level message : string) (extra : gmap string value) (w : world)
    : gmap string value * world :=
  let context := nested_context extra in
  let extra := delete "context" extra in
  let timestamp := now_isoformat clock in
  let '(generated, w) := generate_event_id (now_epoch_ms clock) w in
  let event_id := default (VStr generated) (extra !! "event_id") in
  let extra := delete "event_id" extra in
  let entry := entry_literal self timestamp level message event_id in
  let entry := foldl (bound_field self) entry OPTIONAL_ROOT_FIELDS in
  let '(entry, extra) := foldl call_field (entry, extra) OPTIONAL_ROOT_FIELDS in
  let context := map_fold context_field context extra in
  let entry := <["context" := VDict context]> entry in
  let entry := map_fold drop_none entry entry in
  (entry, w).

(** The keys of [extra] that [_prepare_entry] pops before the rest goes
    into [context]. *)
Definition consumed_keys : list string :=
  "context" :: "event_id" :: OPTIONAL_ROOT_FIELDS.

(** The eight required fields of the entry literal. *)
Definition REQUIRED_FIELDS : list string :=
  ["timestamp"; "level"; "message"; "service"; "environment"; "version";
   "category"; "event_id"].

(** [entry["context"]] *)
Definition entry_context (entry : gmap string value) : gmap string value :=
  match entry !! "context" with
  | Some (VDict c) => c
  | _ => ∅
  end.

(** [isinstance(v, str)] *)
Definition is_str (v : value) : Prop :=
  match v with VStr _ => True | _ => False end.

(** A field that is a string when it is there. *)
Definition str_or_absent (o : option value) : Prop :=
  match o with Some v => is_str v | None => True end.

(** What is left of an optional value once [None] is dropped. *)
Definition strip_none (o : option value) : option value :=
  match o with
  | Some VNone => None
  | _ => o
  end.

(** ** Rendering *)

Section Rendering.
Context `{Runtime}.

(** [None] when formatting [text] raises. *)
Definition _apply_color (self : StructuredLogger) (text : value)
    (code : string) : option value :=
  if negb (colorize self) || negb (truthy (VStr code)) then Some text
  else s ← py_str text; Some (VStr (code +:+ s +:+ COLOR_RESET)).

(** The [try] block of [_format_pretty]: a string that parses is
    reformatted; anything else is left as it is. *)
Definition pretty_timestamp (entry : gmap string value) : value :=
  let timestamp := default (VStr "") (entry !! "timestamp") in
  match timestamp with
  | VStr s =>
      if truthy timestamp
      then match isoformat_to_hms s with
           | Some hms => VStr hms
           | None => timestamp
           end
      else timestamp
  | _ => timestamp
  end.

(** [category != "app"] *)
Definition not_app (category : value) : bool :=
  match category with
  | VStr s => negb (String.eqb s "app")
  | _ => true
  end.

(** [parts] as [_format_pretty] builds it, for a lower-cased level;
    [None] when one of the conversions to text raises. *)
Definition pretty_parts (self : StructuredLogger)
    (entry : gmap string value) (level : string) : option (list value) :=
  let timestamp := pretty_timestamp entry in
  let message := default (VStr "") (entry !! "message") in
  let service := default (VStr "") (entry !! "service") in
  let category := default (VStr "") (entry !! "category") in
  let trace_id := dict_get entry "trace_id" in
  time_part ←
    (if truthy timestamp
     then (fun part => [part]) <$> _apply_color self timestamp COLOR_DIM
     else Some []);
  level_part ←
    _apply_color self (VStr (PyStr.upper level))
      (default "" (LEVEL_COLORS !! level));
  service_part ←
    (if truthy service
     then (fun part => [part]) <$> _apply_color self service COLOR_BOLD
     else Some []);
  trace_part ←
    (if truthy trace_id
     then (fun s => [VStr ("[" +:+ PyStr.take 8 s +:+ "...]")])
            <$> py_str trace_id
     else Some []);
  duration_part ←
    match entry !! "duration_ms" with
    | Some duration =>
        (fun s => [VStr ("(" +:+ s +:+ "ms)")]) <$> py_str duration
    | None => Some []
    end;
  Some (time_part
        ++ [level_part]
        ++ service_part
        ++ (if truthy category && not_app category then [category] else [])
        ++ trace_part
        ++ duration_part
        ++ [VStr "-"; message]).

(** [part for part in parts if part], as [str.join] accepts it: a truthy
    part that is not a string raises [TypeError]. *)
Fixpoint truthy_strings (parts : list value) : option (list string) :=
  match parts with
  | [] => Some []
  | part :: rest =>
      if truthy part
      then match part with
           | VStr s => cons s <$> truthy_strings rest
           | _ => None
           end
      else truthy_strings rest
  end.

(** [None] when the call raises. *)
Definition _format_pretty (self : StructuredLogger)
    (entry : gmap string value) : option string :=
  match py_or (dict_get entry "level") (VStr "info") with
  | VStr level =>
      let level := PyStr.lower level in
      parts ← pretty_parts self entry level;
      line ← PyStr.join " " <$> truthy_strings parts;
      let context := py_or (dict_get entry "context") (VDict ∅) in
      if truthy context
      then
        context_json ← json_dumps_indent context;
        dimmed ← _apply_color self (VStr context_json) COLOR_DIM;
        dimmed ← py_str dimmed;
        Some (line +:+ NL +:+ dimmed)
      else Some line
  | _ => None
  end.

(** [stream.write] and [stream.flush] may raise; a call that raises is
    not among the calls that returned, and ends [_emit]. *)
Definition _emit (self : StructuredLogger) (entry : gmap string value)
    (w : world) : outcome :=
  let stream :=
    match _stream self with Some id => Stream id | None => Stdout end in
  let output :=
    if pretty self then _format_pretty self entry
    else json_dumps_compact (VDict entry) in
  match output with
  | Some output =>
      let text := output +:+ linesep in
      if write_returns (written w) stream text
      then
        if flush_returns (written w ++ [Write stream text]) stream
        then
          Returned
            {| _event_id_counter := _event_id_counter w;
               written := written w ++ [Write stream text; Flush stream] |}
        else
          Raised
            {| _event_id_counter := _event_id_counter w;
               written := written w ++ [Write stream text] |}
      else Raised w
  | None => Raised w
  end.

(** ** Core logging *)

Definition level_weight (level : string) : Z :=
  default 0%Z (LEVEL_WEIGHTS !! level).

Definition log (self : StructuredLogger) (clock : Clock)
    (level message : string) (kwargs : gmap string value) (w : world)
    : outcome :=
  let level := PyStr.lower level in
  if (level_weight level <? level_threshold self)%Z then Returned w
  else
    let extra := kwargs in
    let '(entry, w) := _prepare_entry self clock level message extra w in
    _emit self entry w.

Definition debug self clock message kwargs w :=
  log self clock "debug" message kwargs w.
Definition info self clock message kwargs w :=
  log self clock "info" message kwargs w.
Definition warn self clock message kwargs w :=
  log self clock "warn" message kwargs w.
Definition error self clock message kwargs w :=
  log self clock "error" message kwargs w.

(** [context.setdefault(k, v)] *)
Definition setdefault (k : string) (v : value) (d : gmap string value)
    : gmap string value :=
  match d !! k with Some _ => d | None => <[k := v]> d end.

(** The context [log_error] hands to [error]; [None] when
    [dict(kwargs.pop("context", {}) or {})] raises. *)
Definition log_error_context (err : PyException)
    (kwargs : gmap string value) : option (gmap string value) :=
  let context_arg := py_or (default (VDict ∅) (kwargs !! "context")) (VDict ∅) in
  let kwargs := delete "context" kwargs in
  match py_dict context_arg with
  | Some d =>
      let context := dict_update d kwargs in
      let context :=
        match serialize_error (Some err) with
        | Some error_payload =>
            if truthy (VDict error_payload)
            then <["err" := VDict error_payload]> context
            else context
        | None => context
        end in
      let context :=
        setdefault "error_type" (VStr (exc_type_name err)) context in
      let context :=
        setdefault "error_message"
          (VStr (str_or (exc_str err) "Error occurred")) context in
      Some context
  | None => None
  end.

Definition log_error (self : StructuredLogger) (clock : Clock)
    (err : PyException) (kwargs : gmap string value) (w : world) : outcome :=
  match log_error_context err kwargs with
  | Some context =>
      let message := str_or (exc_str err) "Error occurred" in
      error self clock message {["context" := VDict context]} w
  | None => Raised w
  end.

(** ** Convenience helpers *)

(** The [context] dictionary [log_request] builds. *)
Definition request_context (method url : string)
    (user_agent : option string) (kwargs : gmap string value)
    : gmap string value :=
  let context : gmap string value :=
    <["url" := VStr url]> (<["method" := VStr method]> ∅) in
  let context :=
    if truthy (opt_str user_agent)
    then <["userAgent" := opt_str user_agent]> context
    else context in
  dict_update context kwargs.

Definition log_request (self : StructuredLogger) (clock : Clock)
    (method url : string) (request_id user_agent : option string)
    (kwargs : gmap string value) (w : world) : outcome :=
  let context := request_context method url user_agent kwargs in
  info self clock "HTTP Request"
    (<["context" := VDict context]> {["request_id" := opt_str request_id]}) w.

(** The [context] dictionary [log_response] builds. *)
Definition response_context (method url : string)
    (kwargs : gmap string value) : gmap string value :=
  dict_update (<["url" := VStr url]> (<["method" := VStr method]> ∅)) kwargs.

Definition log_response (self : StructuredLogger) (clock : Clock)
    (method url : string) (status_code duration_ms : Z)
    (request_id : option string) (kwargs : gmap string value) (w : world)
    : outcome :=
  let context := response_context method url kwargs in
  info self clock "HTTP Response"
    (<["context" := VDict context]>
    (<["duration_ms" := VInt duration_ms]>
    (<["status_code" := VInt status_code]>
    {["request_id" := opt_str request_id]}))) w.

End Rendering.

(** ** A process: calls in sequence *)

Definition world_of (o : outcome) : world :=
  match o with Returned w | Raised w => w end.

Inductive operation :=
  | Generate (epoch_ms : Z)
  | Log (self : StructuredLogger) (clock : Clock) (level message : string)
        (kwargs : gmap string value).

Section Process.
Context `{Runtime}.

(** One operation: the id [generate_event_id] returned during it, if it
    was called, and the state it leaves.  A log call that passes the
    filter calls it once, in [_prepare_entry], with the clock's epoch. *)
Definition step (op : operation) (w : world) : option string * world :=
  match op with
  | Generate epoch_ms =>
      let '(event_id, w) := generate_event_id epoch_ms w in
      (Some event_id, w)
  | Log self clock level message kwargs =>
      (if (level_weight (PyStr.lower level) <? level_threshold self)%Z
       then None
       else Some (generate_event_id (now_epoch_ms clock) w).1,
       world_of (log self clock level message kwargs w))
  end.

(** The generated ids of a sequence of operations, in order. *)
Fixpoint run (ops : list operation) (w : world) : list string * world :=
  match ops with
  | [] => ([], w)
  | op :: ops =>
      let '(generated, w) := step op w in
      let '(ids, w) := run ops w in
      (match generated with Some i => i :: ids | None => ids end, w)
  end.
End Process.

(** ** The current logger

    [_current_logger] is a context variable; [LoggerUtils.with_span] sets
    it around a call and resets it in a [finally] clause. *)

Record process := {
  process_world : world;
  _current_logger : option StructuredLogger;
}.

(** [get_logger()], for the module-level logger [root] *)
Definition get_logger (root : StructuredLogger) (p : process)
    : StructuredLogger :=
  default root (_current_logger p).

(** [LoggerUtils.with_span(span_context)(fn)(...)]: [fn] returns a value or
    raises ([None]), and leaves a process state either way. *)
Definition with_span {A : Type} (root : StructuredLogger)
    (span_context : gmap string string)
    (fn : process -> option A * process) (p : process)
    : option A * process :=
  let trace_id := span_context !! "trace_id" in
  let span_id := span_context !! "span_id" in
  let span_logger := bind_trace root trace_id span_id in
  let token := _current_logger p in
  let '(result, p') :=
    fn {| process_world := process_world p;
          _current_logger := Some span_logger |} in
  (result,
   {| process_world := process_world p'; _current_logger := token |}).

(** ** The entry point of src/main.py

    Importing [logger] builds the module-level configuration and logger
    from the process environment; [main] binds a service name and logs a
    greeting. *)

(** The keywords of the greeting. *)
Definition GREETING : gmap string value :=
  <["component" := VStr "main"]>
  (<["action" := VStr "startup"]>
  {["message_type" := VStr "greeting"]}).

Definition main `{Runtime} (env : gmap string string)
    (pyproject : option string) (isatty : bool) (clock : Clock) (w : world)
    : outcome :=
  let logger := logger (module_config env pyproject) isatty in
  let app_logger := bind logger {["service" := VStr "homelab-main"]} in
  info app_logger clock "Hello from homelab!" GREETING w.

(** ** Loggers as objects

    Python loggers and dictionaries are objects with an identity; a
    [StructuredLogger] holds references to its [config] and [bindings].
    The store maps addresses to objects, allocation picks an unused
    address, and item assignment updates the dictionary in place. *)

Module Heap.

Inductive object :=
  | ODict (d : gmap string value)
  | OConfig (c : Config)
  | OLogger (config bindings : positive) (pretty colorize : bool)
            (stream : option nat) (level_threshold : Z).

Definition alloc (o : object) (h : gmap positive object)
    : positive * gmap positive object :=
  let l := fresh (dom h) in (l, <[l := o]> h).

(** [d[key] = v] *)
Definition setitem (d : positive) (key : string) (v : value)
    (h : gmap positive object) : gmap positive object :=
  match h !! d with
  | Some (ODict m) => <[d := ODict (<[key := v]> m)]> h
  | _ => h
  end.

(** [StructuredLogger(config, bindings, pretty, colorize, stream)];
    [self.bindings = bindings or {}] makes a new dictionary when
    [bindings] is empty. *)
Definition new_logger (config bindings : positive) (pretty colorize : bool)
    (stream : option nat) (h : gmap positive object)
    : option (positive * gmap positive object) :=
  match h !! config, h !! bindings with
  | Some (OConfig c), Some (ODict b) =>
      let '(bindings, h) :=
        if truthy (VDict b) then (bindings, h) else alloc (ODict ∅) h in
      Some (alloc (OLogger config bindings pretty colorize stream
                     (default 20%Z (LEVEL_WEIGHTS !! log_level c))) h)
  | _, _ => None
  end.

(** One iteration of the loop of [child]: [merged[key] = value]. *)
Definition merge_item (merged : positive) (key : string) (v : value)
    (h : gmap positive object) : gmap positive object :=
  if is_none v then h else setitem merged key v h.

Definition child (self : positive) (kwargs : gmap string value)
    (h : gmap positive object) : option (positive * gmap positive object) :=
  match h !! self with
  | Some (OLogger config bindings pretty colorize stream _) =>
      match h !! bindings with
      | Some (ODict b) =>
          let '(merged, h) := alloc (ODict b) h in
          let h := map_fold (merge_item merged) h kwargs in
          new_logger config merged pretty colorize stream h
      | _ => None
      end
  | _ => None
  end.

(** The logger an address denotes: its fields, with the dictionaries it
    refers to read from the store. *)
Definition read_logger (h : gmap positive object) (l : positive)
    : option StructuredLogger :=
  match h !! l with
  | Some (OLogger config_ref bindings_ref p c s threshold) =>
      match h !! config_ref, h !! bindings_ref with
      | Some (OConfig cfg), Some (ODict b) =>
          Some {| config := cfg; bindings := b; pretty := p;
                  colorize := c; _stream := s;
                  level_threshold := threshold |}
      | _, _ => None
      end
  | _ => None
  end.

(** [config["log_level"] = level], for the dictionary at [c] *)
Definition set_log_level (c : positive) (level : string)
    (h : gmap positive object) : gmap positive object :=
  match h !! c with
  | Some (OConfig cfg) =>
      <[c := OConfig {| service := service cfg;
                        environment := environment cfg;
                        log_target := log_target cfg;
                        log_level := level;
                        force_pretty := force_pretty cfg;
                        version := version cfg |}]> h
  | _ => h
  end.

End Heap.

(** The ways to derive a logger from another one. *)
Inductive derivation :=
  | Child (kwargs : gmap string value)
  | Bind (kwargs : gmap string value)
  | WithCategory (category : string)
  | BindTrace (trace_id span_id : option string)
  | WithRequest (request_id user_hash : option string)
  | CreateLogger (service environment version category : option string).

(** The keyword arguments a derivation passes to [child]. *)
Definition derivation_kwargs (cfg : Config) (d : derivation)
    : gmap string value :=
  match d with
  | Child kwargs | Bind kwargs => kwargs
  | WithCategory category => {["category" := VStr category]}
  | BindTrace trace_id span_id =>
      <["trace_id" := opt_str trace_id]> {["span_id" := opt_str span_id]}
  | WithRequest request_id user_hash =>
      <["request_id" := opt_str request_id]>
        {["user_hash" := opt_str user_hash]}
  | CreateLogger service' environment' version' category' =>
      <["service" := py_or (opt_str service') (VStr (service cfg))]>
      (<["environment" :=
           py_or (opt_str environment') (VStr (environment cfg))]>
      (<["version" := py_or (opt_str version') (VStr (version cfg))]>
      (<["category" := py_or (opt_str category') (VStr "app")]> ∅)))
  end.

(** A derivation on logger values. *)
Definition derive (d : derivation) (self : StructuredLogger)
    : StructuredLogger :=
  match d with
  | Child kwargs => child self kwargs
  | Bind kwargs => bind self kwargs
  | WithCategory category => with_category self category
  | BindTrace trace_id span_id => bind_trace self trace_id span_id
  | WithRequest request_id user_hash =>
      with_request self request_id user_hash
  | CreateLogger s e v c => create_logger self s e v c
  end.

(** A derivation on logger objects: each method ends in [self.child]. *)
Definition derive_object (d : derivation) (self : positive)
    (h : gmap positive Heap.object)
    : option (positive * gmap positive Heap.object) :=
  match Heap.read_logger h self with
  | Some lg => Heap.child self (derivation_kwargs (config lg) d) h
  | None => None
  end.

(** The loggers obtained from [root] by derivations. *)
Inductive derived_from (root : StructuredLogger) : StructuredLogger -> Prop :=
  | derived_root : derived_from root root
  | derived_step (d : derivation) (lg : StructuredLogger) :
      derived_from root lg -> derived_from root (derive d lg).

(** No binding is [None]. *)
Definition none_free (b : gmap string value) : Prop :=
  forall k, b !! k <> Some VNone.

(** [o or fallback], for an optional string argument *)
Definition or_else (o : option string) (fallback : string) : string :=
  match o with
  | Some s => if String.eqb s "" then fallback else s
  | None => fallback
  end.

(** The twelve binding names [_prepare_entry] reads. *)
Definition SCHEMA_BINDINGS : list string :=
  ["service"; "environment"; "version"; "category"] ++ OPTIONAL_ROOT_FIELDS.

(** ** Sample data *)

Module Sample.

Definition cfg : Config :=
  {| service := "test-service"; environment := "test";
     log_target := "stdout"; log_level := "info"; force_pretty := true;
     version := "0.0.0" |}.

Definition clock : Clock :=
  {| now_isoformat := "2025-01-01T12:00:00+00:00";
     now_epoch_ms := 1735732800000 |}.

Definition start : world := {| _event_id_counter := 0; written := [] |}.

(** A runtime to run the model with: JSON output is left out, and the
    streams take every write and flush. *)
Definition runtime : Runtime :=
  {| json_dumps_compact := fun _ => Some "{...}";
     json_dumps_indent := fun _ => Some "{...}";
     repr_container := fun _ => Some "{...}";
     int_max_str_digits := 4300;
     int_max_str_digits_valid :=
       or_intror (proj1 (Nat.leb_le 640 4300) eq_refl);
     isoformat_to_hms := fun s => Some (String.substring 11 8 s);
     linesep := NL;
     write_returns := fun _ _ _ => true;
     flush_returns := fun _ _ => true |}.

Definition root : StructuredLogger := logger cfg false.

(** A store that holds the root logger. *)
Definition store : gmap positive Heap.object :=
  <[3%positive := Heap.OLogger 1 2 true false None 20]>
  (<[2%positive := Heap.ODict (bindings root)]>
  (<[1%positive := Heap.OConfig cfg]> ∅)).

Definition exception : PyException :=
  {| exc_type_name := "AuthError";
     exc_str := "login failed";
     exc_dict :=
       Some (<["password" := VStr "hunter2"]>
            (<["code" := VStr "token=abc123"]>
            {["errno" := VInt 13]}));
     exc_traceback := "Traceback (most recent call last): ..." |}.

End Sample.

(** * Properties *)

(** Membership in one of the fixed key lists, decided by computation. *)
Ltac by_decision := by apply (bool_decide_unpack _).
Ltac by_refutation := by apply (bool_decide_eq_false_1 _ (Decision0 := _)).

(** ** Loops over dictionaries *)

Section CondInsertFold.
Context {A : Type}.
Variable f : string -> A -> gmap string value -> gmap string value.
Variable keep : string -> A -> bool.
Variable val : string -> A -> value.
Hypothesis f_spec : forall k x acc,
  f k x acc = if keep k x then <[k := val k x]> acc else acc.

(** A loop that inserts [val k x] for the items that pass [keep]. *)
Lemma map_fold_cond_insert_lookup (b : gmap string value)
    (m : gmap string A) (k : string) :
  map_fold f b m !! k =
    match m !! k with
    | Some x => if keep k x then Some (val k x) else b !! k
    | None => b !! k
    end.
Proof.
  revert k.
  apply (map_fold_weak_ind
           (fun r m => forall k, r !! k =
              match m !! k with
              | Some x => if keep k x then Some (val k x) else b !! k
              | None => b !! k
              end)).
  - intros k. by rewrite lookup_empty.
  - intros i x m' r Hi IH k. rewrite f_spec.
    destruct (decide (i = k)) as [->|Hne].
    + rewrite lookup_insert_eq. destruct (keep k x).
      * by rewrite lookup_insert_eq.
      * rewrite IH, Hi. done.
    + rewrite (lookup_insert_ne m') by done.
      destruct (keep i x); [rewrite lookup_insert_ne by done|]; apply IH.
Qed.
End CondInsertFold.

Lemma merge_binding_lookup (b kwargs : gmap string value) (k : string) :
  map_fold merge_binding b kwargs !! k =
    match kwargs !! k with
    | Some v => if is_none v then b !! k else Some v
    | None => b !! k
    end.
Proof.
  rewrite (map_fold_cond_insert_lookup merge_binding
             (fun _ v => negb (is_none v)) (fun _ v => v)).
  - destruct (kwargs !! k) as [v|]; [by destruct (is_none v)|done].
  - intros i x acc. unfold merge_binding. by destruct (is_none x).
Qed.

Lemma context_field_lookup (c extra : gmap string value) (k : string) :
  map_fold context_field c extra !! k =
    match extra !! k with
    | Some v => if is_none v then c !! k else Some v
    | None => c !! k
    end.
Proof. apply merge_binding_lookup. Qed.

Lemma copy_attribute_lookup (base d : gmap string value) (k : string) :
  map_fold copy_attribute base d !! k =
    match d !! k with
    | Some v =>
        if negb (PyStr.startswith k "_") && bool_decide (k ∈ SAFE_ATTRIBUTES)
        then Some (_redact_sensitive_data v)
        else base !! k
    | None => base !! k
    end.
Proof.
  rewrite (map_fold_cond_insert_lookup copy_attribute
             (fun k _ => negb (PyStr.startswith k "_")
                         && bool_decide (k ∈ SAFE_ATTRIBUTES))
             (fun _ v => _redact_sensitive_data v)); [done|].
  intros i x acc. unfold copy_attribute.
  by destruct (PyStr.startswith i "_"), (bool_decide (i ∈ SAFE_ATTRIBUTES)).
Qed.

Lemma drop_none_lookup (b m : gmap string value) (k : string) :
  map_fold drop_none b m !! k =
    match m !! k with
    | Some _ => strip_none (b !! k)
    | None => b !! k
    end.
Proof.
  revert k.
  apply (map_fold_weak_ind
           (fun r m => forall k, r !! k =
              match m !! k with
              | Some _ => strip_none (b !! k)
              | None => b !! k
              end)).
  - intros k. by rewrite lookup_empty.
  - intros i x m' r Hi IH k. unfold drop_none.
    pose proof (IH i) as Hri. rewrite Hi in Hri. rewrite Hri.
    destruct (decide (i = k)) as [->|Hne].
    + rewrite lookup_insert_eq.
      destruct (b !! k) as [[]|] eqn:Hb; simpl;
        rewrite ?lookup_delete_eq, ?Hri, ?Hb; done.
    + rewrite (lookup_insert_ne m') by done.
      destruct (b !! i) as [[]|];
        rewrite ?lookup_delete_ne by done; apply IH.
Qed.

Lemma drop_none_self_lookup (entry : gmap string value) (k : string) :
  map_fold drop_none entry entry !! k = strip_none (entry !! k).
Proof.
  rewrite drop_none_lookup. by destruct (entry !! k).
Qed.

(** ** Loops over [OPTIONAL_ROOT_FIELDS] *)

Lemma bool_decide_elem_of_cons_ne (k x : string) (l : list string) :
  k ≠ x -> bool_decide (k ∈ x :: l) = bool_decide (k ∈ l).
Proof.
  intros Hne. apply bool_decide_ext. rewrite elem_of_cons.
  split; [intros [Heq|Hin]; [by destruct Hne|done] | by right].
Qed.

Lemma bool_decide_elem_of_cons_eq (x : string) (l : list string) :
  bool_decide (x ∈ x :: l) = true.
Proof. apply bool_decide_eq_true_2, list_elem_of_here. Qed.

Lemma foldl_bound_field_lookup (self : StructuredLogger) (l : list string)
    (entry : gmap string value) (k : string) :
  foldl (bound_field self) entry l !! k =
    if bool_decide (k ∈ l) && negb (is_none (dict_get (bindings self) k))
    then Some (dict_get (bindings self) k)
    else entry !! k.
Proof.
  revert entry. induction l as [|x l IH]; intros entry; simpl; [done|].
  rewrite IH. unfold bound_field.
  destruct (decide (k = x)) as [->|Hne].
  - rewrite bool_decide_elem_of_cons_eq.
    destruct (is_none (dict_get (bindings self) x)) eqn:Hn; simpl.
    + by rewrite andb_false_r.
    + rewrite lookup_insert_eq. by destruct (bool_decide (x ∈ l)).
  - rewrite bool_decide_elem_of_cons_ne by done.
    destruct (is_none (dict_get (bindings self) x));
      rewrite ?lookup_insert_ne by done; done.
Qed.

Lemma foldl_call_field_extra (l : list string)
    (entry extra : gmap string value) (k : string) :
  (foldl call_field (entry, extra) l).2 !! k =
    if bool_decide (k ∈ l) then None else extra !! k.
Proof.
  revert entry extra. induction l as [|x l IH]; intros entry extra; simpl.
  { done. }
  destruct (extra !! x) as [v|] eqn:Hx.
  - assert (forall e, (foldl call_field (e, delete x extra) l).2 !! k =
                 if bool_decide (k ∈ x :: l) then None else extra !! k) as Hd.
    { intros e. rewrite IH. destruct (decide (k = x)) as [->|Hne].
      - rewrite lookup_delete_eq.
        rewrite bool_decide_elem_of_cons_eq.
        by destruct (bool_decide (x ∈ l)).
      - rewrite lookup_delete_ne by done.
        by rewrite bool_decide_elem_of_cons_ne by done. }
    destruct (is_none v); apply Hd.
  - rewrite IH. destruct (decide (k = x)) as [->|Hne].
    + rewrite bool_decide_elem_of_cons_eq.
      rewrite Hx. by destruct (bool_decide (x ∈ l)).
    + by rewrite bool_decide_elem_of_cons_ne by done.
Qed.

Lemma foldl_call_field_entry (l : list string)
    (entry extra : gmap string value) (k : string) :
  (foldl call_field (entry, extra) l).1 !! k =
    if bool_decide (k ∈ l)
    then match extra !! k with
         | Some v => if is_none v then None else Some v
         | None => entry !! k
         end
    else entry !! k.
Proof.
  revert entry extra. induction l as [|x l IH]; intros entry extra; simpl.
  { done. }
  destruct (decide (k = x)) as [->|Hne].
  - rewrite bool_decide_elem_of_cons_eq.
    destruct (extra !! x) as [v|] eqn:Hx.
    + destruct (is_none v); rewrite IH, lookup_delete_eq;
        rewrite ?lookup_delete_eq, ?lookup_insert_eq;
        by destruct (bool_decide (x ∈ l)).
    + rewrite IH, Hx. by destruct (bool_decide (x ∈ l)).
  - rewrite bool_decide_elem_of_cons_ne by done.
    destruct (extra !! x) as [v|] eqn:Hx.
    + destruct (is_none v); rewrite IH, lookup_delete_ne by done;
        rewrite ?lookup_delete_ne, ?lookup_insert_ne by done; done.
    + by rewrite IH.
Qed.

(** ** Entry assembly, key by key *)

Lemma context_not_optional : "context" ∉ OPTIONAL_ROOT_FIELDS.
Proof. by_refutation. Qed.

Lemma event_id_not_optional : "event_id" ∉ OPTIONAL_ROOT_FIELDS.
Proof. by_refutation. Qed.

Section PrepareEntry.
Variable self : StructuredLogger.
Variable clock : Clock.
Variables level message : string.
Variable extra : gmap string value.
Variable w : world.

Let assembled := _prepare_entry self clock level message extra w.

Lemma prepare_entry_world :
  assembled.2 = (generate_event_id (now_epoch_ms clock) w).2.
Proof.
  unfold assembled, _prepare_entry.
  destruct (generate_event_id (now_epoch_ms clock) w) as [g w1].
  by destruct (foldl call_field _ _).
Qed.

Lemma prepare_entry_counter :
  _event_id_counter assembled.2 = (_event_id_counter w + 1)%N.
Proof. by rewrite prepare_entry_world. Qed.

Lemma prepare_entry_written : written assembled.2 = written w.
Proof. by rewrite prepare_entry_world. Qed.

(** The entry before its [context] is attached and [None] is dropped. *)
Let literal :=
  entry_literal self (now_isoformat clock) level message
    (default (VStr (generate_event_id (now_epoch_ms clock) w).1)
             (extra !! "event_id")).
Let popped := delete "event_id" (delete "context" extra).
Let looped :=
  foldl call_field
    (foldl (bound_field self) literal OPTIONAL_ROOT_FIELDS, popped)
    OPTIONAL_ROOT_FIELDS.

Lemma prepare_entry_unfold :
  assembled.1 =
    let entry :=
      <["context" :=
          VDict (map_fold context_field (nested_context extra) looped.2)]>
        looped.1 in
    map_fold drop_none entry entry.
Proof.
  unfold assembled, _prepare_entry, looped, literal, popped.
  destruct (generate_event_id (now_epoch_ms clock) w) as [g w1].
  cbn [fst snd]. rewrite (lookup_delete_ne extra) by done.
  by destruct (foldl call_field _ _).
Qed.

Lemma prepare_entry_lookup_context :
  assembled.1 !! "context" =
    Some (VDict (map_fold context_field (nested_context extra) looped.2)).
Proof.
  rewrite prepare_entry_unfold. cbn zeta.
  by rewrite drop_none_self_lookup, lookup_insert_eq.
Qed.

Lemma prepare_entry_lookup_root (k : string) :
  k ≠ "context" ->
  assembled.1 !! k =
    strip_none
      (if bool_decide (k ∈ OPTIONAL_ROOT_FIELDS)
       then match extra !! k with
            | Some v => if is_none v then None else Some v
            | None =>
                if is_none (dict_get (bindings self) k) then None
                else Some (dict_get (bindings self) k)
            end
       else literal !! k).
Proof.
  intros Hk. rewrite prepare_entry_unfold. cbn zeta.
  rewrite drop_none_self_lookup, lookup_insert_ne by done.
  unfold looped. rewrite foldl_call_field_entry, foldl_bound_field_lookup.
  destruct (bool_decide (k ∈ OPTIONAL_ROOT_FIELDS)) eqn:Hopt; [|done].
  simpl. apply bool_decide_eq_true_1 in Hopt.
  assert (popped !! k = extra !! k) as ->.
  { unfold popped. rewrite !lookup_delete_ne; [done| |]; intros <-.
    - by apply context_not_optional.
    - by apply event_id_not_optional. }
  assert (literal !! k = None) as ->.
  { unfold OPTIONAL_ROOT_FIELDS in Hopt.
    repeat (apply elem_of_cons in Hopt as [->|Hopt]; [done|]).
    by apply elem_of_nil in Hopt. }
  destruct (extra !! k) as [v|]; [done|].
  by destruct (is_none (dict_get (bindings self) k)).
Qed.

Lemma prepare_entry_context_lookup (j : string) :
  entry_context assembled.1 !! j =
    if bool_decide (j ∈ consumed_keys) then nested_context extra !! j
    else match extra !! j with
         | Some v => if is_none v then nested_context extra !! j else Some v
         | None => nested_context extra !! j
         end.
Proof.
  unfold entry_context. rewrite prepare_entry_lookup_context.
  rewrite context_field_lookup. unfold looped.
  rewrite foldl_call_field_extra. unfold consumed_keys, popped.
  destruct (decide (j = "context")) as [->|Hc].
  { rewrite bool_decide_elem_of_cons_eq.
    rewrite (bool_decide_eq_false_2 _ context_not_optional).
    by rewrite lookup_delete_ne, lookup_delete_eq. }
  rewrite (bool_decide_elem_of_cons_ne j "context") by done.
  destruct (decide (j = "event_id")) as [->|He].
  { rewrite bool_decide_elem_of_cons_eq.
    rewrite (bool_decide_eq_false_2 _ event_id_not_optional).
    by rewrite lookup_delete_eq. }
  rewrite (bool_decide_elem_of_cons_ne j "event_id") by done.
  destruct (bool_decide (j ∈ OPTIONAL_ROOT_FIELDS)); [done|].
  by rewrite !lookup_delete_ne by done.
Qed.
End PrepareEntry.

(** ** Event identifiers *)

Lemma after_last_app (c : ascii) (p t : string) :
  PyStr.after_last c t = None ->
  PyStr.after_last c (p +:+ String c t) = Some t.
Proof.
  intros Ht. induction p as [|a p IH]; simpl.
  - by rewrite Ht, Ascii.eqb_refl.
  - by rewrite IH.
Qed.

Lemma after_last_digits (d : Decimal.uint) :
  PyStr.after_last "_"%char (NilEmpty.string_of_uint d) = None.
Proof. induction d; simpl; rewrite ?IHd; done. Qed.

Lemma after_last_of_N (n : N) : PyStr.after_last "_"%char (PyStr.of_N n) = None.
Proof.
  unfold PyStr.of_N, NilZero.string_of_uint.
  destruct (N.to_uint n); [done|..]; apply after_last_digits.
Qed.

Lemma to_N_of_N (n : N) : PyStr.to_N (PyStr.of_N n) = Some n.
Proof.
  unfold PyStr.to_N, PyStr.of_N. rewrite NilZero.usu.
  - simpl. by rewrite DecimalN.Unsigned.of_to.
  - destruct n; [done|]. apply DecimalPos.Unsigned.to_uint_nonnil.
Qed.

Lemma counter_component_format (epoch_ms : Z) (counter : N) :
  counter_component (format_event_id epoch_ms counter) = Some counter.
Proof.
  unfold counter_component, format_event_id.
  replace ("evt_" +:+ PyStr.of_Z epoch_ms +:+ "_" +:+ PyStr.of_N counter)
    with (("evt_" +:+ PyStr.of_Z epoch_ms) +:+ String "_" (PyStr.of_N counter)).
  - rewrite after_last_app by apply after_last_of_N. simpl. apply to_N_of_N.
  - generalize (PyStr.of_Z epoch_ms) as s. intros s. simpl. done.
Qed.

Lemma generate_event_id_counter (epoch_ms : Z) (w : world) :
  counter_component (generate_event_id epoch_ms w).1
    = Some (_event_id_counter w + 1)%N
  /\ _event_id_counter (generate_event_id epoch_ms w).2
    = (_event_id_counter w + 1)%N
  /\ written (generate_event_id epoch_ms w).2 = written w.
Proof. unfold generate_event_id. simpl. by rewrite counter_component_format. Qed.

(** ** Level filtering and the event-id counter *)

Section Logging.
Context `{Runtime}.

Lemma emit_counter self entry w :
  _event_id_counter (world_of (_emit self entry w)) = _event_id_counter w.
Proof.
  unfold _emit. destruct (if pretty self then _ else _); [|done].
  cbn zeta. destruct (write_returns _ _ _); [|done].
  by destruct (flush_returns _ _).
Qed.

Lemma log_filtered self clock level message kwargs w :
  (level_weight (PyStr.lower level) < level_threshold self)%Z ->
  log self clock level message kwargs w = Returned w.
Proof.
  intros Hlt. unfold log.
  by rewrite (proj2 (Z.ltb_lt _ _) Hlt).
Qed.

Lemma log_passed self clock level message kwargs w :
  (level_threshold self <= level_weight (PyStr.lower level))%Z ->
  log self clock level message kwargs w =
    _emit self
      (_prepare_entry self clock (PyStr.lower level) message kwargs w).1
      (_prepare_entry self clock (PyStr.lower level) message kwargs w).2.
Proof.
  intros Hle. unfold log.
  rewrite (proj2 (Z.ltb_ge _ _) Hle).
  by destruct (_prepare_entry _ _ _ _ _ _).
Qed.

Lemma log_counter self clock level message kwargs w :
  _event_id_counter (world_of (log self clock level message kwargs w)) =
    if (level_weight (PyStr.lower level) <? level_threshold self)%Z
    then _event_id_counter w
    else (_event_id_counter w + 1)%N.
Proof.
  destruct (Z.ltb_spec (level_weight (PyStr.lower level))
              (level_threshold self)) as [Hlt|Hle].
  - by rewrite log_filtered.
  - by rewrite log_passed, emit_counter, prepare_entry_counter.
Qed.

Lemma step_counter (op : operation) (w : world) :
  match (step op w).1 with
  | Some event_id =>
      counter_component event_id = Some (_event_id_counter w + 1)%N
      /\ _event_id_counter (step op w).2 = (_event_id_counter w + 1)%N
  | None => _event_id_counter (step op w).2 = _event_id_counter w
  end.
Proof.
  destruct op as [ms|self clock level message kwargs]; simpl.
  - by rewrite counter_component_format.
  - rewrite log_counter.
    destruct (_ <? _)%Z; [done|].
    by rewrite counter_component_format.
Qed.

Lemma run_counters (ops : list operation) (w : world) :
  exists counters : list N,
    Forall2 (fun event_id c => counter_component event_id = Some c)
            (run ops w).1 counters
    /\ StronglySorted N.lt counters
    /\ Forall (fun c => (_event_id_counter w < c)%N) counters
    /\ (_event_id_counter w <= _event_id_counter (run ops w).2)%N.
Proof.
  revert w. induction ops as [|op ops IH]; intros w; simpl.
  { exists []. repeat split; [constructor..|]. lia. }
  pose proof (step_counter op w) as Hstep.
  destruct (step op w) as [generated w1]. simpl in Hstep.
  destruct (IH w1) as (cs & Hids & Hsorted & Hgt & Hle).
  destruct (run ops w1) as [ids w2]. simpl in *.
  destruct generated as [event_id|].
  - destruct Hstep as [Hc Hw1]. rewrite Hw1 in Hgt, Hle.
    exists ((_event_id_counter w + 1)%N :: cs). repeat split.
    + by constructor.
    + constructor; [done|]. eapply Forall_impl; [exact Hgt|].
      intros c Hlt. exact Hlt.
    + constructor; [lia|]. eapply Forall_impl; [exact Hgt|].
      simpl. intros c Hlt. lia.
    + lia.
  - rewrite Hstep in Hgt, Hle. by exists cs.
Qed.

(** C7: the counter component of a generated event id is the counter
    after the increment; for two generations in one process, with any
    generations and log calls in between, the second counter component
    is strictly greater than the first; the counter components of the
    ids generated by any sequence of calls are strictly increasing. *)
Theorem event_id_counter_strictly_increasing :
  (forall (ms1 ms2 : Z) (between : list operation) (w : world),
     let first := generate_event_id ms1 w in
     let second := generate_event_id ms2 (run between first.2).2 in
     exists c1 c2 : N,
       counter_component first.1 = Some c1
       /\ counter_component second.1 = Some c2
       /\ (c1 < c2)%N)
  /\ (forall (ops : list operation) (w : world),
        exists counters : list N,
          Forall2 (fun event_id c => counter_component event_id = Some c)
                  (run ops w).1 counters
          /\ StronglySorted N.lt counters).
Proof.
  split.
  - intros ms1 ms2 between w first second.
    destruct (generate_event_id_counter ms1 w) as (Hc1 & Hw1 & _).
    destruct (generate_event_id_counter ms2 (run between first.2).2)
      as (Hc2 & _ & _).
    destruct (run_counters between first.2) as (_ & _ & _ & _ & Hle).
    eexists _, _. split; [exact Hc1|]. split; [exact Hc2|].
    fold first in Hw1. lia.
  - intros ops w. destruct (run_counters ops w) as (cs & Hids & Hs & _).
    by exists cs.
Qed.

(** C1: a log call whose level weighs less than the threshold returns
    with the process state as it was: nothing written, the event-id
    counter unchanged, no id generated.  The weights of the four levels
    are 10, 20, 30 and 40. *)
Theorem below_threshold_is_noop self clock level message kwargs w :
  (level_weight (PyStr.lower level) < level_threshold self)%Z ->
  log self clock level message kwargs w = Returned w
  /\ (step (Log self clock level message kwargs) w).1 = None
  /\ (level_weight "debug", level_weight "info", level_weight "warn",
      level_weight "error") = (10, 20, 30, 40)%Z.
Proof.
  intros Hlt. split; [by apply log_filtered|]. split; [|done].
  simpl. by rewrite (proj2 (Z.ltb_lt _ _) Hlt).
Qed.

End Logging.

Lemma below_threshold_is_noop_witness :
  @log Sample.runtime Sample.root Sample.clock "DEBUG" "not shown"
       {["detail" := VInt 1]} Sample.start = Returned Sample.start.
Proof.
  apply (@below_threshold_is_noop Sample.runtime Sample.root Sample.clock
           "DEBUG" "not shown" {["detail" := VInt 1]} Sample.start).
  vm_compute. reflexivity.
Defined.

(** ** Binding hierarchies *)

Lemma child_bindings_lookup (self : StructuredLogger)
    (kwargs : gmap string value) (k : string) :
  bindings (child self kwargs) !! k =
    match kwargs !! k with
    | Some v => if is_none v then bindings self !! k else Some v
    | None => bindings self !! k
    end.
Proof. unfold child, __init__. simpl. apply merge_binding_lookup. Qed.

(** C2, as the specification states it, fails: a logger bound with a trace
    id keeps it in the child derived with [trace_id=None]. *)
Lemma null_binding_removes_key_counterexample :
  ~ (forall (self : StructuredLogger) (kwargs : gmap string value)
            (K : string),
       kwargs !! K = Some VNone -> bindings (bind self kwargs) !! K = None).
Proof.
  intros Hclaim.
  specialize (Hclaim (bind_trace Sample.root (Some "trace-123") None)
                {["trace_id" := VNone]} "trace_id" eq_refl).
  vm_compute in Hclaim. discriminate Hclaim.
Qed.

(** What an entry has under a key depends on the logger only through
    its configuration and its binding for that key. *)
Lemma entry_literal_same_at_key (self self' : StructuredLogger)
    (timestamp level message : string) (event_id : value) (K : string) :
  config self = config self' ->
  bindings self !! K = bindings self' !! K ->
  entry_literal self timestamp level message event_id !! K
  = entry_literal self' timestamp level message event_id !! K.
Proof.
  intros Hcfg HK. unfold entry_literal. rewrite !lookup_insert, Hcfg.
  repeat case_decide; subst; by rewrite ?HK.
Qed.

Lemma prepare_entry_same_at_key (self self' : StructuredLogger)
    (clock : Clock) (level message : string) (extra : gmap string value)
    (w : world) (K : string) :
  config self = config self' ->
  bindings self !! K = bindings self' !! K ->
  (_prepare_entry self clock level message extra w).1 !! K
  = (_prepare_entry self' clock level message extra w).1 !! K.
Proof.
  intros Hcfg HK. destruct (decide (K = "context")) as [->|Hc].
  - pose proof (prepare_entry_context_lookup self clock level message extra
                  w) as Hl.
    pose proof (prepare_entry_context_lookup self' clock level message extra
                  w) as Hl'.
    unfold entry_context in Hl, Hl'.
    rewrite prepare_entry_lookup_context in Hl |- *.
    rewrite prepare_entry_lookup_context in Hl' |- *.
    do 2 f_equal. apply map_eq. intros j. by rewrite Hl, Hl'.
  - rewrite !prepare_entry_lookup_root by exact Hc.
    unfold dict_get. rewrite HK.
    by rewrite (entry_literal_same_at_key self self' _ _ _ _ K Hcfg HK).
Qed.

(** C2, amended: a key that [bind] or [child] receives with the value
    [None] is skipped; the child's binding for it is the parent's,
    unchanged (absent only when the parent has none); [bind] is [child];
    and every entry of the child has under that key exactly what the
    entry of the parent has:
    a bound service, environment, version, category or optional root field
    still appears in the entries of the child, with the parent's value,
    unless the call gives that key itself.  A key received with any other
    value overrides the parent's binding. *)
Theorem null_binding_keeps_parent_value (self : StructuredLogger)
    (kwargs : gmap string value) (K : string) :
  kwargs !! K = Some VNone ->
  bindings (bind self kwargs) !! K = bindings self !! K
  /\ bindings (child self kwargs) !! K = bindings self !! K
  /\ bind self kwargs = child self kwargs
  /\ (forall (clock : Clock) (level message : string)
             (extra : gmap string value) (w : world),
        (_prepare_entry (bind self kwargs) clock level message extra w).1
          !! K
        = (_prepare_entry self clock level message extra w).1 !! K)
  /\ (forall (v : value) (clock : Clock) (level message : string)
             (extra : gmap string value) (w : world),
        K ∈ SCHEMA_BINDINGS ->
        bindings self !! K = Some v -> v <> VNone ->
        extra !! K = None ->
        (_prepare_entry (bind self kwargs) clock level message extra w).1
          !! K = Some v)
  /\ (forall k v, kwargs !! k = Some v -> v <> VNone ->
        bindings (child self kwargs) !! k = Some v).
Proof.
  intros HK.
  assert (bindings (child self kwargs) !! K = bindings self !! K) as Hsame
    by by rewrite child_bindings_lookup, HK.
  assert (forall clock level message extra w,
            (_prepare_entry (child self kwargs) clock level message extra w).1
              !! K
            = (_prepare_entry self clock level message extra w).1 !! K)
    as Hentry.
  { intros clock level message extra w.
    by apply prepare_entry_same_at_key. }
  unfold bind. split; [exact Hsame|]. split; [exact Hsame|].
  split; [reflexivity|]. split; [exact Hentry|]. split.
  - intros v clock level message extra w Hschema Hbound Hv Hextra.
    rewrite Hentry.
    assert (K <> "context") as Hc by (intros ->; revert Hschema; by_refutation).
    rewrite prepare_entry_lookup_root by exact Hc.
    rewrite Hextra. unfold dict_get. rewrite Hbound. cbn [default from_option id].
    destruct (bool_decide (K ∈ OPTIONAL_ROOT_FIELDS)) eqn:Hopt.
    { by destruct v. }
    apply bool_decide_eq_false_1 in Hopt.
    unfold SCHEMA_BINDINGS in Hschema.
    apply elem_of_app in Hschema as [Hschema|Hschema]; [|done].
    unfold entry_literal. rewrite !lookup_insert.
    repeat (apply elem_of_cons in Hschema as [->|Hschema];
            [repeat case_decide; try done; rewrite Hbound; by destruct v|]).
    by apply elem_of_nil in Hschema.
  - intros k v Hk Hv. rewrite child_bindings_lookup, Hk. by destruct v.
Qed.

Lemma null_binding_keeps_parent_value_witness :
  (_prepare_entry
     (bind (bind_trace Sample.root (Some "trace-123") None)
           {["trace_id" := VNone]})
     Sample.clock "info" "still traced" ∅ Sample.start).1 !! "trace_id"
  = Some (VStr "trace-123").
Proof.
  refine (proj1 (proj2 (proj2 (proj2 (proj2
            (null_binding_keeps_parent_value
               (bind_trace Sample.root (Some "trace-123") None)
               {["trace_id" := VNone]} "trace_id" _)))))
            (VStr "trace-123") Sample.clock "info" "still traced" ∅
            Sample.start _ _ _ _).
  - reflexivity.
  - by_decision.
  - vm_compute. reflexivity.
  - discriminate.
  - apply lookup_empty.
Defined.

(** ** The assembled entry *)

Lemma entry_literal_keys self timestamp level message event_id (k : string) :
  is_Some (entry_literal self timestamp level message event_id !! k) ->
  k ∈ REQUIRED_FIELDS.
Proof.
  unfold entry_literal. intros Hk.
  destruct (decide (k ∈ REQUIRED_FIELDS)) as [|Hnot]; [done|].
  rewrite !lookup_insert_ne in Hk;
    [rewrite lookup_empty in Hk; by destruct Hk|..];
    intros <-; apply Hnot; by_decision.
Qed.

Lemma strip_none_is_Some (o : option value) :
  is_Some (strip_none o) -> is_Some o.
Proof. by destruct o as [[]|]. Qed.

Lemma strip_none_not_none (o : option value) : strip_none o <> Some VNone.
Proof. by destruct o as [[]|]. Qed.

Section AssembledEntry.
Variable self : StructuredLogger.
Variable clock : Clock.
Variables level message : string.
Variable extra : gmap string value.
Variable w : world.

Let entry := (_prepare_entry self clock level message extra w).1.

(** The root of an entry holds no [None]. *)
Lemma prepare_entry_root_not_none (k : string) : entry !! k <> Some VNone.
Proof.
  unfold entry. destruct (decide (k = "context")) as [->|Hk].
  - by rewrite prepare_entry_lookup_context.
  - rewrite prepare_entry_lookup_root by done. apply strip_none_not_none.
Qed.

(** The keys at the root: required, optional, or [context]. *)
Lemma prepare_entry_root_keys (k : string) :
  is_Some (entry !! k) ->
  k ∈ REQUIRED_FIELDS \/ k ∈ OPTIONAL_ROOT_FIELDS \/ k = "context".
Proof.
  intros Hk. unfold entry in Hk.
  destruct (decide (k = "context")) as [->|Hc]; [by right; right|].
  rewrite prepare_entry_lookup_root in Hk by done.
  apply strip_none_is_Some in Hk.
  destruct (bool_decide (k ∈ OPTIONAL_ROOT_FIELDS)) eqn:Hopt.
  - right; left. by apply bool_decide_eq_true_1 in Hopt.
  - left. by eapply entry_literal_keys.
Qed.

(** A value a call keyword puts into [context] is not [None]. *)
Lemma prepare_entry_context_not_none (j : string) :
  entry_context entry !! j = Some VNone ->
  nested_context extra !! j = Some VNone.
Proof.
  unfold entry. rewrite prepare_entry_context_lookup.
  destruct (bool_decide (j ∈ consumed_keys)); [done|].
  destruct (extra !! j) as [[]|]; done.
Qed.
End AssembledEntry.

Lemma required_not_consumed (k : string) :
  k ∈ REQUIRED_FIELDS -> k <> "event_id" -> k ∉ consumed_keys.
Proof.
  unfold REQUIRED_FIELDS. intros Hk Hne.
  repeat (apply elem_of_cons in Hk as [->|Hk];
          [by_refutation || by destruct Hne|]).
  by apply elem_of_nil in Hk.
Qed.

Lemma optional_consumed (k : string) :
  k ∈ OPTIONAL_ROOT_FIELDS -> k ∈ consumed_keys.
Proof. intros Hk. unfold consumed_keys. by do 2 apply list_elem_of_further. Qed.

(** C3, as the specification states it, fails: a call keyword named like a
    required field is copied into [context] while the root keeps the field. *)
Lemma root_and_context_disjoint_counterexample :
  ~ (forall (self : StructuredLogger) (clock : Clock) (level message : string)
            (extra : gmap string value) (w : world) (k : string),
       let entry := (_prepare_entry self clock level message extra w).1 in
       ~ (is_Some (entry !! k) /\ is_Some (entry_context entry !! k))).
Proof.
  intros Hclaim.
  apply (Hclaim Sample.root Sample.clock "info" "Test message"
           {["service" := VStr "other"]} Sample.start "service").
  split; vm_compute; eexists; reflexivity.
Qed.

(** C3, amended: the root of an assembled entry holds only the eight
    required fields, the eight optional fields and [context]; an optional
    field the call supplies with a value other than [None] is at the root;
    [context] is always there; every call keyword other than [context],
    [event_id] and the eight optional names, with a value other than
    [None], is inside [context]; no keyword with one of the eight optional
    names gets there; and a key is both at the root and inside [context]
    only if the explicit [context] dictionary of the call has it, or the
    call has a keyword named like a required field other than [event_id]. *)
Theorem entry_root_and_context_keys (self : StructuredLogger) (clock : Clock)
    (level message : string) (extra : gmap string value) (w : world) :
  let entry := (_prepare_entry self clock level message extra w).1 in
  (forall k, is_Some (entry !! k) ->
     k ∈ REQUIRED_FIELDS \/ k ∈ OPTIONAL_ROOT_FIELDS \/ k = "context")
  /\ (forall k v, k ∈ OPTIONAL_ROOT_FIELDS -> extra !! k = Some v ->
        v <> VNone -> entry !! k = Some v)
  /\ entry !! "context" = Some (VDict (entry_context entry))
  /\ (forall k v, extra !! k = Some v -> v <> VNone -> k ∉ consumed_keys ->
        entry_context entry !! k = Some v)
  /\ (forall k, k ∈ OPTIONAL_ROOT_FIELDS ->
        entry_context entry !! k = nested_context extra !! k)
  /\ (forall k, is_Some (entry !! k) -> is_Some (entry_context entry !! k) ->
        is_Some (nested_context extra !! k)
        \/ (k ∈ REQUIRED_FIELDS /\ k <> "event_id" /\ is_Some (extra !! k))).
Proof.
  intros entry. unfold entry.
  split; [apply prepare_entry_root_keys|].
  split.
  { intros k v Hopt Hk Hv. rewrite prepare_entry_lookup_root.
    - rewrite (bool_decide_eq_true_2 _ Hopt), Hk. by destruct v.
    - intros ->. by apply context_not_optional. }
  split.
  { unfold entry_context. by rewrite prepare_entry_lookup_context. }
  split.
  { intros k v Hk Hv Hcons. rewrite prepare_entry_context_lookup.
    rewrite (bool_decide_eq_false_2 _ Hcons), Hk. by destruct v. }
  split.
  { intros k Hopt. rewrite prepare_entry_context_lookup.
    by rewrite (bool_decide_eq_true_2 _ (optional_consumed k Hopt)). }
  intros k Hroot Hctx.
  rewrite prepare_entry_context_lookup in Hctx.
  destruct (bool_decide (k ∈ consumed_keys)) eqn:Hcons; [by left|].
  apply bool_decide_eq_false_1 in Hcons.
  destruct (extra !! k) as [v|] eqn:Hk; [|by left].
  destruct (is_none v); [by left|]. right.
  apply prepare_entry_root_keys in Hroot as [Hreq|[Hopt| ->]].
  - repeat split; [done| |by eexists].
    intros ->. apply Hcons. unfold consumed_keys.
    apply list_elem_of_further, list_elem_of_here.
  - by destruct Hcons; apply optional_consumed.
  - destruct Hcons. apply list_elem_of_here.
Qed.

Lemma entry_root_and_context_keys_witness :
  entry_context
    (_prepare_entry Sample.root Sample.clock "info" "Test message"
       {["test" := VBool true]} Sample.start).1 !! "test"
  = Some (VBool true).
Proof.
  refine (proj1 (proj2 (proj2 (proj2
            (entry_root_and_context_keys Sample.root Sample.clock "info"
               "Test message" {["test" := VBool true]} Sample.start))))
            "test" (VBool true) _ _ _).
  - reflexivity.
  - discriminate.
  - by_refutation.
Defined.

(** C4: the null-dropping of [_prepare_entry] misses the explicit
    [context] dictionary: [info("m", context={"a": None})] yields an entry
    whose context maps [a] to [None], while [info("m", a=None)] yields a
    context without [a]. *)
Theorem nested_context_keeps_null :
  entry_context
    (_prepare_entry Sample.root Sample.clock "info" "m"
       {["context" := VDict {["a" := VNone]}]} Sample.start).1 !! "a"
  = Some VNone
  /\ entry_context
       (_prepare_entry Sample.root Sample.clock "info" "m"
          {["a" := VNone]} Sample.start).1 !! "a"
     = None.
Proof. split; vm_compute; reflexivity. Qed.

(** ** Caller-supplied event ids *)

Lemma prepare_entry_event_id self clock level message extra w :
  (_prepare_entry self clock level message extra w).1 !! "event_id" =
    strip_none
      (Some (default (VStr (generate_event_id (now_epoch_ms clock) w).1)
                     (extra !! "event_id"))).
Proof.
  rewrite prepare_entry_lookup_root by done.
  rewrite (bool_decide_eq_false_2 _ event_id_not_optional).
  unfold entry_literal. by rewrite lookup_insert_eq.
Qed.

(** C10, as stated, fails: the event id of an explicit [context] dictionary
    stays inside [context]. *)
Lemma caller_event_id_counterexample :
  ~ (forall (self : StructuredLogger) (clock : Clock) (level message : string)
            (kwargs : gmap string value) (w : world) (v : value),
       (level_threshold self <= level_weight (PyStr.lower level))%Z ->
       kwargs !! "event_id" = Some v -> v <> VNone ->
       let entry :=
         (_prepare_entry self clock (PyStr.lower level) message kwargs w).1 in
       entry !! "event_id" = Some v
       /\ entry_context entry !! "event_id" = None).
Proof.
  intros Hclaim.
  destruct (Hclaim Sample.root Sample.clock "info" "m"
              (<["event_id" := VStr "evt-custom"]>
                 {["context" := VDict {["event_id" := VStr "inner"]}]})
              Sample.start (VStr "evt-custom")) as [_ Hctx].
  - vm_compute. discriminate.
  - reflexivity.
  - discriminate.
  - vm_compute in Hctx. discriminate Hctx.
Qed.

(** C10, amended: a log call at or above the threshold with an [event_id]
    keyword other than [None] emits an entry whose [event_id] is the
    caller's value; the keyword itself is not put inside [context], which
    has an [event_id] key only when the explicit [context] dictionary of
    the call has one; the event-id counter is incremented all the same. *)
Theorem caller_event_id_is_kept `{Runtime} (self : StructuredLogger)
    (clock : Clock) (level message : string) (kwargs : gmap string value)
    (w : world) (v : value) :
  (level_threshold self <= level_weight (PyStr.lower level))%Z ->
  kwargs !! "event_id" = Some v -> v <> VNone ->
  let assembled :=
    _prepare_entry self clock (PyStr.lower level) message kwargs w in
  log self clock level message kwargs w = _emit self assembled.1 assembled.2
  /\ assembled.1 !! "event_id" = Some v
  /\ entry_context assembled.1 !! "event_id"
     = nested_context kwargs !! "event_id"
  /\ _event_id_counter assembled.2 = (_event_id_counter w + 1)%N
  /\ _event_id_counter (world_of (log self clock level message kwargs w))
     = (_event_id_counter w + 1)%N.
Proof.
  intros Hle Hid Hv assembled. unfold assembled.
  split; [by apply log_passed|].
  split; [rewrite prepare_entry_event_id, Hid; by destruct v|].
  split.
  { rewrite prepare_entry_context_lookup. unfold consumed_keys.
    rewrite (bool_decide_elem_of_cons_ne "event_id" "context") by done.
    by rewrite bool_decide_elem_of_cons_eq. }
  split; [apply prepare_entry_counter|].
  rewrite log_counter. by rewrite (proj2 (Z.ltb_ge _ _) Hle).
Qed.

Lemma caller_event_id_is_kept_witness :
  (_prepare_entry Sample.root Sample.clock "info" "m"
     {["event_id" := VStr "evt-custom"]} Sample.start).1 !! "event_id"
  = Some (VStr "evt-custom").
Proof.
  refine (proj1 (proj2
            (@caller_event_id_is_kept Sample.runtime Sample.root Sample.clock
               "info" "m" {["event_id" := VStr "evt-custom"]} Sample.start
               (VStr "evt-custom") _ _ _))).
  - vm_compute. discriminate.
  - reflexivity.
  - discriminate.
Defined.

(** ** Error serialisation *)

Lemma prefix_app (p b : string) : String.prefix p (p +:+ b) = true.
Proof.
  induction p as [|a p IH]; simpl; [by destruct b|].
  by destruct (Ascii.ascii_dec a a).
Qed.

Lemma find_app (p a b : string) : PyStr.find p (a +:+ p +:+ b) = true.
Proof.
  induction a as [|c a IH].
  - change ("" +:+ p +:+ b) with (p +:+ b).
    pose proof (prefix_app p b) as Hp.
    destruct (p +:+ b); cbn [PyStr.find]; by rewrite Hp.
  - change (String c a +:+ p +:+ b) with (String c (a +:+ p +:+ b)).
    cbn [PyStr.find]. rewrite IH. apply orb_true_r.
Qed.

Lemma sensitive_patterns_lower (pattern : string) :
  pattern ∈ SENSITIVE_PATTERNS -> PyStr.lower pattern = pattern.
Proof.
  unfold SENSITIVE_PATTERNS. intros Hp.
  repeat (apply elem_of_cons in Hp as [->|Hp]; [reflexivity|]).
  by apply elem_of_nil in Hp.
Qed.

(** A string that contains a sensitive substring, whatever its case, is
    redacted. *)
Lemma matches_sensitive_contains (s pattern : string) :
  pattern ∈ SENSITIVE_PATTERNS ->
  PyStr.contains (PyStr.lower s) pattern ->
  matches_sensitive s = true.
Proof.
  intros Hp (a & b & Hs). unfold matches_sensitive.
  apply existsb_exists. exists pattern. split.
  - by apply list_elem_of_In.
  - unfold PyStr.search_ignorecase.
    rewrite sensitive_patterns_lower, Hs by done. apply find_app.
Qed.





Lemma safe_attribute_public (k : string) :
  k ∈ SAFE_ATTRIBUTES -> PyStr.startswith k "_" = false.
Proof.
  unfold SAFE_ATTRIBUTES. intros Hk.
  repeat (apply elem_of_cons in Hk as [->|Hk]; [reflexivity|]).
  by apply elem_of_nil in Hk.
Qed.

Section SerializeError.
Variable e : PyException.

Let base : gmap string value :=
  <["message" := py_or (VStr (exc_str e)) (VStr "Error")]>
    (<["name" := VStr (exc_type_name e)]> ∅).

Lemma serialize_error_lookup (k : string) :
  serialize_error (Some e) ≫= (.!! k) =
    if truthy (VStr (exc_traceback e)) && bool_decide (k = "stack")
    then Some (VStr (exc_traceback e))
    else match default ∅ (exc_dict e) !! k with
         | Some v =>
             if negb (PyStr.startswith k "_")
                && bool_decide (k ∈ SAFE_ATTRIBUTES)
             then Some (_redact_sensitive_data v)
             else base !! k
         | None => base !! k
         end.
Proof.
  unfold serialize_error. simpl.
  assert (forall m : gmap string value,
            (if truthy (VStr (exc_traceback e))
             then <["stack" := VStr (exc_traceback e)]> m else m) !! k =
            if truthy (VStr (exc_traceback e)) && bool_decide (k = "stack")
            then Some (VStr (exc_traceback e)) else m !! k) as Hstack.
  { intros m. destruct (truthy (VStr (exc_traceback e))); [|done]. simpl.
    case_bool_decide as Hk.
    - subst k. by rewrite lookup_insert_eq.
    - by rewrite lookup_insert_ne. }
  rewrite Hstack.
  destruct (exc_dict e) as [d|]; simpl.
  - by rewrite copy_attribute_lookup.
  - by rewrite lookup_empty.
Qed.

Lemma serialize_error_keys (serialized : gmap string value) (k : string) :
  serialize_error (Some e) = Some serialized ->
  is_Some (serialized !! k) ->
  k ∈ ["name"; "message"; "stack"] \/ k ∈ SAFE_ATTRIBUTES.
Proof.
  intros Hser Hk. pose proof (serialize_error_lookup k) as Hl.
  rewrite Hser in Hl. cbn [mbind option_bind] in Hl.
  rewrite Hl in Hk. clear Hl.
  assert (is_Some (base !! k) -> k ∈ ["name"; "message"; "stack"]) as Hbase.
  { unfold base. intros Hb.
    destruct (decide (k = "message")) as [->|?];
      [by_decision|].
    destruct (decide (k = "name")) as [->|?];
      [by_decision|].
    rewrite !lookup_insert_ne, lookup_empty in Hb by done.
    by destruct Hb. }
  destruct (truthy _ && bool_decide (k = "stack")) eqn:Hst.
  { apply andb_true_iff in Hst as [_ Hst].
    apply bool_decide_eq_true_1 in Hst as ->.
    left. by_decision. }
  destruct (default ∅ (exc_dict e) !! k) as [v|]; [|by left; apply Hbase].
  destruct (negb _ && bool_decide (k ∈ SAFE_ATTRIBUTES)) eqn:Hsafe.
  - right. apply andb_true_iff in Hsafe as [_ Hsafe].
    by apply bool_decide_eq_true_1 in Hsafe.
  - left. by apply Hbase.
Qed.

Lemma serialize_error_name (serialized : gmap string value) :
  serialize_error (Some e) = Some serialized ->
  serialized !! "name" = Some (VStr (exc_type_name e)).
Proof.
  intros Hser. pose proof (serialize_error_lookup "name") as Hl.
  rewrite Hser in Hl. cbn [mbind option_bind] in Hl. rewrite Hl.
  rewrite andb_false_r.
  destruct (default ∅ (exc_dict e) !! "name"); by simplify_map_eq.
Qed.
End SerializeError.

(** C5: the serialised error has only the keys [name], [message], [stack]
    and the allow-listed attribute names; [name] is the type name and
    [stack] the traceback text, whatever the attributes of the error are;
    and an allow-listed attribute whose value is a string containing one of
    the sensitive substrings, in any case, is serialised as "[REDACTED]". *)
Theorem serialize_error_allowlist_and_redaction (e : PyException) :
  exists serialized : gmap string value,
    serialize_error (Some e) = Some serialized
    /\ (forall k, is_Some (serialized !! k) ->
          k ∈ ["name"; "message"; "stack"] \/ k ∈ SAFE_ATTRIBUTES)
    /\ serialized !! "name" = Some (VStr (exc_type_name e))
    /\ serialized !! "stack" =
         (if truthy (VStr (exc_traceback e))
          then Some (VStr (exc_traceback e)) else None)
    /\ (forall d k s pattern,
          exc_dict e = Some d -> k ∈ SAFE_ATTRIBUTES ->
          d !! k = Some (VStr s) ->
          pattern ∈ SENSITIVE_PATTERNS ->
          PyStr.contains (PyStr.lower s) pattern ->
          serialized !! k = Some (VStr "[REDACTED]")).
Proof.
  destruct (serialize_error (Some e)) as [serialized|] eqn:Hser; [|done].
  exists serialized. split; [done|].
  split; [intros k; by apply (serialize_error_keys e)|].
  assert (forall k, serialized !! k = serialize_error (Some e) ≫= (.!! k))
    as Hl by (intros k; by rewrite Hser).
  split; [|split].
  - by apply serialize_error_name.
  - rewrite Hl, serialize_error_lookup. rewrite andb_true_r.
    destruct (truthy (VStr (exc_traceback e))); [done|].
    destruct (default ∅ (exc_dict e) !! "stack"); by simplify_map_eq.
  - intros d k s pattern Hd Hsafe Hk Hp Hs.
    rewrite Hl, serialize_error_lookup, Hd. simpl. rewrite Hk.
    rewrite safe_attribute_public, (bool_decide_eq_true_2 _ Hsafe) by done.
    assert (bool_decide (k = "stack") = false) as ->.
    { apply bool_decide_eq_false_2. intros ->. revert Hsafe.
      by_refutation. }
    rewrite andb_false_r. simpl.
    by rewrite (matches_sensitive_contains s pattern).
Qed.

Lemma serialize_error_allowlist_and_redaction_witness :
  exists serialized : gmap string value,
    serialize_error (Some Sample.exception) = Some serialized
    /\ serialized !! "code" = Some (VStr "[REDACTED]").
Proof.
  destruct (serialize_error_allowlist_and_redaction Sample.exception)
    as (serialized & Hser & _ & _ & _ & Hredact).
  exists serialized. split; [exact Hser|].
  apply (Hredact _ "code" "token=abc123" "token" eq_refl).
  - by_decision.
  - reflexivity.
  - by_decision.
  - exists "", "=abc123". reflexivity.
Defined.



Lemma setdefault_lookup_ne (k j : string) (v : value)
    (d : gmap string value) :
  k <> j -> setdefault k v d !! j = d !! j.
Proof.
  intros Hne. unfold setdefault.
  destruct (d !! k); [done|]. by rewrite lookup_insert_ne.
Qed.

(** The context [log_error] builds carries the serialised error under
    [err]. *)
Lemma log_error_context_err (err : PyException)
    (kwargs context : gmap string value) :
  log_error_context err kwargs = Some context ->
  exists payload : gmap string value,
    serialize_error (Some err) = Some payload
    /\ context !! "err" = Some (VDict payload).
Proof.
  unfold log_error_context. intros Hctx.
  destruct (py_dict _) as [d|]; [|discriminate Hctx].
  destruct (serialize_error (Some err)) as [payload|] eqn:Hser;
    [|discriminate Hser].
  exists payload. split; [done|].
  assert (truthy (VDict payload) = true) as Htruthy.
  { simpl. apply negb_true_iff, Nat.eqb_neq.
    apply (map_size_ne_0_lookup_2 payload "name").
    rewrite (serialize_error_name err payload Hser). by eexists. }
  rewrite Htruthy in Hctx. injection Hctx as <-.
  rewrite !setdefault_lookup_ne by done. by rewrite lookup_insert_eq.
Qed.

Lemma log_error_context_total (err : PyException)
    (kwargs : gmap string value) :
  kwargs !! "context" = None -> is_Some (log_error_context err kwargs).
Proof.
  intros Hnone. unfold log_error_context. rewrite Hnone.
  unfold py_or. cbn [default from_option id truthy]. rewrite map_size_empty.
  cbn [Nat.eqb negb py_dict]. by eexists.
Qed.




(** ** Pretty rendering *)

Lemma string_app_assoc (a b c : string) : (a +:+ b) +:+ c = a +:+ b +:+ c.
Proof.
  induction a as [|x a IH]; [reflexivity|].
  change (String x ((a +:+ b) +:+ c) = String x (a +:+ b +:+ c)).
  by rewrite IH.
Qed.

Lemma string_app_nil_r (a : string) : a +:+ "" = a.
Proof.
  induction a as [|x a IH]; [reflexivity|].
  change (String x (a +:+ "") = String x a). by rewrite IH.
Qed.

Lemma contains_refl_app (a s b : string) : PyStr.contains (a +:+ s +:+ b) s.
Proof. by exists a, b. Qed.

Lemma contains_app_l (x y s : string) :
  PyStr.contains x s -> PyStr.contains (x +:+ y) s.
Proof.
  intros (a & b & ->). exists a, (b +:+ y).
  by rewrite !string_app_assoc.
Qed.

Lemma contains_app_r (x y s : string) :
  PyStr.contains y s -> PyStr.contains (x +:+ y) s.
Proof.
  intros (a & b & ->). exists (x +:+ a), b.
  by rewrite !string_app_assoc.
Qed.

Lemma join_contains (sep s : string) (l : list string) :
  s ∈ l -> PyStr.contains (PyStr.join sep l) s.
Proof.
  induction l as [|x l IH]; intros Hin; [by apply elem_of_nil in Hin|].
  apply elem_of_cons in Hin as [->|Hin].
  - destruct l as [|y l]; simpl.
    + exists "", "". symmetry. apply string_app_nil_r.
    + by exists "", (sep +:+ PyStr.join sep (y :: l)).
  - destruct l as [|y l]; [by apply elem_of_nil in Hin|].
    change (PyStr.join sep (x :: y :: l))
      with (x +:+ sep +:+ PyStr.join sep (y :: l)).
    by apply contains_app_r, contains_app_r, IH.
Qed.

Lemma truthy_strings_all_str (parts : list value) :
  Forall is_str parts ->
  exists l : list string,
    truthy_strings parts = Some l
    /\ forall s, VStr s ∈ parts -> s <> "" -> s ∈ l.
Proof.
  induction 1 as [|v parts Hv _ (l & Hl & Hin)]; simpl.
  { exists []. split; [done|]. intros s Hs. by apply elem_of_nil in Hs. }
  destruct v as [| | |s0| |]; try done. simpl.
  destruct (String.eqb_spec s0 "") as [->|Hne]; simpl.
  - exists l. split; [done|]. intros s Hs Hs'.
    apply elem_of_cons in Hs as [[= ->]|Hs]; [done|by apply Hin].
  - rewrite Hl. exists (s0 :: l). split; [done|]. intros s Hs Hs'.
    apply elem_of_cons in Hs as [[= ->]|Hs];
      [apply list_elem_of_here|by apply list_elem_of_further, Hin].
Qed.

Lemma truthy_strings_app (before after : list value) :
  truthy_strings (before ++ after) =
    l1 ← truthy_strings before; l2 ← truthy_strings after; Some (l1 ++ l2).
Proof.
  induction before as [|x l IH]; simpl.
  - by destruct (truthy_strings after).
  - rewrite IH. destruct (truthy x); [|done].
    destruct x as [| | |s| |]; try done. simpl.
    destruct (truthy_strings l) as [l1|]; [|done]. simpl.
    by destruct (truthy_strings after).
Qed.

Lemma py_str_small `{Runtime} (z : Z) :
  (int_digits z <= 640)%nat -> py_str (VInt z) = Some (PyStr.of_Z z).
Proof.
  intros Hz. unfold py_str.
  destruct int_max_str_digits_valid as [->|Hlimit]; [reflexivity|].
  rewrite (proj2 (Nat.leb_le _ _)) by lia. by rewrite orb_true_r.
Qed.

Section Pretty.
Context `{Runtime}.
Variable self : StructuredLogger.

Lemma apply_color_str (s code : string) :
  exists s' : string, _apply_color self (VStr s) code = Some (VStr s').
Proof. unfold _apply_color. destruct (_ || _); by eexists. Qed.

Lemma apply_color_is_str (text colored : value) (code : string) :
  is_str text -> _apply_color self text code = Some colored ->
  is_str colored.
Proof.
  destruct text as [| | |s| |]; try done. intros _ Hc.
  destruct (apply_color_str s code) as [s' Hs]. rewrite Hs in Hc.
  by injection Hc as <-.
Qed.

Lemma pretty_timestamp_is_str (entry : gmap string value) :
  str_or_absent (entry !! "timestamp") -> is_str (pretty_timestamp entry).
Proof.
  unfold pretty_timestamp.
  destruct (entry !! "timestamp") as [[| | |s| |]|]; try done; simpl.
  intros _. destruct (negb _); [by destruct (isoformat_to_hms s)|done].
Qed.

(** The parts of an entry whose rendered fields are strings: they are
    defined when the trace id and the duration convert to text, and they
    are strings. *)
Lemma pretty_parts_all_str (entry : gmap string value) (level : string) :
  str_or_absent (entry !! "timestamp") ->
  str_or_absent (entry !! "service") ->
  str_or_absent (entry !! "category") ->
  str_or_absent (entry !! "message") ->
  is_Some (py_str (dict_get entry "trace_id")) ->
  (forall d, entry !! "duration_ms" = Some d -> is_Some (py_str d)) ->
  exists parts : list value,
    pretty_parts self entry level = Some parts /\ Forall is_str parts.
Proof.
  intros Hts Hservice Hcategory Hmessage [trace Htrace] Hduration.
  unfold pretty_parts.
  pose proof (pretty_timestamp_is_str entry Hts) as Hts'.
  destruct (pretty_timestamp entry) as [| | |ts| |]; try done.
  destruct (apply_color_str ts COLOR_DIM) as [ts' ->].
  destruct (apply_color_str (PyStr.upper level)
              (default "" (LEVEL_COLORS !! level))) as [lv ->].
  assert (exists service_part : list value,
            (if truthy (default (VStr "") (entry !! "service"))
             then (fun part => [part])
                    <$> _apply_color self
                          (default (VStr "") (entry !! "service")) COLOR_BOLD
             else Some []) = Some service_part
            /\ Forall is_str service_part) as (service_part & -> & Hsp).
  { destruct (entry !! "service") as [[| | |sv| |]|]; try done; simpl.
    - destruct (negb _); [|by exists []].
      destruct (apply_color_str sv COLOR_BOLD) as [sv' ->].
      exists [VStr sv']. split; [done|]. by repeat constructor.
    - by exists []. }
  rewrite Htrace.
  assert (exists duration_part : list value,
            match entry !! "duration_ms" with
            | Some duration =>
                (fun s => [VStr ("(" +:+ s +:+ "ms)")]) <$> py_str duration
            | None => Some []
            end = Some duration_part
            /\ Forall is_str duration_part) as (duration_part & -> & Hdp).
  { destruct (entry !! "duration_ms") as [d|]; [|by exists []].
    destruct (Hduration d eq_refl) as [ds ->]. simpl.
    eexists. split; [done|]. by repeat constructor. }
  cbn [mbind option_bind fmap option_fmap option_map].
  destruct (truthy (VStr ts)), (truthy (dict_get entry "trace_id"));
    cbn [mbind option_bind];
    (eexists; split; [reflexivity|]);
    repeat apply Forall_app_2; try exact Hsp; try exact Hdp;
    try (by repeat constructor);
    try (destruct (_ && _); repeat constructor;
         by destruct (entry !! "category"));
    repeat constructor; by destruct (entry !! "message").
Qed.
End Pretty.

Lemma entry_literal_lookup self timestamp level message event_id :
  let literal := entry_literal self timestamp level message event_id in
  literal !! "timestamp" = Some (VStr timestamp)
  /\ literal !! "level" = Some (VStr level)
  /\ literal !! "message" = Some (py_or (VStr message) (VStr ""))
  /\ literal !! "service" =
       Some (default (VStr (service (config self)))
                     (bindings self !! "service"))
  /\ literal !! "category" =
       Some (default (VStr "app") (bindings self !! "category")).
Proof.
  unfold entry_literal. cbn zeta.
  repeat split;
    rewrite ?lookup_insert_ne by discriminate; apply lookup_insert_eq.
Qed.

Lemma prepare_entry_lookup_required self clock level message extra w
    (k : string) :
  k ∈ REQUIRED_FIELDS ->
  (_prepare_entry self clock level message extra w).1 !! k =
    strip_none
      (entry_literal self (now_isoformat clock) level message
         (default (VStr (generate_event_id (now_epoch_ms clock) w).1)
                  (extra !! "event_id")) !! k).
Proof.
  intros Hk.
  assert (k <> "context" /\ k ∉ OPTIONAL_ROOT_FIELDS) as [Hc Hopt].
  { unfold REQUIRED_FIELDS in Hk.
    repeat (apply elem_of_cons in Hk as [->|Hk];
            [split; [discriminate
                    |by_refutation]|]).
    by apply elem_of_nil in Hk. }
  rewrite prepare_entry_lookup_root by done.
  by rewrite (bool_decide_eq_false_2 _ Hopt).
Qed.

Lemma strip_none_str (v : value) : is_str v -> strip_none (Some v) = Some v.
Proof. by destruct v. Qed.

(** The fields of an assembled entry that the pretty renderer joins are
    strings, for a logger whose [service] and [category] bindings are. *)
Lemma prepare_entry_str_fields self clock level message extra w :
  str_or_absent (bindings self !! "service") ->
  str_or_absent (bindings self !! "category") ->
  let entry := (_prepare_entry self clock level message extra w).1 in
  str_or_absent (entry !! "timestamp")
  /\ str_or_absent (entry !! "service")
  /\ str_or_absent (entry !! "category")
  /\ str_or_absent (entry !! "message")
  /\ entry !! "level" = Some (VStr level).
Proof.
  intros Hservice Hcategory entry. unfold entry.
  destruct (entry_literal_lookup self (now_isoformat clock) level message
              (default (VStr (generate_event_id (now_epoch_ms clock) w).1)
                       (extra !! "event_id")))
    as (Hts & Hlevel & Hmessage & Hsvc & Hcat).
  rewrite !prepare_entry_lookup_required
    by by_decision.
  rewrite Hts, Hlevel, Hmessage, Hsvc, Hcat.
  repeat split.
  - destruct (bindings self !! "service") as [[]|]; done.
  - destruct (bindings self !! "category") as [[]|]; done.
  - unfold py_or. by destruct (truthy _).
Qed.

Section PrettySegments.
Context `{Runtime}.
Variable self : StructuredLogger.

(** The category segment is left out for [category = "app"]. *)
Lemma pretty_parts_app_category (entry : gmap string value)
    (level : string) :
  entry !! "category" = Some (VStr "app") ->
  pretty_parts self entry level =
    pretty_parts self (delete "category" entry) level.
Proof.
  intros Hcat. unfold pretty_parts, pretty_timestamp, dict_get.
  rewrite lookup_delete_eq, Hcat.
  rewrite !(lookup_delete_ne entry "category") by discriminate.
  cbn [from_option id].
  assert (truthy (VStr "app") && not_app (VStr "app") = false) as ->
    by reflexivity.
  assert (truthy (VStr "") = false) as -> by reflexivity.
  reflexivity.
Qed.

Lemma format_pretty_app_category (entry : gmap string value) :
  entry !! "category" = Some (VStr "app") ->
  _format_pretty self entry = _format_pretty self (delete "category" entry).
Proof.
  intros Hcat. unfold _format_pretty, dict_get.
  rewrite !(lookup_delete_ne entry "category") by discriminate.
  destruct (py_or _ _); try reflexivity.
  by rewrite <- pretty_parts_app_category.
Qed.

(** The trace segment comes with a truthy [trace_id]: after the time, the
    level, the service and the category, before the duration. *)
Lemma pretty_parts_trace_segment (entry : gmap string value)
    (level : string) (t : value) (parts : list value) :
  entry !! "trace_id" = None ->
  pretty_parts self entry level = Some parts ->
  exists pre post : list value,
    parts = pre ++ post
    /\ pretty_parts self (<["trace_id" := t]> entry) level =
         if truthy t
         then (fun s =>
                 pre ++ VStr ("[" +:+ PyStr.take 8 s +:+ "...]") :: post)
                <$> py_str t
         else Some parts.
Proof.
  intros Hnone. unfold pretty_parts, dict_get.
  assert (pretty_timestamp (<["trace_id" := t]> entry)
          = pretty_timestamp entry) as ->.
  { unfold pretty_timestamp. by rewrite lookup_insert_ne. }
  rewrite lookup_insert_eq, Hnone.
  rewrite !(lookup_insert_ne entry "trace_id") by discriminate.
  cbn [from_option id]. change (truthy VNone) with false. cbv iota.
  destruct (if truthy (pretty_timestamp entry) then _ else Some [])
    as [time_part|]; [|done].
  cbn [mbind option_bind].
  destruct (_apply_color self (VStr (PyStr.upper level)) _) as [level_part|];
    [|done].
  cbn [mbind option_bind].
  destruct (if truthy (default (VStr "") (entry !! "service")) then _
            else Some []) as [service_part|]; [|done].
  cbn [mbind option_bind].
  destruct (match entry !! "duration_ms" with Some _ => _ | None => _ end)
    as [duration_part|]; [|by destruct (truthy t), (py_str t)].
  cbn [mbind option_bind]. intros [= <-].
  exists (time_part ++ [level_part] ++ service_part
          ++ (if truthy (default (VStr "") (entry !! "category"))
                 && not_app (default (VStr "") (entry !! "category"))
              then [default (VStr "") (entry !! "category")] else [])),
         (duration_part ++ [VStr "-"; default (VStr "") (entry !! "message")]).
  split; [by rewrite <- !(assoc_L (++))|].
  destruct (truthy t); [|reflexivity].
  destruct (py_str t) as [s|]; [|reflexivity].
  cbn [mbind option_bind fmap option_fmap option_map].
  by rewrite <- !(assoc_L (++)).
Qed.

(** The duration segment comes with [duration_ms]: after the trace
    segment, before the dash and the message. *)
Lemma pretty_parts_duration_segment (entry : gmap string value)
    (level : string) (d : value) (parts : list value) :
  entry !! "duration_ms" = None ->
  pretty_parts self entry level = Some parts ->
  exists pre post : list value,
    parts = pre ++ post
    /\ pretty_parts self (<["duration_ms" := d]> entry) level =
         (fun s => pre ++ VStr ("(" +:+ s +:+ "ms)") :: post) <$> py_str d.
Proof.
  intros Hnone. unfold pretty_parts, dict_get.
  assert (pretty_timestamp (<["duration_ms" := d]> entry)
          = pretty_timestamp entry) as ->.
  { unfold pretty_timestamp. by rewrite lookup_insert_ne. }
  rewrite lookup_insert_eq, Hnone.
  rewrite !(lookup_insert_ne entry "duration_ms") by discriminate.
  destruct (if truthy (pretty_timestamp entry) then _ else Some [])
    as [time_part|]; [|done].
  cbn [mbind option_bind].
  destruct (_apply_color self (VStr (PyStr.upper level)) _) as [level_part|];
    [|done].
  cbn [mbind option_bind].
  destruct (if truthy (default (VStr "") (entry !! "service")) then _
            else Some []) as [service_part|]; [|done].
  cbn [mbind option_bind].
  destruct (if truthy (default VNone (entry !! "trace_id")) then _
            else Some []) as [trace_part|]; [|done].
  cbn [mbind option_bind]. intros [= <-].
  exists (time_part ++ [level_part] ++ service_part
          ++ (if truthy (default (VStr "") (entry !! "category"))
                 && not_app (default (VStr "") (entry !! "category"))
              then [default (VStr "") (entry !! "category")] else [])
          ++ trace_part),
         [VStr "-"; default (VStr "") (entry !! "message")].
  split; [by rewrite <- !(assoc_L (++))|].
  destruct (py_str d) as [s|]; [|reflexivity].
  cbn [mbind option_bind fmap option_fmap option_map].
  by rewrite <- !(assoc_L (++)).
Qed.

(** The rendered text is the line followed by a rest that does not depend
    on the line. *)
Lemma format_pretty_rest (context : value) (line text : string) :
  (if truthy context
   then
     context_json ← json_dumps_indent context;
     dimmed ← _apply_color self (VStr context_json) COLOR_DIM;
     dimmed ← py_str dimmed;
     Some (line +:+ NL +:+ dimmed)
   else Some line) = Some text ->
  exists rest : string,
    text = line +:+ rest
    /\ forall line' : string,
         (if truthy context
          then
            context_json ← json_dumps_indent context;
            dimmed ← _apply_color self (VStr context_json) COLOR_DIM;
            dimmed ← py_str dimmed;
            Some (line' +:+ NL +:+ dimmed)
          else Some line') = Some (line' +:+ rest).
Proof.
  destruct (truthy context).
  - destruct (json_dumps_indent context) as [context_json|]; [|done].
    cbn [mbind option_bind].
    destruct (_apply_color self (VStr context_json) COLOR_DIM) as [dimmed|];
      [|done].
    cbn [mbind option_bind].
    destruct (py_str dimmed) as [dimmed'|]; [|done].
    cbn [mbind option_bind]. intros [= <-]. by exists (NL +:+ dimmed').
  - intros [= <-]. exists "". split; [by rewrite string_app_nil_r|].
    intros line'. by rewrite string_app_nil_r.
Qed.

(** A segment added to the parts is a word added to the rendered line. *)
Lemma format_pretty_insert_segment (entry entry' : gmap string value)
    (segment text : string) :
  entry' !! "level" = entry !! "level" ->
  entry' !! "context" = entry !! "context" ->
  segment <> "" ->
  (forall level parts,
     pretty_parts self entry level = Some parts ->
     exists pre post : list value,
       parts = pre ++ post
       /\ pretty_parts self entry' level
          = Some (pre ++ VStr segment :: post)) ->
  _format_pretty self entry = Some text ->
  exists (before after : list string) (rest : string),
    text = PyStr.join " " (before ++ after) +:+ rest
    /\ _format_pretty self entry'
       = Some (PyStr.join " " (before ++ segment :: after) +:+ rest)
    /\ PyStr.contains
         (PyStr.join " " (before ++ segment :: after) +:+ rest) segment.
Proof.
  intros Hlevel Hcontext Hsegment Hparts.
  unfold _format_pretty, dict_get. rewrite Hlevel, Hcontext.
  destruct (py_or _ (VStr "info")) as [| | |level| |]; try done.
  destruct (pretty_parts self entry (PyStr.lower level)) as [parts|] eqn:Hp;
    [|done].
  destruct (Hparts _ _ Hp) as (pre & post & -> & ->).
  cbn [mbind option_bind].
  rewrite !truthy_strings_app.
  destruct (truthy_strings pre) as [before|]; [|done].
  cbn [mbind option_bind truthy_strings truthy].
  rewrite (proj2 (String.eqb_neq _ _) Hsegment). cbn [negb].
  destruct (truthy_strings post) as [after|]; [|done].
  cbn [mbind option_bind fmap option_fmap option_map].
  intros Htext. apply format_pretty_rest in Htext as (rest & -> & Hrest).
  exists before, after, rest. split; [reflexivity|].
  split; [apply Hrest|].
  apply contains_app_l, join_contains, elem_of_app. right.
  apply list_elem_of_here.
Qed.
End PrettySegments.

Section PrettyScenario.
Context `{Runtime}.
Variable self : StructuredLogger.

Lemma pretty_parts_has_trace (entry : gmap string value)
    (level : string) (parts : list value) :
  entry !! "trace_id" = Some (VStr "trace-12345678") ->
  pretty_parts self entry level = Some parts ->
  VStr "[trace-12...]" ∈ parts.
Proof.
  intros Htrace. unfold pretty_parts, dict_get. rewrite Htrace.
  cbn [from_option id py_str].
  assert (truthy (VStr "trace-12345678") = true) as -> by reflexivity.
  destruct (if truthy (pretty_timestamp entry) then _ else Some [])
    as [time_part|]; [|done].
  cbn [mbind option_bind].
  destruct (_apply_color self (VStr (PyStr.upper level)) _) as [level_part|];
    [|done].
  cbn [mbind option_bind].
  destruct (if truthy (default (VStr "") (entry !! "service")) then _
            else Some []) as [service_part|]; [|done].
  cbn [mbind option_bind fmap option_fmap option_map].
  destruct (match entry !! "duration_ms" with Some _ => _ | None => _ end)
    as [duration_part|]; [|done].
  cbn [mbind option_bind]. intros [= <-].
  repeat first [apply list_elem_of_here | apply list_elem_of_further
               | apply elem_of_app; right].
Qed.

Lemma pretty_parts_has_duration (entry : gmap string value)
    (level : string) (parts : list value) :
  entry !! "duration_ms" = Some (VInt 250) ->
  pretty_parts self entry level = Some parts ->
  VStr "(250ms)" ∈ parts.
Proof.
  intros Hduration. unfold pretty_parts. rewrite Hduration.
  rewrite (py_str_small 250) by (vm_compute; lia).
  destruct (if truthy (pretty_timestamp entry) then _ else Some [])
    as [time_part|]; [|done].
  cbn [mbind option_bind].
  destruct (_apply_color self (VStr (PyStr.upper level)) _) as [level_part|];
    [|done].
  cbn [mbind option_bind].
  destruct (if truthy (default (VStr "") (entry !! "service")) then _
            else Some []) as [service_part|]; [|done].
  cbn [mbind option_bind].
  destruct (if truthy (dict_get entry "trace_id") then _ else Some [])
    as [trace_part|]; [|done].
  cbn [mbind option_bind fmap option_fmap option_map].
  assert ("(" +:+ PyStr.of_Z 250 +:+ "ms)" = "(250ms)") as ->
    by (vm_compute; reflexivity).
  intros [= <-].
  repeat first [apply list_elem_of_here | apply list_elem_of_further
               | apply elem_of_app; right].
Qed.

(** The pretty text of an entry without context whose rendered fields are
    strings has the trace and the duration segments in it. *)
Lemma format_pretty_scenario (entry : gmap string value) (level : string) :
  str_or_absent (entry !! "timestamp") ->
  str_or_absent (entry !! "service") ->
  str_or_absent (entry !! "category") ->
  str_or_absent (entry !! "message") ->
  entry !! "level" = Some (VStr level) ->
  entry !! "trace_id" = Some (VStr "trace-12345678") ->
  entry !! "duration_ms" = Some (VInt 250) ->
  entry !! "context" = Some (VDict ∅) ->
  exists text : string,
    _format_pretty self entry = Some text
    /\ PyStr.contains text "[trace-12...]"
    /\ PyStr.contains text "(250ms)".
Proof.
  intros Hts Hservice Hcategory Hmessage Hlevel Htrace Hduration Hcontext.
  unfold _format_pretty, dict_get. rewrite Hlevel, Hcontext.
  cbn [from_option id].
  assert (truthy (py_or (VDict ∅) (VDict ∅)) = false) as -> by reflexivity.
  assert (exists level', py_or (VStr level) (VStr "info") = VStr level')
    as [level' ->].
  { unfold py_or. destruct (truthy (VStr level)); by eexists. }
  destruct (pretty_parts_all_str self entry (PyStr.lower level')
              Hts Hservice Hcategory Hmessage) as (parts & Hparts & Hstr).
  { unfold dict_get. rewrite Htrace. by eexists. }
  { intros d Hd. rewrite Hduration in Hd. injection Hd as <-.
    rewrite (py_str_small 250) by (vm_compute; lia). by eexists. }
  rewrite Hparts. cbn [mbind option_bind].
  destruct (truthy_strings_all_str _ Hstr) as (l & -> & Hmem).
  cbn [mbind option_bind fmap option_fmap option_map].
  eexists. split; [reflexivity|]. split.
  - apply join_contains, Hmem; [|discriminate].
    by eapply pretty_parts_has_trace.
  - apply join_contains, Hmem; [|discriminate].
    by eapply pretty_parts_has_duration.
Qed.
End PrettyScenario.

(** C9: in pretty mode, a logger bound with [trace_id="trace-12345678"]
    that logs with [duration_ms=250], on a stream that takes the write and
    the flush, writes a line containing "[trace-12...]" and "(250ms)".  In
    general, for the text [_format_pretty] returns: a category equal to
    "app" is rendered like no category; the text of an entry with a truthy
    [trace_id] is the text of the entry without it with one more word in
    its line, "[", the first 8 characters of the trace id and "...]",
    whereas a falsy [trace_id] is rendered like none; and the text of an
    entry with [duration_ms] is the text of the entry without it with one
    more word in its line, the duration between "(" and "ms)". *)
Theorem pretty_output_segments `{Runtime} :
  (forall (self : StructuredLogger) (clock : Clock) (level message : string)
          (w : world),
     pretty self = true ->
     bindings self !! "trace_id" = Some (VStr "trace-12345678") ->
     str_or_absent (bindings self !! "service") ->
     str_or_absent (bindings self !! "category") ->
     (level_threshold self <= level_weight (PyStr.lower level))%Z ->
     let stream :=
       match _stream self with Some id => Stream id | None => Stdout end in
     (forall text, write_returns (written w) stream text = true) ->
     (forall text,
        flush_returns (written w ++ [Write stream text]) stream = true) ->
     exists text : string,
       log self clock level message {["duration_ms" := VInt 250]} w =
         Returned
           {| _event_id_counter := (_event_id_counter w + 1)%N;
              written := written w ++
                         [Write stream (text +:+ linesep); Flush stream] |}
       /\ PyStr.contains text "[trace-12...]"
       /\ PyStr.contains text "(250ms)")
  /\ (forall (self : StructuredLogger) (entry : gmap string value),
        entry !! "category" = Some (VStr "app") ->
        _format_pretty self entry
        = _format_pretty self (delete "category" entry))
  /\ (forall (self : StructuredLogger) (entry : gmap string value)
             (t : value) (s text : string),
        entry !! "trace_id" = None -> truthy t = true ->
        py_str t = Some s ->
        _format_pretty self entry = Some text ->
        let segment := "[" +:+ PyStr.take 8 s +:+ "...]" in
        exists (before after : list string) (rest : string),
          text = PyStr.join " " (before ++ after) +:+ rest
          /\ _format_pretty self (<["trace_id" := t]> entry)
             = Some (PyStr.join " " (before ++ segment :: after) +:+ rest)
          /\ PyStr.contains
               (PyStr.join " " (before ++ segment :: after) +:+ rest)
               segment)
  /\ (forall (self : StructuredLogger) (entry : gmap string value)
             (t : value),
        entry !! "trace_id" = None -> truthy t = false ->
        _format_pretty self (<["trace_id" := t]> entry)
        = _format_pretty self entry)
  /\ (forall (self : StructuredLogger) (entry : gmap string value)
             (d : value) (s text : string),
        entry !! "duration_ms" = None ->
        py_str d = Some s ->
        _format_pretty self entry = Some text ->
        let segment := "(" +:+ s +:+ "ms)" in
        exists (before after : list string) (rest : string),
          text = PyStr.join " " (before ++ after) +:+ rest
          /\ _format_pretty self (<["duration_ms" := d]> entry)
             = Some (PyStr.join " " (before ++ segment :: after) +:+ rest)
          /\ PyStr.contains
               (PyStr.join " " (before ++ segment :: after) +:+ rest)
               segment).
Proof.
  split; [|split; [|split; [|split]]].
  - intros self clock level message w Hpretty Htrace Hservice Hcategory
      Hthreshold stream Hwrite Hflush.
    rewrite log_passed by done.
    set (extra := {["duration_ms" := VInt 250]} : gmap string value).
    destruct (prepare_entry_str_fields self clock (PyStr.lower level)
                message extra w Hservice Hcategory)
      as (Hts & Hsvc & Hcat & Hmsg & Hlevel).
    pose proof (prepare_entry_counter self clock (PyStr.lower level)
                  message extra w) as Hcounter.
    pose proof (prepare_entry_written self clock (PyStr.lower level)
                  message extra w) as Hwritten.
    assert ((_prepare_entry self clock (PyStr.lower level) message extra w).1
              !! "trace_id" = Some (VStr "trace-12345678")) as Htrace'.
    { rewrite prepare_entry_lookup_root by discriminate.
      rewrite bool_decide_eq_true_2 by by_decision.
      unfold extra. rewrite lookup_singleton_ne by discriminate.
      unfold dict_get. by rewrite Htrace. }
    assert ((_prepare_entry self clock (PyStr.lower level) message extra w).1
              !! "duration_ms" = Some (VInt 250)) as Hduration.
    { rewrite prepare_entry_lookup_root by discriminate.
      rewrite bool_decide_eq_true_2 by by_decision.
      unfold extra. by rewrite lookup_singleton_eq. }
    assert ((_prepare_entry self clock (PyStr.lower level) message extra w).1
              !! "context" = Some (VDict ∅)) as Hcontext.
    { pose proof (prepare_entry_context_lookup self clock (PyStr.lower level)
                    message extra w) as Hc.
      unfold entry_context in Hc.
      rewrite prepare_entry_lookup_context in Hc |- *.
      lazymatch goal with
      | |- Some (VDict ?c) = _ => assert (c = ∅) as ->; [|reflexivity]
      end.
      apply map_eq. intros j. rewrite Hc, lookup_empty.
      assert (nested_context extra = ∅) as -> by reflexivity.
      rewrite lookup_empty.
      destruct (bool_decide (j ∈ consumed_keys)) eqn:Hj; [done|].
      unfold extra. rewrite lookup_singleton_ne; [done|]. intros <-.
      apply bool_decide_eq_false_1 in Hj. apply Hj. by_decision. }
    destruct (_prepare_entry self clock (PyStr.lower level) message extra w)
      as [entry w']. cbn [fst snd] in *.
    destruct (format_pretty_scenario self entry (PyStr.lower level)
                Hts Hsvc Hcat Hmsg Hlevel Htrace' Hduration Hcontext)
      as (text & Htext & Hc1 & Hc2).
    exists text. unfold _emit. rewrite Hpretty, Htext. cbn zeta.
    fold stream. rewrite Hwritten, Hwrite, Hflush, Hcounter. done.
  - intros self entry. apply format_pretty_app_category.
  - intros self entry t s text Hnone Ht Hs Htext segment.
    apply (format_pretty_insert_segment self entry
             (<["trace_id" := t]> entry) segment text);
      [by rewrite lookup_insert_ne|by rewrite lookup_insert_ne
      |discriminate| |exact Htext].
    intros level parts Hparts.
    destruct (pretty_parts_trace_segment self entry level t parts Hnone
                Hparts) as (pre & post & -> & Hwith).
    exists pre, post. split; [reflexivity|].
    by rewrite Hwith, Ht, Hs.
  - intros self entry t Hnone Ht. unfold _format_pretty, dict_get.
    rewrite !(lookup_insert_ne entry "trace_id") by discriminate.
    destruct (py_or _ (VStr "info")) as [| | |level| |]; try reflexivity.
    destruct (pretty_parts self entry (PyStr.lower level)) as [parts|]
      eqn:Hparts.
    + destruct (pretty_parts_trace_segment self entry (PyStr.lower level) t
                  parts Hnone Hparts) as (pre & post & _ & Hwith).
      by rewrite Hwith, Ht.
    + assert (pretty_parts self (<["trace_id" := t]> entry)
                (PyStr.lower level) = None) as ->; [|reflexivity].
      revert Hparts. unfold pretty_parts, dict_get.
      assert (pretty_timestamp (<["trace_id" := t]> entry)
              = pretty_timestamp entry) as ->.
      { unfold pretty_timestamp. by rewrite lookup_insert_ne. }
      rewrite lookup_insert_eq, Hnone.
      rewrite !(lookup_insert_ne entry "trace_id") by discriminate.
      cbn [from_option id]. by rewrite Ht.
  - intros self entry d s text Hnone Hs Htext segment.
    apply (format_pretty_insert_segment self entry
             (<["duration_ms" := d]> entry) segment text);
      [by rewrite lookup_insert_ne|by rewrite lookup_insert_ne
      |discriminate| |exact Htext].
    intros level parts Hparts.
    destruct (pretty_parts_duration_segment self entry level d parts Hnone
                Hparts) as (pre & post & -> & Hwith).
    exists pre, post. split; [reflexivity|].
    by rewrite Hwith, Hs.
Qed.

Lemma pretty_output_segments_witness :
  exists text : string,
    @log Sample.runtime
      (bind_trace Sample.root (Some "trace-12345678") (Some "span-123"))
      Sample.clock "info" "Test with trace" {["duration_ms" := VInt 250]}
      Sample.start
    = Returned
        {| _event_id_counter := 1;
           written := [Write Stdout (text +:+ NL); Flush Stdout] |}
    /\ PyStr.contains text "[trace-12...]"
    /\ PyStr.contains text "(250ms)".
Proof.
  refine (proj1 (@pretty_output_segments Sample.runtime)
            (bind_trace Sample.root (Some "trace-12345678") (Some "span-123"))
            Sample.clock "info" "Test with trace" Sample.start
            _ _ _ _ _ _ _).
  - reflexivity.
  - vm_compute. reflexivity.
  - vm_compute. exact I.
  - vm_compute. exact I.
  - vm_compute. discriminate.
  - reflexivity.
  - reflexivity.
Defined.

(** ** Loggers as objects *)

Lemma fresh_lookup_None (h : gmap positive Heap.object) :
  h !! fresh (dom h) = None.
Proof. apply not_elem_of_dom, is_fresh. Qed.

Lemma lookup_insert_fresh (h : gmap positive Heap.object) (o o' : Heap.object)
    (l : positive) :
  h !! l = Some o -> <[fresh (dom h) := o']> h !! l = Some o.
Proof.
  intros Hl. rewrite lookup_insert_ne; [done|].
  intros Heq. rewrite <- Heq, fresh_lookup_None in Hl. discriminate Hl.
Qed.

(** The loop of [child] on the store is the loop on the dictionary. *)
Lemma merge_item_fold (merged : positive) (b kwargs : gmap string value)
    (h : gmap positive Heap.object) :
  h !! merged = Some (Heap.ODict b) ->
  map_fold (Heap.merge_item merged) h kwargs =
    <[merged := Heap.ODict (map_fold merge_binding b kwargs)]> h.
Proof.
  intros Hm. rewrite !map_fold_foldr.
  induction (map_to_list kwargs) as [|[k v] l IH]; simpl.
  - by rewrite insert_id.
  - rewrite IH. unfold Heap.merge_item, merge_binding.
    destruct (is_none v); [reflexivity|].
    unfold Heap.setitem. rewrite lookup_insert_eq.
    by rewrite insert_insert_eq.
Qed.

Lemma derive_child (d : derivation) (lg : StructuredLogger) :
  derive d lg = child lg (derivation_kwargs (config lg) d).
Proof. by destruct d. Qed.

Lemma heap_child_spec (self : positive) (kwargs : gmap string value)
    (h : gmap positive Heap.object) (lg : StructuredLogger) :
  Heap.read_logger h self = Some lg ->
  exists (new : positive) (h' : gmap positive Heap.object),
    Heap.child self kwargs h = Some (new, h')
    /\ h !! new = None
    /\ (forall l o, h !! l = Some o -> h' !! l = Some o)
    /\ Heap.read_logger h' new = Some (child lg kwargs).
Proof.
  unfold Heap.read_logger, Heap.child. intros Hread.
  destruct (h !! self) as [[| |c b p col s th]|] eqn:Hself; try discriminate.
  destruct (h !! c) as [[|cfg|]|] eqn:Hc; try discriminate.
  destruct (h !! b) as [[bd| |]|] eqn:Hb; try discriminate.
  injection Hread as <-. unfold Heap.alloc at 1. cbn zeta.
  set (m := fresh (dom h)).
  assert (h !! m = None) as Hm by apply fresh_lookup_None.
  rewrite (merge_item_fold m bd) by apply lookup_insert_eq.
  rewrite insert_insert_eq.
  set (merged := map_fold merge_binding bd kwargs).
  set (h2 := <[m := Heap.ODict merged]> h).
  assert (forall l o, h !! l = Some o -> h2 !! l = Some o) as Hframe2.
  { intros l o Hl. unfold h2, m. by apply lookup_insert_fresh. }
  unfold Heap.new_logger. rewrite (Hframe2 c _ Hc).
  unfold h2 at 1. rewrite lookup_insert_eq.
  destruct (truthy (VDict merged)) eqn:Htruthy.
  - unfold Heap.alloc. set (new := fresh (dom h2)).
    assert (h2 !! new = None) as Hnew by apply fresh_lookup_None.
    exists new, (<[new := Heap.OLogger c m p col s
                          (default 20%Z (LEVEL_WEIGHTS !! log_level cfg))]> h2).
    split; [reflexivity|]. split; [|split].
    + destruct (h !! new) as [o|] eqn:Ho; [|reflexivity].
      rewrite (Hframe2 _ _ Ho) in Hnew. discriminate Hnew.
    + intros l o Hl. apply lookup_insert_fresh. by apply Hframe2.
    + rewrite lookup_insert_eq.
      rewrite (lookup_insert_fresh h2 _ _ c (Hframe2 c _ Hc)).
      rewrite (lookup_insert_fresh h2 (Heap.ODict merged) _ m)
        by apply lookup_insert_eq.
      reflexivity.
  - assert (merged = ∅) as Hempty.
    { apply map_size_empty_iff. simpl in Htruthy.
      apply negb_false_iff in Htruthy. by apply Nat.eqb_eq. }
    unfold Heap.alloc. cbn zeta. set (e := fresh (dom h2)).
    set (h3 := <[e := Heap.ODict ∅]> h2). set (new := fresh (dom h3)).
    assert (h3 !! new = None) as Hnew by apply fresh_lookup_None.
    assert (forall l o, h2 !! l = Some o -> h3 !! l = Some o) as Hframe3.
    { intros l o Hl. unfold h3, e. by apply lookup_insert_fresh. }
    exists new, (<[new := Heap.OLogger c e p col s
                          (default 20%Z (LEVEL_WEIGHTS !! log_level cfg))]> h3).
    split; [reflexivity|]. split; [|split].
    + destruct (h !! new) as [o|] eqn:Ho; [|reflexivity].
      rewrite (Hframe3 _ _ (Hframe2 _ _ Ho)) in Hnew. discriminate Hnew.
    + intros l o Hl. apply lookup_insert_fresh. by apply Hframe3, Hframe2.
    + rewrite lookup_insert_eq.
      rewrite (lookup_insert_fresh h3 _ _ c (Hframe3 c _ (Hframe2 c _ Hc))).
      rewrite (lookup_insert_fresh h3 (Heap.ODict ∅) _ e)
        by apply lookup_insert_eq.
      unfold child, __init__.
      cbn [bindings config pretty colorize _stream].
      fold merged. rewrite Hempty. reflexivity.
Qed.

Lemma read_logger_frame (h h' : gmap positive Heap.object) (l : positive)
    (lg : StructuredLogger) :
  (forall l o, h !! l = Some o -> h' !! l = Some o) ->
  Heap.read_logger h l = Some lg -> Heap.read_logger h' l = Some lg.
Proof.
  unfold Heap.read_logger. intros Hframe Hread.
  destruct (h !! l) as [[| |c b p col s th]|] eqn:Hl; try discriminate.
  destruct (h !! c) as [[|cfg|]|] eqn:Hc; try discriminate.
  destruct (h !! b) as [[bd| |]|] eqn:Hb; try discriminate.
  by rewrite (Hframe _ _ Hl), (Hframe _ _ Hc), (Hframe _ _ Hb).
Qed.

(** C8: every derivation ([child], [bind], [with_category], [bind_trace],
    [with_request], [create_logger]) applied to a logger object returns a
    new object and leaves every object of the store as it was; the
    original logger still denotes the same value (bindings, configuration,
    rendering mode), and the new object denotes the derived logger. *)
Theorem derivation_leaves_loggers_unchanged (d : derivation)
    (self : positive) (h : gmap positive Heap.object)
    (lg : StructuredLogger) :
  Heap.read_logger h self = Some lg ->
  exists (new : positive) (h' : gmap positive Heap.object),
    derive_object d self h = Some (new, h')
    /\ h !! new = None
    /\ (forall l o, h !! l = Some o -> h' !! l = Some o)
    /\ Heap.read_logger h' self = Some lg
    /\ Heap.read_logger h' new = Some (derive d lg).
Proof.
  intros Hread. unfold derive_object. rewrite Hread.
  destruct (heap_child_spec self (derivation_kwargs (config lg) d) h lg Hread)
    as (new & h' & Hchild & Hnew & Hframe & Hderived).
  exists new, h'. split; [exact Hchild|]. split; [exact Hnew|].
  split; [exact Hframe|]. split.
  - by apply (read_logger_frame h).
  - by rewrite derive_child.
Qed.

Lemma derivation_leaves_loggers_unchanged_witness :
  exists (new : positive) (h' : gmap positive Heap.object),
    derive_object (BindTrace (Some "trace-123") None) 3 Sample.store
      = Some (new, h')
    /\ Heap.read_logger h' 3 = Some Sample.root.
Proof.
  destruct (derivation_leaves_loggers_unchanged
              (BindTrace (Some "trace-123") None) 3 Sample.store Sample.root)
    as (new & h' & Hderive & _ & _ & Hself & _).
  - vm_compute. reflexivity.
  - exists new, h'. split; [exact Hderive|exact Hself].
Defined.


(** * Further properties *)

(** ** Levels *)

Lemma lower_char_idempotent (c : ascii) :
  PyStr.lower_char (PyStr.lower_char c) = PyStr.lower_char c.
Proof. destruct c as [[] [] [] [] [] [] [] []]; reflexivity. Qed.

Lemma lower_idempotent (s : string) :
  PyStr.lower (PyStr.lower s) = PyStr.lower s.
Proof.
  induction s as [|c s IH]; [reflexivity|].
  unfold PyStr.lower in *. cbn [PyStr.map_chars].
  by rewrite lower_char_idempotent, IH.
Qed.

Lemma level_weights_values (level : string) (weight : Z) :
  LEVEL_WEIGHTS !! level = Some weight ->
  level ∈ ["debug"; "info"; "warn"; "warning"; "error"]
  /\ (10 <= weight <= 40)%Z.
Proof.
  unfold LEVEL_WEIGHTS. intros Hl. apply elem_of_list_to_map_2 in Hl.
  repeat (apply elem_of_cons in Hl as [[= -> ->]|Hl];
          [split; [by_decision|lia]|]).
  by apply elem_of_nil in Hl.
Qed.

Lemma init_threshold_bounds cfg b p c s :
  (10 <= level_threshold (__init__ cfg b p c s) <= 40)%Z.
Proof.
  unfold __init__. cbn [level_threshold].
  destruct (LEVEL_WEIGHTS !! log_level cfg) as [weight|] eqn:Hw.
  - by apply level_weights_values in Hw as [_ ?].
  - simpl. lia.
Qed.

(** X1: in machine mode a log call at or above the threshold renders the
    entry with [json.dumps].  When that returns a text and the stream
    takes the write and the flush, the call returns after one write of the
    text followed by the line separator and one flush, on the logger's
    stream; what was written before is kept and the counter grows by one.
    When [json.dumps] raises, the call raises: nothing is written, and the
    counter has been incremented. *)
Theorem machine_mode_writes_one_line `{Runtime} (self : StructuredLogger)
    (clock : Clock) (level message : string) (kwargs : gmap string value)
    (w : world) :
  pretty self = false ->
  (level_threshold self <= level_weight (PyStr.lower level))%Z ->
  let entry :=
    (_prepare_entry self clock (PyStr.lower level) message kwargs w).1 in
  let stream :=
    match _stream self with Some id => Stream id | None => Stdout end in
  (forall text : string,
     json_dumps_compact (VDict entry) = Some text ->
     write_returns (written w) stream (text +:+ linesep) = true ->
     flush_returns (written w ++ [Write stream (text +:+ linesep)]) stream
       = true ->
     log self clock level message kwargs w =
       Returned
         {| _event_id_counter := (_event_id_counter w + 1)%N;
            written := written w ++
                       [Write stream (text +:+ linesep); Flush stream] |})
  /\ (json_dumps_compact (VDict entry) = None ->
      log self clock level message kwargs w =
        Raised {| _event_id_counter := (_event_id_counter w + 1)%N;
                  written := written w |}).
Proof.
  intros Hmachine Hle entry stream. rewrite log_passed by exact Hle.
  unfold _emit. rewrite Hmachine. fold entry. fold stream.
  pose proof (prepare_entry_counter self clock (PyStr.lower level) message
                kwargs w) as Hcounter.
  pose proof (prepare_entry_written self clock (PyStr.lower level) message
                kwargs w) as Hwritten.
  destruct (_prepare_entry self clock (PyStr.lower level) message kwargs w).2
    as [counter events].
  cbn [_event_id_counter written] in *. subst counter events.
  split.
  - intros text -> Hwrite Hflush. cbn zeta. by rewrite Hwrite, Hflush.
  - by intros ->.
Qed.

Lemma machine_mode_writes_one_line_witness :
  @log Sample.runtime (__init__ Sample.cfg ∅ false false (Some 7))
       Sample.clock "WARN" "disk almost full" ∅ Sample.start
  = Returned {| _event_id_counter := 1;
                written := [Write (Stream 7) ("{...}" +:+ NL);
                            Flush (Stream 7)] |}.
Proof.
  refine (proj1 (@machine_mode_writes_one_line Sample.runtime
                   (__init__ Sample.cfg ∅ false false (Some 7)) Sample.clock
                   "WARN" "disk almost full" ∅ Sample.start _ _)
            "{...}" _ _ _).
  - reflexivity.
  - vm_compute. discriminate.
  - reflexivity.
  - reflexivity.
  - reflexivity.
Defined.

(** X2: the level of a call is compared and recorded in lower case: a call
    with a level in any case is the call with the lower-cased level. *)
Theorem level_is_case_insensitive `{Runtime} (self : StructuredLogger)
    (clock : Clock) (level message : string) (kwargs : gmap string value)
    (w : world) :
  log self clock level message kwargs w
  = log self clock (PyStr.lower level) message kwargs w.
Proof. unfold log. by rewrite lower_idempotent. Qed.

(** X3: for a logger made by the constructor the threshold is one of the
    level weights, between 10 and 40: a call at level error is never
    filtered, and a call whose lower-cased level is not debug, info, warn,
    warning or error is always filtered, whatever the configured level. *)
Theorem constructed_logger_levels `{Runtime} (cfg : Config)
    (b : gmap string value) (p c : bool) (s : option nat)
    (clock : Clock) (level message : string) (kwargs : gmap string value)
    (w : world) :
  let self := __init__ cfg b p c s in
  (10 <= level_threshold self <= 40)%Z
  /\ (PyStr.lower level = "error" ->
      _event_id_counter (world_of (log self clock level message kwargs w))
      = (_event_id_counter w + 1)%N)
  /\ (PyStr.lower level ∉ ["debug"; "info"; "warn"; "warning"; "error"] ->
      log self clock level message kwargs w = Returned w).
Proof.
  intros self. pose proof (init_threshold_bounds cfg b p c s) as Hb.
  split; [exact Hb|]. split.
  - intros Herror. rewrite log_counter, Herror.
    assert (level_weight "error" = 40%Z) as Hweight by reflexivity.
    destruct (Z.ltb_spec (level_weight "error") (level_threshold self))
      as [Hlt|_]; [|reflexivity].
    unfold self in Hlt. lia.
  - intros Hunknown. apply log_filtered. fold self.
    unfold level_weight.
    destruct (LEVEL_WEIGHTS !! PyStr.lower level) as [weight|] eqn:Hw.
    + apply level_weights_values in Hw as [Hin _]. by destruct Hunknown.
    + change (0 < level_threshold self)%Z. unfold self. lia.
Qed.

Lemma constructed_logger_levels_witness :
  @log Sample.runtime Sample.root Sample.clock "TRACE" "m" ∅ Sample.start
  = Returned Sample.start.
Proof.
  refine (proj2 (proj2
            (@constructed_logger_levels Sample.runtime Sample.cfg
               (bindings Sample.root) true false None Sample.clock "TRACE"
               "m" ∅ Sample.start)) _).
  by_refutation.
Defined.

(** ** Entries *)

Lemma strip_none_default_is_Some (o : option value) (d : value) :
  o <> Some VNone -> d <> VNone ->
  is_Some (strip_none (Some (default d o))).
Proof.
  intros Ho Hd. destruct o as [v|]; simpl.
  - destruct v; [by destruct Ho|..]; eexists; reflexivity.
  - destruct d; [by destruct Hd|..]; eexists; reflexivity.
Qed.

Lemma child_none_free (self : StructuredLogger) (kwargs : gmap string value) :
  none_free (bindings self) -> none_free (bindings (child self kwargs)).
Proof.
  intros Hfree k. rewrite child_bindings_lookup.
  destruct (kwargs !! k) as [v|]; [|apply Hfree].
  destruct v; try apply Hfree; discriminate.
Qed.

Lemma logger_none_free (cfg : Config) (isatty : bool) :
  none_free (bindings (logger cfg isatty)).
Proof.
  intros k. unfold logger, __init__. cbn [bindings].
  rewrite !lookup_insert, lookup_empty.
  repeat case_decide; discriminate.
Qed.

Lemma derived_none_free (root lg : StructuredLogger) :
  none_free (bindings root) -> derived_from root lg ->
  none_free (bindings lg).
Proof.
  intros Hroot. induction 1 as [|d lg _ IH]; [exact Hroot|].
  rewrite derive_child. by apply child_none_free.
Qed.

(** X4: every logger obtained from the module-level logger by derivations
    has no [None] binding, and each entry it assembles has the fields
    timestamp, level, message, service, environment, version, category and
    context; the entry has an event id unless the call passes
    [event_id=None]. *)
Theorem derived_logger_entry_has_required_fields (cfg : Config)
    (isatty : bool) (lg : StructuredLogger) (clock : Clock)
    (level message : string) (extra : gmap string value) (w : world) :
  derived_from (logger cfg isatty) lg ->
  let entry := (_prepare_entry lg clock level message extra w).1 in
  none_free (bindings lg)
  /\ (forall k,
        k ∈ ["timestamp"; "level"; "message"; "service"; "environment";
              "version"; "category"; "context"] ->
        is_Some (entry !! k))
  /\ (is_Some (entry !! "event_id") <-> extra !! "event_id" <> Some VNone).
Proof.
  intros Hderived entry.
  pose proof (derived_none_free _ _ (logger_none_free cfg isatty) Hderived)
    as Hfree.
  split; [exact Hfree|]. split.
  - intros k Hk. unfold entry.
    destruct (decide (k = "context")) as [->|Hc].
    { rewrite prepare_entry_lookup_context. by eexists. }
    assert (k ∈ REQUIRED_FIELDS) as Hreq.
    { repeat (apply elem_of_cons in Hk as [->|Hk]; [by_decision|]).
      by apply elem_of_nil in Hk. }
    rewrite prepare_entry_lookup_required by exact Hreq.
    destruct (entry_literal_lookup lg (now_isoformat clock) level message
                (default (VStr (generate_event_id (now_epoch_ms clock) w).1)
                         (extra !! "event_id")))
      as (Hts & Hlevel & Hmessage & Hsvc & Hcat).
    repeat (apply elem_of_cons in Hk as [->|Hk];
            [first [ rewrite Hts; by eexists
                   | rewrite Hlevel; by eexists
                   | rewrite Hmessage; unfold py_or;
                     destruct (truthy (VStr message)); by eexists
                   | rewrite Hsvc; apply strip_none_default_is_Some;
                     [apply Hfree|discriminate]
                   | rewrite Hcat; apply strip_none_default_is_Some;
                     [apply Hfree|discriminate]
                   | unfold entry_literal;
                     rewrite ?lookup_insert_ne by discriminate;
                     rewrite lookup_insert_eq;
                     apply strip_none_default_is_Some;
                     [apply Hfree|discriminate]
                   | by destruct Hc ]|]).
    by apply elem_of_nil in Hk.
  - unfold entry. rewrite prepare_entry_event_id.
    destruct (extra !! "event_id") as [[]|]; simpl; split;
      try (intros _; discriminate); try (intros _; by eexists);
      try (intros [? [=]]); try (intros Hne; by destruct Hne).
Qed.

Lemma derived_logger_entry_has_required_fields_witness :
  is_Some
    ((_prepare_entry (with_category Sample.root "database") Sample.clock
        "info" "Database operation" ∅ Sample.start).1 !! "category").
Proof.
  refine (proj1 (proj2
            (derived_logger_entry_has_required_fields Sample.cfg false
               (with_category Sample.root "database") Sample.clock "info"
               "Database operation" ∅ Sample.start _)) "category" _).
  - exact (derived_step Sample.root (WithCategory "database") Sample.root
             (derived_root Sample.root)).
  - by_decision.
Defined.

(** X5: for each of the eight optional root fields, a value given by the
    call wins over the bound value; a [None] given by the call removes the
    field from this entry even when it is bound; without a keyword the
    bound value is used, and the field is absent when nothing is bound. *)
Theorem optional_field_override_and_unset (self : StructuredLogger)
    (clock : Clock) (level message : string) (extra : gmap string value)
    (w : world) (k : string) :
  k ∈ OPTIONAL_ROOT_FIELDS ->
  let entry := (_prepare_entry self clock level message extra w).1 in
  (forall v, extra !! k = Some v -> v <> VNone -> entry !! k = Some v)
  /\ (extra !! k = Some VNone -> entry !! k = None)
  /\ (extra !! k = None -> entry !! k = strip_none (bindings self !! k)).
Proof.
  intros Hk entry. unfold entry.
  assert (k <> "context") as Hc
    by (intros ->; by apply context_not_optional).
  rewrite prepare_entry_lookup_root by exact Hc.
  rewrite (bool_decide_eq_true_2 _ Hk).
  split; [|split].
  - intros v -> Hv. by destruct v.
  - by intros ->.
  - intros ->. unfold dict_get.
    by destruct (bindings self !! k) as [[]|].
Qed.

Lemma optional_field_override_and_unset_witness :
  (_prepare_entry (with_request Sample.root (Some "req-1") None) Sample.clock
     "info" "m" {["request_id" := VNone]} Sample.start).1 !! "request_id"
  = None.
Proof.
  refine (proj1 (proj2
            (optional_field_override_and_unset
               (with_request Sample.root (Some "req-1") None) Sample.clock
               "info" "m" {["request_id" := VNone]} Sample.start
               "request_id" _)) _).
  - by_decision.
  - reflexivity.
Defined.

Lemma entry_literal_bindings (self self' : StructuredLogger)
    (timestamp level message : string) (event_id : value) :
  config self = config self' ->
  (forall k, k ∈ SCHEMA_BINDINGS -> bindings self !! k = bindings self' !! k) ->
  entry_literal self timestamp level message event_id
  = entry_literal self' timestamp level message event_id.
Proof.
  intros Hcfg Hb. unfold entry_literal.
  rewrite Hcfg, (Hb "service"), (Hb "environment"), (Hb "version"),
    (Hb "category"); [reflexivity|by_decision..].
Qed.

(** X7: the assembled entry depends on the bindings only through the
    twelve names service, environment, version, category and the eight
    optional root fields: two loggers with the same configuration whose
    bindings agree on these names assemble the same entry, so a binding
    under any other name never reaches the output. *)
Theorem other_bindings_are_ignored (self self' : StructuredLogger)
    (clock : Clock) (level message : string) (extra : gmap string value)
    (w : world) :
  config self = config self' ->
  (forall k, k ∈ SCHEMA_BINDINGS -> bindings self !! k = bindings self' !! k) ->
  _prepare_entry self clock level message extra w
  = _prepare_entry self' clock level message extra w.
Proof.
  intros Hcfg Hb.
  rewrite (surjective_pairing (_prepare_entry self _ _ _ _ _)).
  rewrite (surjective_pairing (_prepare_entry self' _ _ _ _ _)).
  rewrite !prepare_entry_world. f_equal.
  apply map_eq. intros k.
  destruct (decide (k = "context")) as [->|Hc].
  - rewrite !prepare_entry_lookup_context. do 2 f_equal.
    f_equal. apply map_eq. intros j. by rewrite !foldl_call_field_extra.
  - rewrite !prepare_entry_lookup_root by exact Hc.
    rewrite (entry_literal_bindings self self') by done.
    destruct (bool_decide (k ∈ OPTIONAL_ROOT_FIELDS)) eqn:Hopt; [|done].
    apply bool_decide_eq_true_1 in Hopt. unfold dict_get.
    rewrite (Hb k); [done|]. unfold SCHEMA_BINDINGS.
    apply elem_of_app. by right.
Qed.

Lemma other_bindings_are_ignored_witness :
  _prepare_entry (bind Sample.root {["user" := VStr "alice"]}) Sample.clock
    "info" "m" ∅ Sample.start
  = _prepare_entry Sample.root Sample.clock "info" "m" ∅ Sample.start.
Proof.
  refine (other_bindings_are_ignored
            (bind Sample.root {["user" := VStr "alice"]}) Sample.root
            Sample.clock "info" "m" ∅ Sample.start _ _).
  - reflexivity.
  - intros k Hk. unfold bind. rewrite child_bindings_lookup.
    rewrite lookup_singleton_ne; [reflexivity|].
    intros <-. revert Hk. by_refutation.
Defined.

(** X8: the context of an entry is the explicit [context] dictionary of
    the call overridden by the remaining keywords that are not [None]: a
    keyword wins over a key of the dictionary, and a keyword given as
    [None] leaves the key of the dictionary in place. *)
Theorem context_is_nested_overridden_by_keywords (self : StructuredLogger)
    (clock : Clock) (level message : string) (extra : gmap string value)
    (w : world) :
  entry_context (_prepare_entry self clock level message extra w).1
  = filter (fun kv => (kv.1 ∉ consumed_keys) /\ is_none kv.2 = false) extra
    ∪ nested_context extra.
Proof.
  apply map_eq. intros j. rewrite prepare_entry_context_lookup.
  rewrite lookup_union, map_lookup_filter.
  destruct (extra !! j) as [v|] eqn:Hj; simpl.
  - case_bool_decide as Hcons.
    + rewrite option_guard_False by (intros [Hn _]; by destruct Hn).
      simpl. by rewrite (left_id_L None union).
    + destruct (is_none v) eqn:Hv.
      * rewrite option_guard_False by (intros [_ Hn]; discriminate Hn).
        simpl. by rewrite (left_id_L None union).
      * rewrite option_guard_True by (split; [exact Hcons|reflexivity]).
        simpl. by destruct (nested_context extra !! j).
  - rewrite (left_id_L None union). by destruct (bool_decide _).
Qed.

(** X9: a call without an [event_id] keyword gets the generated id: the
    entry's [event_id] is [evt_<epoch ms>_<counter>] for the counter after
    the increment, and that counter is the id's counter component. *)
Theorem entry_event_id_is_generated (self : StructuredLogger)
    (clock : Clock) (level message : string) (extra : gmap string value)
    (w : world) :
  extra !! "event_id" = None ->
  let entry := (_prepare_entry self clock level message extra w).1 in
  let event_id :=
    format_event_id (now_epoch_ms clock) (_event_id_counter w + 1) in
  entry !! "event_id" = Some (VStr event_id)
  /\ counter_component event_id = Some (_event_id_counter w + 1)%N
  /\ entry_context entry !! "event_id" = nested_context extra !! "event_id".
Proof.
  intros Hnone entry event_id. unfold entry.
  rewrite prepare_entry_event_id, Hnone. split; [reflexivity|].
  split; [apply counter_component_format|].
  rewrite prepare_entry_context_lookup.
  by rewrite (bool_decide_eq_true_2 ("event_id" ∈ consumed_keys))
    by by_decision.
Qed.

Lemma entry_event_id_is_generated_witness :
  (_prepare_entry Sample.root Sample.clock "info" "m" ∅ Sample.start).1
    !! "event_id"
  = Some (VStr "evt_1735732800000_1").
Proof.
  refine (proj1 (entry_event_id_is_generated Sample.root Sample.clock "info"
                   "m" ∅ Sample.start _)).
  reflexivity.
Defined.

(** X10: a call that passes [event_id=None] yields an entry without an
    [event_id] field; the generator's counter is incremented all the
    same. *)
Theorem null_event_id_drops_the_field (self : StructuredLogger)
    (clock : Clock) (level message : string) (extra : gmap string value)
    (w : world) :
  extra !! "event_id" = Some VNone ->
  let assembled := _prepare_entry self clock level message extra w in
  assembled.1 !! "event_id" = None
  /\ _event_id_counter assembled.2 = (_event_id_counter w + 1)%N.
Proof.
  intros Hnone assembled. unfold assembled.
  rewrite prepare_entry_event_id, Hnone. split; [reflexivity|].
  apply prepare_entry_counter.
Qed.

Lemma null_event_id_drops_the_field_witness :
  (_prepare_entry Sample.root Sample.clock "info" "m"
     {["event_id" := VNone]} Sample.start).1 !! "event_id" = None.
Proof.
  refine (proj1 (null_event_id_drops_the_field Sample.root Sample.clock
                   "info" "m" {["event_id" := VNone]} Sample.start _)).
  reflexivity.
Defined.

(** ** Derivations *)

Lemma child_fields (self : StructuredLogger) (kwargs : gmap string value) :
  config (child self kwargs) = config self
  /\ pretty (child self kwargs) = pretty self
  /\ colorize (child self kwargs) = colorize self
  /\ _stream (child self kwargs) = _stream self
  /\ level_threshold (child self kwargs)
     = default 20%Z (LEVEL_WEIGHTS !! log_level (config self)).
Proof. done. Qed.

(** X11: deriving twice is deriving once with the two binding maps merged,
    the second overriding the first except where it gives [None]; the
    configuration, rendering mode and stream are those of the first
    logger, and a child bound with no keywords has its parent's
    bindings. *)
Theorem child_composes (self : StructuredLogger)
    (first second : gmap string value) :
  child (child self first) second
  = child self (filter (fun kv => is_none kv.2 = false) second ∪ first)
  /\ bindings (child self ∅) = bindings self.
Proof.
  split.
  - unfold child at 1 3. unfold __init__. f_equal.
    apply map_eq. intros k.
    change (map_fold merge_binding (bindings (child self first)) second)
      with (bindings (child (child self first) second)).
    change (map_fold merge_binding (bindings self)
              (filter (fun kv => is_none kv.2 = false) second ∪ first))
      with (bindings (child self
              (filter (fun kv => is_none kv.2 = false) second ∪ first))).
    rewrite !child_bindings_lookup, lookup_union, map_lookup_filter.
    destruct (second !! k) as [v|]; simpl.
    + destruct (is_none v) eqn:Hv.
      * rewrite option_guard_False by discriminate. simpl.
        by rewrite (left_id_L None union).
      * rewrite option_guard_True by reflexivity. simpl.
        rewrite union_Some_l. by rewrite Hv.
    + by rewrite (left_id_L None union).
  - apply map_eq. intros k. by rewrite child_bindings_lookup, lookup_empty.
Qed.

Lemma py_or_opt_str (o : option string) (fallback : string) :
  py_or (opt_str o) (VStr fallback) = VStr (or_else o fallback).
Proof.
  destruct o as [s|]; unfold py_or, or_else; simpl; [|done].
  by destruct (String.eqb s "").
Qed.

Lemma entry_literal_lookup_more self timestamp level message event_id :
  let literal := entry_literal self timestamp level message event_id in
  literal !! "environment" =
    Some (default (VStr (environment (config self)))
                  (bindings self !! "environment"))
  /\ literal !! "version" =
       Some (default (VStr (version (config self)))
                     (bindings self !! "version")).
Proof.
  unfold entry_literal. cbn zeta.
  split; rewrite ?lookup_insert_ne by discriminate; apply lookup_insert_eq.
Qed.

Lemma create_logger_bindings (self : StructuredLogger)
    (service' environment' version' category' : option string) :
  let created :=
    create_logger self service' environment' version' category' in
  bindings created !! "service"
    = Some (VStr (or_else service' (service (config self))))
  /\ bindings created !! "environment"
    = Some (VStr (or_else environment' (environment (config self))))
  /\ bindings created !! "version"
    = Some (VStr (or_else version' (version (config self))))
  /\ bindings created !! "category" = Some (VStr (or_else category' "app")).
Proof.
  cbn zeta. unfold create_logger. rewrite !child_bindings_lookup.
  rewrite !py_or_opt_str.
  repeat split;
    rewrite ?lookup_insert_ne by discriminate;
    by rewrite lookup_insert_eq.
Qed.

(** X6: a logger made by [create_logger] always binds service,
    environment, version and category: an argument that is [None] or the
    empty string falls back to the configuration, for the category to
    "app", so the category bound on the parent is replaced and the entries
    of the new logger carry the argument or the fallback. *)
Theorem create_logger_rebinds_schema_fields (self : StructuredLogger)
    (service' environment' version' category' : option string)
    (clock : Clock) (level message : string) (extra : gmap string value)
    (w : world) :
  let created :=
    create_logger self service' environment' version' category' in
  let entry := (_prepare_entry created clock level message extra w).1 in
  entry !! "service"
    = Some (VStr (or_else service' (service (config self))))
  /\ entry !! "environment"
    = Some (VStr (or_else environment' (environment (config self))))
  /\ entry !! "version"
    = Some (VStr (or_else version' (version (config self))))
  /\ entry !! "category" = Some (VStr (or_else category' "app")).
Proof.
  intros created entry. unfold entry.
  destruct (entry_literal_lookup created (now_isoformat clock) level message
              (default (VStr (generate_event_id (now_epoch_ms clock) w).1)
                       (extra !! "event_id")))
    as (_ & _ & _ & Hsvc & Hcat).
  destruct (entry_literal_lookup_more created (now_isoformat clock) level
              message
              (default (VStr (generate_event_id (now_epoch_ms clock) w).1)
                       (extra !! "event_id")))
    as (Henv & Hver).
  destruct (create_logger_bindings self service' environment' version'
              category') as (Hb1 & Hb2 & Hb3 & Hb4).
  fold created in Hb1, Hb2, Hb3, Hb4.
  rewrite !prepare_entry_lookup_required by by_decision.
  rewrite Hsvc, Hcat, Henv, Hver, Hb1, Hb2, Hb3, Hb4.
  repeat split.
Qed.

(** ** Error serialisation, continued *)



(** X13: the [message] of a serialised error is [str(error)], or "Error"
    when that is empty; an attribute named [message] replaces it, redacted
    like any other allow-listed value. *)
Theorem serialized_message (e : PyException) :
  (default ∅ (exc_dict e) !! "message" = None ->
   serialize_error (Some e) ≫= (.!! "message")
   = Some (VStr (if String.eqb (exc_str e) "" then "Error" else exc_str e)))
  /\ (forall v, default ∅ (exc_dict e) !! "message" = Some v ->
      serialize_error (Some e) ≫= (.!! "message")
      = Some (_redact_sensitive_data v)).
Proof.
  split.
  - intros Hnone. rewrite serialize_error_lookup, Hnone.
    rewrite andb_false_r, lookup_insert_eq. unfold py_or. simpl.
    by destruct (String.eqb (exc_str e) "").
  - intros v Hv. rewrite serialize_error_lookup, Hv.
    by rewrite andb_false_r.
Qed.

Lemma serialized_message_witness :
  serialize_error
    (Some {| exc_type_name := "KeyError"; exc_str := "";
             exc_dict := None; exc_traceback := "" |})
    ≫= (.!! "message")
  = Some (VStr "Error").
Proof.
  refine (proj1 (serialized_message
                   {| exc_type_name := "KeyError"; exc_str := "";
                      exc_dict := None; exc_traceback := "" |}) _).
  apply lookup_empty.
Defined.

(** ** Convenience helpers *)

Lemma setdefault_lookup_eq (k : string) (v : value) (d : gmap string value) :
  setdefault k v d !! k = Some (default v (d !! k)).
Proof.
  unfold setdefault. destruct (d !! k) as [x|] eqn:Hk; simpl.
  - exact Hk.
  - by rewrite lookup_insert_eq.
Qed.

(** The entry of a call whose only keyword is [context]. *)
Lemma prepare_entry_context_only (self : StructuredLogger) (clock : Clock)
    (level message : string) (context : gmap string value) (w : world) :
  let entry :=
    (_prepare_entry self clock level message {["context" := VDict context]}
       w).1 in
  entry_context entry = context
  /\ forall k, k ∈ OPTIONAL_ROOT_FIELDS ->
       entry !! k = strip_none (bindings self !! k).
Proof.
  intros entry. unfold entry. split.
  - apply map_eq. intros j. rewrite prepare_entry_context_lookup.
    assert (nested_context {["context" := VDict context]} = context) as ->.
    { unfold nested_context, dict_get, dict_update.
      rewrite lookup_singleton_eq. simpl. apply (right_id_L ∅ (∪)). }
    destruct (bool_decide (j ∈ consumed_keys)) eqn:Hj; [done|].
    rewrite lookup_singleton_ne; [done|]. intros <-.
    apply bool_decide_eq_false_1 in Hj. apply Hj, list_elem_of_here.
  - intros k Hk.
    assert (k <> "context") as Hc
      by (intros ->; by apply context_not_optional).
    rewrite prepare_entry_lookup_root by exact Hc.
    rewrite (bool_decide_eq_true_2 _ Hk), lookup_singleton_ne by done.
    unfold dict_get. by destruct (bindings self !! k) as [[]|].
Qed.

(** X14: [log_error] called without an explicit [context] logs at level
    error with the message [str(error)], or "Error occurred" when that is
    empty; every keyword goes into the context, none to the root, whose
    optional fields are the bound ones; the serialised error is under
    [err] whatever the caller passed under that name; [error_type] and
    [error_message] keep the caller's value and default to the type name
    and the message. *)
Theorem log_error_builds_context `{Runtime} (self : StructuredLogger)
    (clock : Clock) (err : PyException) (kwargs : gmap string value)
    (w : world) :
  kwargs !! "context" = None ->
  (level_threshold self <= 40)%Z ->
  let message :=
    if String.eqb (exc_str err) "" then "Error occurred" else exc_str err in
  exists (context payload : gmap string value),
    let assembled :=
      _prepare_entry self clock "error" message
        {["context" := VDict context]} w in
    log_error self clock err kwargs w = _emit self assembled.1 assembled.2
    /\ entry_context assembled.1 = context
    /\ (forall k, k ∈ OPTIONAL_ROOT_FIELDS ->
          assembled.1 !! k = strip_none (bindings self !! k))
    /\ serialize_error (Some err) = Some payload
    /\ context !! "err" = Some (VDict payload)
    /\ context !! "error_type"
       = Some (default (VStr (exc_type_name err)) (kwargs !! "error_type"))
    /\ context !! "error_message"
       = Some (default (VStr message) (kwargs !! "error_message"))
    /\ (forall k, k ∉ ["err"; "error_type"; "error_message"] ->
          context !! k = kwargs !! k).
Proof.
  intros Hnone Hthreshold message.
  destruct (log_error_context_total err kwargs Hnone) as [context Hctx].
  destruct (log_error_context_err _ _ _ Hctx) as (payload & Hser & Herr).
  assert (str_or (exc_str err) "Error occurred" = message) as Hmessage.
  { unfold str_or, message. simpl. by destruct (String.eqb (exc_str err) ""). }
  exists context, payload. cbn zeta.
  destruct (prepare_entry_context_only self clock "error" message context w)
    as [Hcontext Hroot].
  split.
  { unfold log_error, error. rewrite Hctx, Hmessage. by apply log_passed. }
  split; [exact Hcontext|]. split; [exact Hroot|].
  split; [exact Hser|]. split; [exact Herr|].
  revert Hctx. unfold log_error_context. rewrite Hnone.
  unfold py_or at 1. cbn [default from_option id truthy].
  rewrite map_size_empty. cbn [Nat.eqb negb py_dict].
  rewrite Hser, Hmessage.
  assert (negb (size payload =? 0)%nat = true) as ->.
  { apply negb_true_iff, Nat.eqb_neq.
    apply (map_size_ne_0_lookup_2 payload "name").
    rewrite (serialize_error_name err payload Hser). by eexists. }
  intros [= <-].
  assert (forall k, k <> "err" ->
            (<["err" := VDict payload]>
               (dict_update ∅ (delete "context" kwargs)) : gmap string value)
              !! k = kwargs !! k) as Hbase.
  { intros k Hk. rewrite lookup_insert_ne by done. unfold dict_update.
    rewrite (right_id_L ∅ (∪)).
    destruct (decide (k = "context")) as [->|Hc].
    - by rewrite lookup_delete_eq, Hnone.
    - by rewrite lookup_delete_ne. }
  split; [|split].
  - rewrite setdefault_lookup_ne by discriminate.
    by rewrite setdefault_lookup_eq, Hbase by discriminate.
  - by rewrite setdefault_lookup_eq, setdefault_lookup_ne, Hbase
      by discriminate.
  - intros k Hk.
    assert (k <> "err" /\ k <> "error_type" /\ k <> "error_message")
      as (H1 & H2 & H3).
    { repeat split; intros ->; apply Hk; by_decision. }
    rewrite !setdefault_lookup_ne by done. by apply Hbase.
Qed.

Lemma log_error_builds_context_witness :
  exists context payload : gmap string value,
    serialize_error (Some Sample.exception) = Some payload
    /\ context !! "err" = Some (VDict payload)
    /\ context !! "error_type" = Some (VStr "AuthError").
Proof.
  destruct (@log_error_builds_context Sample.runtime Sample.root Sample.clock
              Sample.exception {["operation" := VStr "login"]} Sample.start)
    as (context & payload & _ & _ & _ & Hser & Herr & Htype & _).
  - reflexivity.
  - vm_compute. discriminate.
  - exists context, payload.
    split; [exact Hser|]. split; [exact Herr|exact Htype].
Defined.

(** The entry of a call whose keywords other than [context] are all
    optional root fields. *)
Lemma prepare_entry_root_keywords (self : StructuredLogger) (clock : Clock)
    (level message : string) (context fields : gmap string value)
    (w : world) :
  (forall k, is_Some (fields !! k) -> k ∈ OPTIONAL_ROOT_FIELDS) ->
  let entry :=
    (_prepare_entry self clock level message
       (<["context" := VDict context]> fields) w).1 in
  entry_context entry = context
  /\ entry !! "level" = Some (VStr level)
  /\ entry !! "message" = Some (VStr message)
  /\ forall k, k ∈ OPTIONAL_ROOT_FIELDS ->
       entry !! k =
         match fields !! k with
         | Some v => strip_none (Some v)
         | None => strip_none (bindings self !! k)
         end.
Proof.
  intros Hfields entry. unfold entry.
  assert (forall k, k ∈ OPTIONAL_ROOT_FIELDS -> k <> "context") as Hoc
    by (intros k Hk ->; by apply context_not_optional).
  split; [|split; [|split]].
  - apply map_eq. intros j. rewrite prepare_entry_context_lookup.
    assert (nested_context (<["context" := VDict context]> fields) = context)
      as ->.
    { unfold nested_context, dict_get, dict_update.
      rewrite lookup_insert_eq. simpl. apply (right_id_L ∅ (∪)). }
    destruct (bool_decide (j ∈ consumed_keys)) eqn:Hj; [done|].
    apply bool_decide_eq_false_1 in Hj.
    rewrite lookup_insert_ne
      by (intros <-; apply Hj, list_elem_of_here).
    destruct (fields !! j) as [v|] eqn:Hv; [|done].
    exfalso. apply Hj. unfold consumed_keys.
    do 2 apply list_elem_of_further. apply Hfields. by eexists.
  - rewrite prepare_entry_lookup_required by by_decision.
    by rewrite (proj1 (proj2 (entry_literal_lookup _ _ _ _ _))).
  - rewrite prepare_entry_lookup_required by by_decision.
    rewrite (proj1 (proj2 (proj2 (entry_literal_lookup _ _ _ _ _)))).
    unfold py_or. simpl. by destruct (String.eqb_spec message "") as [->|].
  - intros k Hk. rewrite prepare_entry_lookup_root by by apply Hoc.
    rewrite (bool_decide_eq_true_2 _ Hk).
    rewrite lookup_insert_ne by (apply not_eq_sym; by apply Hoc).
    destruct (fields !! k) as [v|]; [by destruct v|].
    unfold dict_get. by destruct (bindings self !! k) as [[]|].
Qed.

Lemma strip_none_opt_str (o : option string) :
  strip_none (Some (opt_str o)) = VStr <$> o.
Proof. by destruct o. Qed.

(** X15: [log_request] on a logger that lets level info through emits the
    entry of an info call with the message "HTTP Request": the root
    [request_id] is the argument, so that leaving it out removes a bound
    request id; the other optional root fields are the bound ones; the
    context holds [method] and [url], [userAgent] when the argument is a
    non-empty string, and every other keyword as it was passed, a null
    value included. *)
Theorem log_request_entry `{Runtime} (self : StructuredLogger)
    (clock : Clock) (method url : string)
    (request_id user_agent : option string) (kwargs : gmap string value)
    (w : world) :
  (level_threshold self <= 20)%Z ->
  (forall k, k ∈ ["method"; "url"; "request_id"; "user_agent"] ->
     kwargs !! k = None) ->
  let context := request_context method url user_agent kwargs in
  let assembled :=
    _prepare_entry self clock "info" "HTTP Request"
      (<["context" := VDict context]> {["request_id" := opt_str request_id]})
      w in
  log_request self clock method url request_id user_agent kwargs w
    = _emit self assembled.1 assembled.2
  /\ assembled.1 !! "level" = Some (VStr "info")
  /\ assembled.1 !! "message" = Some (VStr "HTTP Request")
  /\ assembled.1 !! "request_id" = VStr <$> request_id
  /\ (forall k, k ∈ OPTIONAL_ROOT_FIELDS -> k <> "request_id" ->
        assembled.1 !! k = strip_none (bindings self !! k))
  /\ entry_context assembled.1 = context
  /\ context !! "method" = Some (VStr method)
  /\ context !! "url" = Some (VStr url)
  /\ (forall k v, kwargs !! k = Some v -> context !! k = Some v)
  /\ (kwargs !! "userAgent" = None ->
        context !! "userAgent" =
          match user_agent with
          | Some ua => if String.eqb ua "" then None else Some (VStr ua)
          | None => None
          end)
  /\ (forall k, k ∉ ["method"; "url"; "userAgent"] ->
        context !! k = kwargs !! k).
Proof.
  intros Hthreshold Hnames context assembled.
  destruct (prepare_entry_root_keywords self clock "info" "HTTP Request"
              context {["request_id" := opt_str request_id]} w)
    as (Hcontext & Hlevel & Hmessage & Hroot).
  { intros k [v Hv]. apply lookup_singleton_Some in Hv as [<- _].
    by_decision. }
  assert (kwargs !! "method" = None) as Hm by (apply Hnames; by_decision).
  assert (kwargs !! "url" = None) as Hu by (apply Hnames; by_decision).
  assert (forall k, context !! k =
            match kwargs !! k with
            | Some v => Some v
            | None =>
                if String.eqb k "url" then Some (VStr url)
                else if String.eqb k "method" then Some (VStr method)
                else if String.eqb k "userAgent"
                then match user_agent with
                     | Some ua =>
                         if String.eqb ua "" then None else Some (VStr ua)
                     | None => None
                     end
                else None
            end) as Hlookup.
  { intros k. unfold context, request_context, dict_update.
    rewrite lookup_union. destruct (kwargs !! k) as [v|]; simpl.
    - by rewrite (union_Some_l v).
    - rewrite (left_id_L None union).
      destruct (String.eqb_spec k "url") as [->|Hku].
      { destruct user_agent as [ua|]; simpl;
          [destruct (String.eqb ua "")|]; simpl;
          rewrite ?lookup_insert_ne by discriminate;
          by rewrite lookup_insert_eq. }
      destruct (String.eqb_spec k "method") as [->|Hkm].
      { destruct user_agent as [ua|]; simpl;
          [destruct (String.eqb ua "")|]; simpl;
          rewrite ?lookup_insert_ne by discriminate;
          by rewrite lookup_insert_eq. }
      destruct (String.eqb_spec k "userAgent") as [->|Hka].
      { destruct user_agent as [ua|]; simpl;
          [destruct (String.eqb ua "")|]; simpl;
          rewrite ?lookup_insert_eq; try done;
          by rewrite !lookup_insert_ne by discriminate. }
      destruct user_agent as [ua|]; simpl;
        [destruct (String.eqb ua "")|]; simpl;
        by rewrite !lookup_insert_ne, lookup_empty by done. }
  split.
  { unfold log_request, info. by apply log_passed. }
  split; [exact Hlevel|]. split; [exact Hmessage|].
  split.
  { unfold assembled. rewrite Hroot by by_decision.
    rewrite lookup_singleton_eq. apply strip_none_opt_str. }
  split.
  { intros k Hk Hne. unfold assembled. rewrite Hroot by exact Hk.
    by rewrite lookup_singleton_ne by done. }
  split; [exact Hcontext|].
  split; [by rewrite Hlookup, Hm|].
  split; [by rewrite Hlookup, Hu|].
  split; [intros k v Hk; by rewrite Hlookup, Hk|].
  split; [intros Ha; by rewrite Hlookup, Ha|].
  intros k Hk. rewrite Hlookup. destruct (kwargs !! k); [done|].
  destruct (String.eqb_spec k "url") as [->|_];
    [exfalso; apply Hk; by_decision|].
  destruct (String.eqb_spec k "method") as [->|_];
    [exfalso; apply Hk; by_decision|].
  destruct (String.eqb_spec k "userAgent") as [->|_];
    [exfalso; apply Hk; by_decision|].
  done.
Qed.

Lemma log_request_entry_witness :
  let bound := with_request Sample.root (Some "req-1") None in
  let context := request_context "GET" "/health" (Some "curl") ∅ in
  (_prepare_entry bound Sample.clock "info" "HTTP Request"
     (<["context" := VDict context]> {["request_id" := opt_str None]})
     Sample.start).1 !! "request_id" = None
  /\ context !! "userAgent" = Some (VStr "curl").
Proof.
  pose (bound := with_request Sample.root (Some "req-1") None).
  destruct (@log_request_entry Sample.runtime bound Sample.clock
              "GET" "/health" None (Some "curl") ∅ Sample.start)
    as (_ & _ & _ & Hid & _ & _ & _ & _ & _ & Hagent & _).
  - vm_compute. discriminate.
  - intros k _. apply lookup_empty.
  - split; [exact Hid|]. apply Hagent, lookup_empty.
Defined.

(** X16: [log_response] on a logger that lets level info through emits
    the entry of an info call with the message "HTTP Response", with the
    status code and the duration at the root, the [request_id] argument
    at the root or no request id at all, and a context that holds
    [method], [url] and every keyword as it was passed. *)
Theorem log_response_entry `{Runtime} (self : StructuredLogger)
    (clock : Clock) (method url : string) (status_code duration_ms : Z)
    (request_id : option string) (kwargs : gmap string value) (w : world) :
  (level_threshold self <= 20)%Z ->
  (forall k,
     k ∈ ["method"; "url"; "status_code"; "duration_ms"; "request_id"] ->
     kwargs !! k = None) ->
  let context := response_context method url kwargs in
  let assembled :=
    _prepare_entry self clock "info" "HTTP Response"
      (<["context" := VDict context]>
      (<["duration_ms" := VInt duration_ms]>
      (<["status_code" := VInt status_code]>
      {["request_id" := opt_str request_id]}))) w in
  log_response self clock method url status_code duration_ms request_id
      kwargs w
    = _emit self assembled.1 assembled.2
  /\ assembled.1 !! "message" = Some (VStr "HTTP Response")
  /\ assembled.1 !! "status_code" = Some (VInt status_code)
  /\ assembled.1 !! "duration_ms" = Some (VInt duration_ms)
  /\ assembled.1 !! "request_id" = VStr <$> request_id
  /\ entry_context assembled.1 = context
  /\ context !! "method" = Some (VStr method)
  /\ context !! "url" = Some (VStr url)
  /\ (forall k, k ∉ ["method"; "url"] -> context !! k = kwargs !! k).
Proof.
  intros Hthreshold Hnames context assembled.
  destruct (prepare_entry_root_keywords self clock "info" "HTTP Response"
              context
              (<["duration_ms" := VInt duration_ms]>
              (<["status_code" := VInt status_code]>
              {["request_id" := opt_str request_id]})) w)
    as (Hcontext & Hlevel & Hmessage & Hroot).
  { intros k [v Hv].
    apply lookup_insert_Some in Hv as [[<- _]|[_ Hv]]; [by_decision|].
    apply lookup_insert_Some in Hv as [[<- _]|[_ Hv]]; [by_decision|].
    apply lookup_singleton_Some in Hv as [<- _]. by_decision. }
  assert (kwargs !! "method" = None) as Hm by (apply Hnames; by_decision).
  assert (kwargs !! "url" = None) as Hu by (apply Hnames; by_decision).
  split.
  { unfold log_response, info. by apply log_passed. }
  split; [exact Hmessage|].
  split.
  { unfold assembled. rewrite Hroot by by_decision.
    by rewrite lookup_insert_ne, lookup_insert_eq by discriminate. }
  split.
  { unfold assembled. rewrite Hroot by by_decision.
    by rewrite lookup_insert_eq. }
  split.
  { unfold assembled. rewrite Hroot by by_decision.
    rewrite !lookup_insert_ne, lookup_singleton_eq by discriminate.
    apply strip_none_opt_str. }
  split; [exact Hcontext|].
  unfold context, response_context, dict_update.
  split; [|split].
  - rewrite lookup_union, Hm, (left_id_L None union).
    by rewrite lookup_insert_ne, lookup_insert_eq by discriminate.
  - rewrite lookup_union, Hu, (left_id_L None union).
    by rewrite lookup_insert_eq.
  - intros k Hk.
    assert (k <> "method" /\ k <> "url") as [H1 H2].
    { split; intros ->; apply Hk; by_decision. }
    rewrite lookup_union, !lookup_insert_ne, lookup_empty by done.
    apply (right_id_L None union).
Qed.

Lemma log_response_entry_witness :
  (_prepare_entry Sample.root Sample.clock "info" "HTTP Response"
     (<["context" := VDict (response_context "GET" "/health" ∅)]>
     (<["duration_ms" := VInt 12]>
     (<["status_code" := VInt 200]>
     {["request_id" := opt_str (Some "req-1")]}))) Sample.start).1
    !! "status_code" = Some (VInt 200).
Proof.
  destruct (@log_response_entry Sample.runtime Sample.root Sample.clock
              "GET" "/health" 200 12 (Some "req-1") ∅ Sample.start)
    as (_ & _ & Hstatus & _).
  - vm_compute. discriminate.
  - intros k _. apply lookup_empty.
  - exact Hstatus.
Defined.

(** ** The current logger *)

(** X17: while the function wrapped by [with_span] runs, [get_logger]
    returns the module logger bound with the trace and span ids of the
    span context (an id the context lacks keeps the module logger's
    binding); when it has returned or raised, [get_logger] is what it was
    before the call, whatever the function did to the current logger. *)
Theorem with_span_scopes_the_current_logger {A : Type}
    (root : StructuredLogger) (span_context : gmap string string)
    (fn : process -> option A * process) (p : process) :
  let span_logger :=
    bind_trace root (span_context !! "trace_id")
      (span_context !! "span_id") in
  let inside :=
    {| process_world := process_world p;
       _current_logger := Some span_logger |} in
  get_logger root inside = span_logger
  /\ (forall k, k ∈ ["trace_id"; "span_id"] ->
        bindings span_logger !! k =
          match span_context !! k with
          | Some id => Some (VStr id)
          | None => bindings root !! k
          end)
  /\ (forall k, k ∉ ["trace_id"; "span_id"] ->
        bindings span_logger !! k = bindings root !! k)
  /\ (with_span root span_context fn p).1 = (fn inside).1
  /\ process_world (with_span root span_context fn p).2
     = process_world (fn inside).2
  /\ get_logger root (with_span root span_context fn p).2
     = get_logger root p.
Proof.
  intros span_logger inside. split; [reflexivity|].
  split; [|split].
  - intros k Hk. unfold span_logger, bind_trace.
    rewrite child_bindings_lookup.
    apply elem_of_cons in Hk as [->|Hk].
    { rewrite lookup_insert_eq. by destruct (span_context !! "trace_id"). }
    apply elem_of_cons in Hk as [->|Hk]; [|by apply elem_of_nil in Hk].
    rewrite lookup_insert_ne, lookup_singleton_eq by discriminate.
    by destruct (span_context !! "span_id").
  - intros k Hk. unfold span_logger, bind_trace.
    rewrite child_bindings_lookup.
    assert (k <> "trace_id" /\ k <> "span_id") as [H1 H2]
      by (split; intros ->; apply Hk; by_decision).
    by rewrite lookup_insert_ne, lookup_singleton_ne by done.
  - unfold with_span. fold span_logger. fold inside.
    by destruct (fn inside) as [result p'].
Qed.

(** X18: spans do not nest: a call wrapped in an outer and an inner span
    runs exactly as the call wrapped in the inner span alone, because the
    span logger is derived from the module logger and not from the
    current one; the trace id of the outer span is not seen inside. *)
Theorem nested_span_ignores_outer_span {A : Type} (root : StructuredLogger)
    (outer inner : gmap string string)
    (fn : process -> option A * process) (p : process) :
  with_span root outer (with_span root inner fn) p
  = with_span root inner fn p.
Proof.
  unfold with_span. cbn [process_world _current_logger].
  by destruct (fn _) as [result p'].
Qed.

(** ** Output *)

(** X19: the calls on streams that a log call completes.  A call below
    the threshold, a call whose rendering raises and a call whose write
    raises complete none.  Any other call completes one write of the
    rendered text followed by the line separator, on the logger's own
    stream (standard output when it has none), and after it one flush of
    that stream unless the flush raises.  The calls completed before are
    kept and no other stream is touched.  The log call returns exactly
    when it is filtered or the write and the flush have returned;
    otherwise it raises. *)
Theorem log_appends_to_own_stream `{Runtime} (self : StructuredLogger)
    (clock : Clock) (level message : string) (kwargs : gmap string value)
    (w : world) :
  let stream :=
    match _stream self with Some id => Stream id | None => Stdout end in
  let entry :=
    (_prepare_entry self clock (PyStr.lower level) message kwargs w).1 in
  let rendered :=
    if pretty self then _format_pretty self entry
    else json_dumps_compact (VDict entry) in
  let passes :=
    negb (level_weight (PyStr.lower level) <? level_threshold self)%Z in
  let outcome := log self clock level message kwargs w in
  written (world_of outcome) =
    written w ++
    match rendered with
    | Some text =>
        let line := text +:+ linesep in
        if passes && write_returns (written w) stream line
        then Write stream line
             :: (if flush_returns (written w ++ [Write stream line]) stream
                 then [Flush stream] else [])
        else []
    | None => []
    end
  /\ ((exists w' : world, outcome = Returned w') <->
      passes = false
      \/ exists text : string,
           rendered = Some text
           /\ write_returns (written w) stream (text +:+ linesep) = true
           /\ flush_returns
                (written w ++ [Write stream (text +:+ linesep)]) stream
              = true).
Proof.
  intros stream entry rendered passes outcome.
  unfold outcome, passes, log.
  destruct (_ <? _)%Z; cbn [negb andb].
  { split.
    - cbn [world_of]. destruct rendered; by rewrite app_nil_r.
    - split; [by left|by eexists]. }
  pose proof (prepare_entry_counter self clock (PyStr.lower level) message
                kwargs w) as Hcounter.
  pose proof (prepare_entry_written self clock (PyStr.lower level) message
                kwargs w) as Hwritten.
  unfold rendered, entry.
  destruct (_prepare_entry self clock (PyStr.lower level) message kwargs w)
    as [e w1].
  cbn [fst snd] in *. unfold _emit. fold stream.
  destruct (if pretty self then _ else _) as [text|]; cbn zeta.
  - rewrite Hwritten.
    destruct (write_returns (written w) stream (text +:+ linesep)) eqn:Hwrite.
    + destruct (flush_returns _ stream) eqn:Hflush; cbn [world_of written].
      * split; [reflexivity|]. split; [|by eexists].
        intros _. right. by exists text.
      * split; [reflexivity|]. split; [by intros [w' [=]]|].
        intros [[=]|(text' & [= <-] & _ & Hflush')]. congruence.
    + cbn [world_of]. rewrite Hwritten, app_nil_r.
      split; [reflexivity|]. split; [by intros [w' [=]]|].
      intros [[=]|(text' & [= <-] & Hwrite' & _)]. congruence.
  - cbn [world_of]. rewrite Hwritten, app_nil_r.
    split; [reflexivity|]. split; [by intros [w' [=]]|].
    by intros [[=]|(text' & [=] & _)].
Qed.

(** ** The module-level logger *)

(** X20: the module-level logger built from the process environment is in
    pretty mode exactly when [HOMELAB_LOG_TARGET], in lower case and
    "stdout" when unset, is "stdout" and either [HOMELAB_FORCE_PRETTY] is
    "true" in any case or standard output is a terminal; it colours its
    output exactly when the target is "stdout" and standard output is a
    terminal; whatever the target, it has no stream of its own, so that it
    writes to standard output; and its threshold is the weight of
    [HOMELAB_LOG_LEVEL] in lower case, 20 when unset or unknown. *)
Theorem module_logger_mode (env : gmap string string)
    (pyproject : option string) (isatty : bool) :
  let self := logger (module_config env pyproject) isatty in
  let target := PyStr.lower (default "stdout" (env !! "HOMELAB_LOG_TARGET")) in
  let forced := PyStr.lower (default "" (env !! "HOMELAB_FORCE_PRETTY")) in
  let level := PyStr.lower (default "info" (env !! "HOMELAB_LOG_LEVEL")) in
  (pretty self = true <->
     target = "stdout" /\ (forced = "true" \/ isatty = true))
  /\ (colorize self = true <-> target = "stdout" /\ isatty = true)
  /\ _stream self = None
  /\ level_threshold self = default 20%Z (LEVEL_WEIGHTS !! level)
  /\ (env !! "HOMELAB_LOG_LEVEL" = None -> level_threshold self = 20%Z).
Proof.
  intros self target forced level.
  unfold self, logger, __init__, module_config, use_pretty, getenv.
  cbn [pretty colorize _stream level_threshold log_target force_pretty
       log_level].
  fold target. fold forced. fold level.
  split; [|split; [|split; [|split]]]; try reflexivity.
  - rewrite andb_true_iff, orb_true_iff, !String.eqb_eq. tauto.
  - rewrite !andb_true_iff, orb_true_iff, !String.eqb_eq. tauto.
  - intros Hunset. unfold level. by rewrite Hunset.
Qed.

(** ** Rendering failures *)

Lemma truthy_strings_raises (before after : list value) (v : value) :
  truthy v = true -> ~ is_str v ->
  truthy_strings (before ++ v :: after) = None.
Proof.
  intros Ht Hs. induction before as [|x l IH]; simpl.
  - rewrite Ht. by destruct v.
  - rewrite IH. destruct (truthy x); [|done]. by destruct x.
Qed.

(** A truthy category other than "app" is one of the parts. *)
Lemma pretty_parts_category_segment `{Runtime} (self : StructuredLogger)
    (entry : gmap string value) (level : string) (category : value)
    (parts : list value) :
  entry !! "category" = Some category ->
  truthy category = true -> not_app category = true ->
  pretty_parts self entry level = Some parts ->
  exists pre post : list value, parts = pre ++ category :: post.
Proof.
  intros Hcategory Htruthy Hnot. unfold pretty_parts.
  rewrite Hcategory. cbn [default from_option id]. rewrite Htruthy, Hnot.
  cbn [andb].
  destruct (if truthy (pretty_timestamp entry) then _ else Some [])
    as [time_part|]; [|done].
  cbn [mbind option_bind].
  destruct (_apply_color self (VStr (PyStr.upper level)) _) as [level_part|];
    [|done].
  cbn [mbind option_bind].
  destruct (if truthy (default (VStr "") (entry !! "service")) then _
            else Some []) as [service_part|]; [|done].
  cbn [mbind option_bind].
  destruct (if truthy (dict_get entry "trace_id") then _ else Some [])
    as [trace_part|]; [|done].
  cbn [mbind option_bind].
  destruct (match entry !! "duration_ms" with Some _ => _ | None => _ end)
    as [duration_part|]; [|done].
  cbn [mbind option_bind]. intros [= <-].
  exists (time_part ++ [level_part] ++ service_part),
         (trace_part ++ duration_part
          ++ [VStr "-"; default (VStr "") (entry !! "message")]).
  by rewrite <- !(assoc_L (++)).
Qed.

(** X21: in pretty mode a bound category that is neither a string nor
    falsy makes every call that passes the filter raise: joining the parts
    of the line fails; nothing is written, and the counter of the event
    id generator has been incremented. *)
Theorem pretty_non_string_category_raises `{Runtime}
    (self : StructuredLogger) (clock : Clock) (level message : string)
    (kwargs : gmap string value) (w : world) (category : value) :
  pretty self = true ->
  (level_threshold self <= level_weight (PyStr.lower level))%Z ->
  bindings self !! "category" = Some category ->
  truthy category = true -> ~ is_str category ->
  log self clock level message kwargs w =
    Raised {| _event_id_counter := (_event_id_counter w + 1)%N;
              written := written w |}.
Proof.
  intros Hpretty Hle Hbound Htruthy Hstr.
  rewrite log_passed by exact Hle.
  set (assembled :=
         _prepare_entry self clock (PyStr.lower level) message kwargs w).
  assert (assembled.2 = {| _event_id_counter := (_event_id_counter w + 1)%N;
                           written := written w |}) as Hworld.
  { pose proof (prepare_entry_counter self clock (PyStr.lower level) message
                  kwargs w) as Hc.
    pose proof (prepare_entry_written self clock (PyStr.lower level) message
                  kwargs w) as Hw.
    fold assembled in Hc, Hw. destruct (assembled.2) as [c wr].
    simpl in Hc, Hw. by rewrite Hc, Hw. }
  assert (assembled.1 !! "category" = Some category) as Hcategory.
  { unfold assembled. rewrite prepare_entry_lookup_required by by_decision.
    rewrite (proj2 (proj2 (proj2 (proj2 (entry_literal_lookup _ _ _ _ _))))).
    rewrite Hbound. simpl. by destruct category. }
  assert (assembled.1 !! "level" = Some (VStr (PyStr.lower level)))
    as Hlevel.
  { unfold assembled. rewrite prepare_entry_lookup_required by by_decision.
    by rewrite (proj1 (proj2 (entry_literal_lookup _ _ _ _ _))). }
  unfold _emit. rewrite Hpretty, Hworld.
  assert (_format_pretty self assembled.1 = None) as ->; [|reflexivity].
  unfold _format_pretty, dict_get. rewrite Hlevel.
  cbn [default from_option id].
  assert (exists l, py_or (VStr (PyStr.lower level)) (VStr "info") = VStr l)
    as [l ->].
  { unfold py_or. destruct (truthy (VStr (PyStr.lower level)));
      [by exists (PyStr.lower level)|by exists "info"]. }
  destruct (pretty_parts self assembled.1 (PyStr.lower l)) as [parts|]
    eqn:Hparts; [|reflexivity].
  cbn [mbind option_bind].
  destruct (pretty_parts_category_segment self assembled.1 (PyStr.lower l)
              category parts Hcategory Htruthy) as (pre & post & ->);
    [by destruct category|exact Hparts|].
  by rewrite (truthy_strings_raises pre post category Htruthy Hstr).
Qed.

Lemma pretty_non_string_category_raises_witness :
  @log Sample.runtime
       (child (__init__ Sample.cfg ∅ true false None)
          {["category" := VInt 7]})
       Sample.clock "info" "m" ∅ Sample.start
  = Raised {| _event_id_counter := 1; written := [] |}.
Proof.
  refine (@pretty_non_string_category_raises Sample.runtime
            (child (__init__ Sample.cfg ∅ true false None)
               {["category" := VInt 7]})
            Sample.clock "info" "m" ∅ Sample.start (VInt 7) _ _ _ _ _).
  - reflexivity.
  - vm_compute. discriminate.
  - vm_compute. reflexivity.
  - reflexivity.
  - intros [].
Defined.

(** ** Event ids *)

Lemma sorted_components_NoDup (ids : list string) (counters : list N) :
  Forall2 (fun event_id c => counter_component event_id = Some c)
          ids counters ->
  StronglySorted N.lt counters -> NoDup ids.
Proof.
  intros Hids. induction Hids as [|i c ids cs Hi Hrest IH]; intros Hsorted.
  - constructor.
  - apply StronglySorted_inv in Hsorted as [Hsorted Hlt].
    constructor; [|by apply IH].
    intros Hin. apply list_elem_of_lookup in Hin as [n Hn].
    destruct (Forall2_lookup_l _ _ _ _ _ Hrest Hn) as (c' & Hc' & Hcomp).
    rewrite Hi in Hcomp. injection Hcomp as <-.
    rewrite Forall_forall in Hlt.
    assert (c ∈ cs) as Hc by (by eapply list_elem_of_lookup_2).
    apply Hlt in Hc. lia.
Qed.

(** X22: the event ids generated by any sequence of direct generations
    and log calls of one process are pairwise different, also when the
    clock stands still or goes back. *)
Theorem generated_event_ids_are_distinct `{Runtime} (ops : list operation)
    (w : world) :
  NoDup (run ops w).1.
Proof.
  destruct (run_counters ops w) as (cs & Hids & Hsorted & _).
  by eapply sorted_components_NoDup.
Qed.

(** ** The project version *)

Lemma lstrip_by_none (p : ascii -> bool) (s : string) :
  (forall c, PyStr.mem_char c s = true -> p c = false) ->
  PyStr.lstrip_by p s = s.
Proof.
  destruct s as [|a s]; [done|]. intros Hp. simpl.
  rewrite Hp; [done|]. simpl. by rewrite Ascii.eqb_refl.
Qed.

Lemma rstrip_by_none (p : ascii -> bool) (s : string) :
  (forall c, PyStr.mem_char c s = true -> p c = false) ->
  PyStr.rstrip_by p s = s.
Proof.
  induction s as [|a s IH]; [done|]. intros Hp. simpl.
  rewrite IH.
  - destruct s; [|done]. rewrite Hp; [done|]. simpl.
    by rewrite Ascii.eqb_refl.
  - intros c Hc. apply Hp. simpl. rewrite Hc. apply orb_true_r.
Qed.

Lemma rstrip_by_last_kept (p : ascii -> bool) (s : string) (c : ascii) :
  p c = false ->
  PyStr.rstrip_by p (s +:+ String c "") = s +:+ String c "".
Proof.
  intros Hc. induction s as [|a s IH].
  - change (PyStr.rstrip_by p (String c "") = String c ""). simpl.
    by rewrite Hc.
  - change (PyStr.rstrip_by p (String a (s +:+ String c ""))
            = String a (s +:+ String c "")).
    simpl. rewrite IH. by destruct s.
Qed.

Lemma rstrip_by_last_dropped (p : ascii -> bool) (s : string) (c : ascii) :
  p c = true ->
  PyStr.rstrip_by p (s +:+ String c "") = PyStr.rstrip_by p s.
Proof.
  intros Hc. induction s as [|a s IH].
  - change (PyStr.rstrip_by p (String c "") = PyStr.rstrip_by p ""). simpl.
    by rewrite Hc.
  - change (PyStr.rstrip_by p (String a (s +:+ String c ""))
            = PyStr.rstrip_by p (String a s)).
    simpl. by rewrite IH.
Qed.

Lemma get_version_lines_skips (before rest : list string) :
  Forall (fun l => PyStr.startswith (PyStr.strip l) "version" = false)
         before ->
  get_version_lines (before ++ rest) = get_version_lines rest.
Proof.
  induction 1 as [|l before Hl _ IH]; [done|]. simpl.
  rewrite Hl. exact IH.
Qed.

(** X23: the version is read from the first line that starts with
    "version" once stripped, and from no other: the lines after it are
    not looked at, and when it holds no equals sign the version is
    "0.0.0" even if a later line gives one. *)
Theorem get_version_first_version_line (before after : list string)
    (line : string) :
  Forall (fun l => PyStr.startswith (PyStr.strip l) "version" = false)
         before ->
  PyStr.startswith (PyStr.strip line) "version" = true ->
  get_version_lines (before ++ line :: after) = get_version_lines [line]
  /\ (PyStr.split_once "=" (PyStr.strip line) = None ->
      get_version_lines (before ++ line :: after) = "0.0.0").
Proof.
  intros Hbefore Hline. rewrite get_version_lines_skips by exact Hbefore.
  simpl. rewrite Hline. split.
  - by destruct (PyStr.split_once "=" (PyStr.strip line)) as [[]|].
  - by intros ->.
Qed.

Lemma get_version_first_version_line_witness :
  get_version_lines
    ["[project]"; "version_scheme = 'semver'"; "version = '1.2.3'"]
  = "semver"
  /\ get_version_lines ["# v"; "version 1.2.3"; "version = '1.2.3'"]
     = "0.0.0".
Proof.
  split.
  - refine (eq_trans
              (proj1 (get_version_first_version_line ["[project]"]
                        ["version = '1.2.3'"] "version_scheme = 'semver'"
                        _ _)) _).
    + repeat constructor.
    + reflexivity.
    + reflexivity.
  - refine (proj2 (get_version_first_version_line ["# v"]
                     ["version = '1.2.3'"] "version 1.2.3" _ _) _).
    + repeat constructor.
    + reflexivity.
    + reflexivity.
Defined.

(** X24: a line [version = "v"], where [v] holds no quote character, is
    read back as [v], whatever the lines after it and whatever lines that
    do not start with "version" come before it. *)
Theorem get_version_reads_quoted_value (before after : list string)
    (v : string) :
  Forall (fun l => PyStr.startswith (PyStr.strip l) "version" = false)
         before ->
  (forall c, PyStr.mem_char c v = true -> PyStr.mem_char c QUOTES = false) ->
  get_version_lines
    (before ++ ("version = " +:+ String "034" (v +:+ String "034" ""))
            :: after)
  = v.
Proof.
  intros Hbefore Hv. rewrite get_version_lines_skips by exact Hbefore.
  set (quoted := String "034" (v +:+ String "034" "")).
  assert (PyStr.strip ("version = " +:+ quoted) = "version = " +:+ quoted)
    as Hstrip.
  { unfold PyStr.strip.
    change (PyStr.lstrip_by PyStr.is_space ("version = " +:+ quoted))
      with ("version = " +:+ quoted).
    change ("version = " +:+ quoted)
      with (("version = " +:+ String "034" v) +:+ String "034" "") at 1.
    by rewrite rstrip_by_last_kept. }
  cbn [get_version_lines]. rewrite Hstrip.
  change (PyStr.startswith ("version = " +:+ quoted) "version") with true.
  cbn match.
  change (PyStr.split_once "=" ("version = " +:+ quoted))
    with (Some ("version ", String " " quoted)).
  cbn match.
  assert (PyStr.strip (String " " quoted) = quoted) as ->.
  { unfold PyStr.strip.
    change (PyStr.lstrip_by PyStr.is_space (String " " quoted)) with quoted.
    unfold quoted.
    change (String "034" (v +:+ String "034" ""))
      with ((String "034" v) +:+ String "034" "").
    by rewrite rstrip_by_last_kept. }
  unfold PyStr.strip_chars, quoted.
  change (PyStr.lstrip_by (fun c => PyStr.mem_char c QUOTES)
            (String "034" (v +:+ String "034" "")))
    with (PyStr.lstrip_by (fun c => PyStr.mem_char c QUOTES)
            (v +:+ String "034" "")).
  destruct v as [|a v'].
  - reflexivity.
  - change (String a v' +:+ String "034" "")
      with (String a (v' +:+ String "034" "")).
    cbn [PyStr.lstrip_by].
    rewrite (Hv a) by (simpl; by rewrite Ascii.eqb_refl).
    change (String a (v' +:+ String "034" ""))
      with (String a v' +:+ String "034" "").
    rewrite rstrip_by_last_dropped by reflexivity.
    by apply rstrip_by_none.
Qed.

Lemma get_version_reads_quoted_value_witness :
  get_version_lines
    ["[project]"; "name = 'homelab'";
     "version = " +:+ String "034" ("0.4.1" +:+ String "034" "");
     "version = '9.9.9'"]
  = "0.4.1".
Proof.
  refine (get_version_reads_quoted_value ["[project]"; "name = 'homelab'"]
            ["version = '9.9.9'"] "0.4.1" _ _).
  - repeat constructor.
  - intros c Hc. simpl in Hc.
    repeat (apply orb_true_iff in Hc as [Hc|Hc];
            [apply Ascii.eqb_eq in Hc as ->; reflexivity|]).
    discriminate Hc.
Defined.

(** ** The threshold of a logger object *)

(** X25: the threshold of a logger is read from the configuration when
    the logger is constructed and kept: assigning another level to the
    shared configuration afterwards changes the configuration the logger
    sees but not its threshold, whereas a logger derived after the
    assignment filters by the new level. *)
Theorem threshold_is_fixed_at_construction (h : gmap positive Heap.object)
    (self config_ref bindings_ref : positive) (p c : bool)
    (s : option nat) (threshold : Z) (lg : StructuredLogger)
    (level : string) (kwargs : gmap string value) :
  h !! self = Some (Heap.OLogger config_ref bindings_ref p c s threshold) ->
  Heap.read_logger h self = Some lg ->
  let h1 := Heap.set_log_level config_ref level h in
  exists (lg1 derived : StructuredLogger) (new : positive)
         (h2 : gmap positive Heap.object),
    Heap.read_logger h1 self = Some lg1
    /\ log_level (config lg1) = level
    /\ level_threshold lg1 = level_threshold lg
    /\ bindings lg1 = bindings lg
    /\ Heap.child self kwargs h1 = Some (new, h2)
    /\ Heap.read_logger h2 new = Some derived
    /\ level_threshold derived = default 20%Z (LEVEL_WEIGHTS !! level).
Proof.
  intros Hself Hread h1. unfold Heap.read_logger in Hread.
  rewrite Hself in Hread.
  destruct (h !! config_ref) as [[|cfg|]|] eqn:Hc; try discriminate Hread.
  destruct (h !! bindings_ref) as [[b| |]|] eqn:Hb; try discriminate Hread.
  injection Hread as <-.
  set (cfg1 := {| service := service cfg; environment := environment cfg;
                  log_target := log_target cfg; log_level := level;
                  force_pretty := force_pretty cfg;
                  version := version cfg |}).
  assert (h1 = <[config_ref := Heap.OConfig cfg1]> h) as Hh1.
  { unfold h1, Heap.set_log_level. by rewrite Hc. }
  assert (self <> config_ref) as Hsc by (intros ->; congruence).
  assert (bindings_ref <> config_ref) as Hbc by (intros ->; congruence).
  set (lg1 := {| config := cfg1; bindings := b; pretty := p; colorize := c;
                 _stream := s; level_threshold := threshold |}).
  assert (Heap.read_logger h1 self = Some lg1) as Hread1.
  { unfold Heap.read_logger.
    rewrite Hh1, (lookup_insert_ne h config_ref self) by done.
    rewrite Hself, lookup_insert_eq.
    by rewrite (lookup_insert_ne h config_ref bindings_ref), Hb by done. }
  destruct (heap_child_spec self kwargs h1 lg1 Hread1)
    as (new & h2 & Hchild & _ & _ & Hnew).
  exists lg1, (child lg1 kwargs), new, h2.
  repeat split; try done.
Qed.

Lemma threshold_is_fixed_at_construction_witness :
  exists (lg1 derived : StructuredLogger),
    Heap.read_logger
      (Heap.set_log_level 1%positive "error"
         (<[3%positive := Heap.OLogger 1 2 false false None 20]>
          (<[2%positive := Heap.ODict ∅]>
           {[1%positive := Heap.OConfig Sample.cfg]})))
      3%positive = Some lg1
    /\ level_threshold lg1 = 20%Z
    /\ level_threshold derived = 40%Z.
Proof.
  destruct (threshold_is_fixed_at_construction
              (<[3%positive := Heap.OLogger 1 2 false false None 20]>
               (<[2%positive := Heap.ODict ∅]>
                {[1%positive := Heap.OConfig Sample.cfg]}))
              3%positive 1%positive 2%positive false false None 20%Z
              {| config := Sample.cfg; bindings := ∅; pretty := false;
                 colorize := false; _stream := None;
                 level_threshold := 20 |}
              "error" ∅)
    as (lg1 & derived & new & h2 & Hread & _ & Hsame & _ & _ & _ & Hnew).
  - reflexivity.
  - reflexivity.
  - exists lg1, derived. split; [exact Hread|]. split; [exact Hsame|].
    exact Hnew.
Defined.

(** ** The entry point *)

Lemma greeting_lookup (j : string) (v : value) :
  GREETING !! j = Some v ->
  (j ∉ consumed_keys) /\ is_none v = false.
Proof.
  unfold GREETING. intros Hj.
  apply lookup_insert_Some in Hj as [[<- <-]|[_ Hj]];
    [split; [by_refutation|done]|].
  apply lookup_insert_Some in Hj as [[<- <-]|[_ Hj]];
    [split; [by_refutation|done]|].
  apply lookup_singleton_Some in Hj as [<- <-].
  split; [by_refutation|done].
Qed.

(** X26: [main] of src/main.py writes nothing when [HOMELAB_LOG_LEVEL], in
    lower case, is warn, warning or error; for any other level, also an
    unknown one, it emits one entry at level info with the service
    "homelab-main", the environment and the version of the module-level
    configuration, the category "app", the message "Hello from homelab!",
    none of the optional root fields, and the three greeting keywords as
    its context. *)
Theorem main_logs_greeting `{Runtime} (env : gmap string string)
    (pyproject : option string) (isatty : bool) (clock : Clock)
    (w : world) :
  let cfg := module_config env pyproject in
  let app_logger :=
    bind (logger cfg isatty) {["service" := VStr "homelab-main"]} in
  let assembled :=
    _prepare_entry app_logger clock "info" "Hello from homelab!" GREETING w in
  let level := PyStr.lower (default "info" (env !! "HOMELAB_LOG_LEVEL")) in
  (level ∈ ["warn"; "warning"; "error"] ->
     main env pyproject isatty clock w = Returned w)
  /\ (level ∉ ["warn"; "warning"; "error"] ->
        main env pyproject isatty clock w
        = _emit app_logger assembled.1 assembled.2)
  /\ assembled.1 !! "level" = Some (VStr "info")
  /\ assembled.1 !! "message" = Some (VStr "Hello from homelab!")
  /\ assembled.1 !! "service" = Some (VStr "homelab-main")
  /\ assembled.1 !! "environment"
     = Some (VStr (default "development" (env !! "HOMELAB_ENVIRONMENT")))
  /\ assembled.1 !! "version" = Some (VStr (get_version pyproject))
  /\ assembled.1 !! "category" = Some (VStr "app")
  /\ (forall k, k ∈ OPTIONAL_ROOT_FIELDS -> assembled.1 !! k = None)
  /\ entry_context assembled.1 = GREETING.
Proof.
  intros cfg app_logger assembled level.
  assert (level_threshold app_logger
          = default 20%Z (LEVEL_WEIGHTS !! level)) as Hthreshold
    by reflexivity.
  assert (forall k,
            bindings app_logger !! k =
              (<["service" := VStr "homelab-main"]>
               (<["environment" := VStr (environment cfg)]>
               (<["version" := VStr (version cfg)]>
               (<["category" := VStr "app"]> ∅))) : gmap string value) !! k)
    as Hbindings.
  { intros k. unfold app_logger, bind. rewrite child_bindings_lookup.
    destruct (decide (k = "service")) as [->|Hk].
    - by rewrite lookup_singleton_eq, lookup_insert_eq.
    - rewrite lookup_singleton_ne by done. unfold logger, __init__.
      cbn [bindings]. by rewrite !(lookup_insert_ne _ "service" k). }
  split; [|split].
  - intros Hlevel. unfold main, info. apply log_filtered.
    fold cfg. fold app_logger. rewrite Hthreshold.
    change (level_weight (PyStr.lower "info")) with 20%Z.
    repeat (apply elem_of_cons in Hlevel as [Hl|Hlevel];
            [rewrite Hl; vm_compute; reflexivity|]).
    by apply elem_of_nil in Hlevel.
  - intros Hlevel. unfold main, info. fold cfg. fold app_logger.
    apply log_passed. rewrite Hthreshold.
    change (level_weight (PyStr.lower "info")) with 20%Z.
    destruct (LEVEL_WEIGHTS !! level) as [weight|] eqn:Hweight; [|done].
    unfold LEVEL_WEIGHTS in Hweight.
    apply elem_of_list_to_map_2 in Hweight.
    apply elem_of_cons in Hweight as [[= _ ->]|Hweight]; [simpl; lia|].
    apply elem_of_cons in Hweight as [[= _ ->]|Hweight]; [simpl; lia|].
    exfalso. apply Hlevel.
    repeat (apply elem_of_cons in Hweight as [[= Hl _]|Hweight];
            [rewrite Hl; by_decision|]).
    by apply elem_of_nil in Hweight.
  - unfold assembled.
    rewrite !prepare_entry_lookup_required by by_decision.
    destruct (entry_literal_lookup app_logger (now_isoformat clock) "info"
                "Hello from homelab!"
                (default
                   (VStr (generate_event_id (now_epoch_ms clock) w).1)
                   (GREETING !! "event_id")))
      as (_ & Hl & Hm & Hs & Hc).
    destruct (entry_literal_lookup_more app_logger (now_isoformat clock)
                "info" "Hello from homelab!"
                (default
                   (VStr (generate_event_id (now_epoch_ms clock) w).1)
                   (GREETING !! "event_id")))
      as (He & Hv).
    cbn zeta in Hl, Hm, Hs, Hc, He, Hv.
    assert (bindings app_logger !! "service" = Some (VStr "homelab-main"))
      as Hbs by (rewrite Hbindings; apply lookup_insert_eq).
    assert (bindings app_logger !! "environment"
            = Some (VStr (environment cfg))) as Hbe.
    { rewrite Hbindings. rewrite lookup_insert_ne by discriminate.
      apply lookup_insert_eq. }
    assert (bindings app_logger !! "version" = Some (VStr (version cfg)))
      as Hbv.
    { rewrite Hbindings. do 2 (rewrite lookup_insert_ne by discriminate).
      apply lookup_insert_eq. }
    assert (bindings app_logger !! "category" = Some (VStr "app")) as Hbc.
    { rewrite Hbindings. do 3 (rewrite lookup_insert_ne by discriminate).
      apply lookup_insert_eq. }
    rewrite Hl, Hm, Hs, Hc, He, Hv, Hbs, Hbe, Hbv, Hbc.
    repeat (split; [reflexivity|]).
    split.
    + intros k Hk.
      assert (k <> "context") as Hc'
        by (intros ->; by apply context_not_optional).
      rewrite prepare_entry_lookup_root by exact Hc'.
      rewrite (bool_decide_eq_true_2 _ Hk).
      assert (GREETING !! k = None) as ->.
      { destruct (GREETING !! k) as [v|] eqn:Hg; [|done].
        apply greeting_lookup in Hg as [Hg _]. exfalso. apply Hg.
        by do 2 apply list_elem_of_further. }
      assert (bindings app_logger !! k = None) as Hnone.
      { rewrite Hbindings.
        rewrite !lookup_insert_ne, lookup_empty;
          [done|intros <-; revert Hk; by_refutation..]. }
      unfold dict_get. by rewrite Hnone.
    + apply map_eq. intros j. rewrite prepare_entry_context_lookup.
      change (nested_context GREETING) with (∅ : gmap string value).
      rewrite lookup_empty.
      destruct (GREETING !! j) as [v|] eqn:Hg.
      * apply greeting_lookup in Hg as [Hj Hnot].
        by rewrite (bool_decide_eq_false_2 _ Hj), Hnot.
      * by destruct (bool_decide (j ∈ consumed_keys)).
Qed.

Lemma main_logs_greeting_witness :
  @main Sample.runtime {["HOMELAB_LOG_LEVEL" := "ERROR"]} None false
        Sample.clock Sample.start
  = Returned Sample.start.
Proof.
  refine (proj1 (@main_logs_greeting Sample.runtime
                   {["HOMELAB_LOG_LEVEL" := "ERROR"]} None false
                   Sample.clock Sample.start) _).
  by_decision.
Defined.
